(** * Afanc autodatabase: taxonomy reconciliation (taxadd.py)

    A shallow embedding of [src/Afanc/autodatabase/taxadd.py] and the
    properties its specification states about it.

    Conventions of the embedding.
    - A Python [str] is a list of characters ([str := list ascii], the
      code points below 256); literals are written ["..."] in [str_scope].
    - A Python exception is a value of [exn]; a function that can raise
      returns [result].  [Unmodelled] is not a Python exception: it marks
      the inputs on which a library (pandas, re, Biopython) does something
      this development does not describe, such as inferring a float64 or
      bool column.  No statement below is about such an input.
    - A DataFrame is a table of typed cells with integer column labels
      [0 .. ncols-1], stored row by row.
    - The file system is a finite map from paths to files; a file is either
      a plain text, as a text-mode reader returns it, or a gzip archive of a
      text.  Directories are not modelled: a write always succeeds.
    - A sequence of writes and renames is a [script], run one effect at a
      time, so that the states in between can be spoken of.
    - [print] to standard output is not modelled: no result depends on it.

    The file has three parts: the embedding of the libraries and of
    taxadd.py; the vocabulary of the specification; the proofs. *)

From Stdlib Require Import List Ascii ZArith Lia Bool Decimal DecimalZ DecimalPos.
From stdpp Require Import gmap strings list.
Import ListNotations.


(* ================================================================== *)
(** * Python strings *)
(* ================================================================== *)

Abbreviation str := (list ascii).

(** String literals for [str]. *)
Inductive str_lit := lit_nil | lit_cons (c : ascii) (s : str_lit).

Fixpoint str_lit_of_bytes (bs : list Byte.byte) : str_lit :=
  match bs with
  | [] => lit_nil
  | b :: bs' => lit_cons (ascii_of_byte b) (str_lit_of_bytes bs')
  end.

Fixpoint str_lit_to_bytes (s : str_lit) : list Byte.byte :=
  match s with
  | lit_nil => []
  | lit_cons c s' => byte_of_ascii c :: str_lit_to_bytes s'
  end.

Declare Scope str_scope.
Delimit Scope str_scope with str.
#[warnings="-via-type-remapping,-via-type-mismatch"]
String Notation list str_lit_of_bytes str_lit_to_bytes
  (via str_lit mapping [[nil] => lit_nil, [cons] => lit_cons]) : str_scope.
Local Open Scope str_scope.
Local Open Scope Z_scope.

Definition chr (n : nat) : ascii := ascii_of_nat n.
Definition TAB : ascii := chr 9.
Definition LF : ascii := chr 10.
Definition CR : ascii := chr 13.
Definition QUOTE : ascii := chr 34.
Definition NUL : ascii := chr 0.
Definition BACKSLASH : ascii := chr 92.

(** [c in s] for a character [c]. *)
Definition mem_char (c : ascii) (s : str) : bool := existsb (Ascii.eqb c) s.

(** [str.isspace] of one character: the whitespace [str.strip] removes. *)
Definition py_isspace (c : ascii) : bool :=
  let n := nat_of_ascii c in
  ((9 <=? n) && (n <=? 13) || (28 <=? n) && (n <=? 32)
   || (n =? 133) || (n =? 160))%nat.

(** C's [isspace] in the "C" locale, as pandas' tokenizer uses it. *)
Definition c_isspace (c : ascii) : bool :=
  let n := nat_of_ascii c in ((9 <=? n) && (n <=? 13) || (n =? 32))%nat.

Definition is_digit (c : ascii) : bool :=
  let n := nat_of_ascii c in ((48 <=? n) && (n <=? 57))%nat.

Fixpoint drop_while (p : ascii -> bool) (s : str) : str :=
  match s with
  | [] => []
  | c :: s' => if p c then drop_while p s' else s
  end.

Fixpoint take_while (p : ascii -> bool) (s : str) : str :=
  match s with
  | [] => []
  | c :: s' => if p c then c :: take_while p s' else []
  end.

Definition py_lstrip (s : str) : str := drop_while py_isspace s.
Definition py_rstrip (s : str) : str := rev (drop_while py_isspace (rev s)).
(** [s.strip()] *)
Definition py_strip (s : str) : str := py_rstrip (py_lstrip s).

(** [s.startswith(p)] *)
Fixpoint py_startswith (p s : str) : bool :=
  match p, s with
  | [], _ => true
  | a :: p', b :: s' => Ascii.eqb a b && py_startswith p' s'
  | _ :: _, [] => false
  end.

(** [s.endswith(p)] *)
Definition py_endswith (p s : str) : bool := py_startswith (rev p) (rev s).

(** [s.replace(old, new)] for one-character [old] and [new]. *)
Definition py_replace (old new : ascii) (s : str) : str :=
  map (fun c => if Ascii.eqb c old then new else c) s.

(** [s.count(c)] for a one-character [c]. *)
Definition py_count (c : ascii) (s : str) : Z :=
  Z.of_nat (length (List.filter (Ascii.eqb c) s)).

(** [sep.join(parts)] *)
Fixpoint py_join (sep : str) (parts : list str) : str :=
  match parts with
  | [] => []
  | [p] => p
  | p :: ps => p ++ sep ++ py_join sep ps
  end.

(** [s.split(sep)] for a non-empty [sep]: the pieces between the leftmost
    non-overlapping occurrences of [sep].  [skip] counts the characters of
    an occurrence still to be passed over, [cur] is the current piece,
    reversed. *)
Fixpoint split_go (sep : str) (skip : nat) (cur : str) (s : str) : list str :=
  match s with
  | [] => [rev cur]
  | c :: s' =>
      match skip with
      | S k => split_go sep k cur s'
      | O =>
          if py_startswith sep s
          then rev cur :: split_go sep (length sep - 1) [] s'
          else split_go sep 0 (c :: cur) s'
      end
  end.

(** The pieces of [s] between the occurrences of the character [c]:
    [s.split(c)], and the fields of a delimited record. *)
Fixpoint split_char (c : ascii) (s : str) : list str :=
  match s with
  | [] => [[]]
  | a :: s' =>
      if Ascii.eqb a c then [] :: split_char c s'
      else match split_char c s' with
           | p :: ps => (a :: p) :: ps
           | [] => [[a]]
           end
  end.

(** The first whitespace-delimited word of [s], [""] when there is none:
    [s.split(None, 1)[0]] guarded as Biopython guards it. *)
Definition first_word (s : str) : str :=
  take_while (fun c => negb (py_isspace c)) (py_lstrip s).

(** [posixpath.basename] *)
Definition basename (p : str) : str := List.last (split_char "/" p) [].

(** [posixpath.join(a, b)] *)
Definition path_join (a b : str) : str :=
  if py_startswith "/" b then b
  else if bool_decide (a = []) || py_endswith "/" a then a ++ b
  else a ++ "/" ++ b.

(** ** Decimal integers *)

Fixpoint uint_to_str (d : Decimal.uint) : str :=
  match d with
  | Nil => []
  | D0 d => "0" :: uint_to_str d
  | D1 d => "1" :: uint_to_str d
  | D2 d => "2" :: uint_to_str d
  | D3 d => "3" :: uint_to_str d
  | D4 d => "4" :: uint_to_str d
  | D5 d => "5" :: uint_to_str d
  | D6 d => "6" :: uint_to_str d
  | D7 d => "7" :: uint_to_str d
  | D8 d => "8" :: uint_to_str d
  | D9 d => "9" :: uint_to_str d
  end%char.

(** [str(z)] for an integer [z]. *)
Definition Z_to_str (z : Z) : str :=
  match Z.to_int z with
  | Pos d => uint_to_str d
  | Neg d => "-"%char :: uint_to_str d
  end.

Definition digit_cons (c : ascii) : option (Decimal.uint -> Decimal.uint) :=
  match nat_of_ascii c with
  | 48 => Some D0 | 49 => Some D1 | 50 => Some D2 | 51 => Some D3
  | 52 => Some D4 | 53 => Some D5 | 54 => Some D6 | 55 => Some D7
  | 56 => Some D8 | 57 => Some D9
  | _ => None
  end%nat.

(** The digits at the head of [s] and what follows them. *)
Fixpoint read_digits (s : str) : Decimal.uint * str :=
  match s with
  | [] => (Nil, [])
  | c :: s' =>
      match digit_cons c with
      | Some k => let '(d, r) := read_digits s' in (k d, r)
      | None => (Nil, s)
      end
  end.

Definition INT64_MIN : Z := - 2 ^ 63.
Definition INT64_MAX : Z := 2 ^ 63 - 1.

(** The digits of an integer token after its sign, and the blanks that
    may follow them; the value must fit int64. *)
Definition int_of_digits (neg : bool) (s : str) : option Z :=
  match read_digits s with
  | (Nil, _) => None
  | (d, r) =>
      match drop_while c_isspace r with
      | [] =>
          let z := Z.of_int (if neg then Neg d else Pos d) in
          if (INT64_MIN <=? z) && (z <=? INT64_MAX) then Some z else None
      | _ :: _ => None
      end
  end.

(** pandas' [str_to_int64]: optional blanks, an optional sign, at least one
    digit, optional blanks, and nothing else. *)
Definition str_to_int64 (s : str) : option Z :=
  match drop_while c_isspace s with
  | [] => None
  | c :: r =>
      if Ascii.eqb c "-" then int_of_digits true r
      else if Ascii.eqb c "+" then int_of_digits false r
      else int_of_digits false (c :: r)
  end.

(* ================================================================== *)
(** * Exceptions *)
(* ================================================================== *)

Inductive exn :=
| KeyError
| ValueError
| TypeError
| IndexError
| UnboundLocalError (name : str)
| FileNotFoundError
| BadGzipFile
| UnicodeDecodeError
| EmptyDataError
| ParserError
| ReError
| Unmodelled.

Inductive result (A : Type) :=
| Ok (a : A)
| Err (e : exn).
Arguments Ok {A} a.
Arguments Err {A} e.

Definition bind {A B} (m : result A) (k : A -> result B) : result B :=
  match m with
  | Ok a => k a
  | Err e => Err e
  end.

Notation "x <- m ;; k" := (bind m (fun x => k))
  (at level 100, m at next level, right associativity).

(** [mapM]: run [f] on every element, stopping at the first exception. *)
Fixpoint mapM {A B} (f : A -> result B) (l : list A) : result (list B) :=
  match l with
  | [] => Ok []
  | a :: l' => b <- f a ;; bs <- mapM f l' ;; Ok (b :: bs)
  end.

(** [foldM]: a [for] loop over [l] threading the state [s]. *)
Fixpoint foldM {A S} (f : S -> A -> result S) (s : S) (l : list A) : result S :=
  match l with
  | [] => Ok s
  | a :: l' => s' <- f s a ;; foldM f s' l'
  end.

(* ================================================================== *)
(** * pandas: cells, frames, read_csv *)
(* ================================================================== *)

(** The values a cell of a frame holds in this program; they are also the
    Python values the program computes with. *)
Inductive cell :=
| CInt (z : Z)          (* an int64 / Python int *)
| CStr (s : str)        (* a str in an object column *)
| CNaN.                 (* the missing value, a float64 NaN *)

Global Instance cell_eq_dec : EqDecision cell.
Proof. solve_decision. Defined.

(** [str(v)] *)
Definition py_str (v : cell) : str :=
  match v with
  | CInt z => Z_to_str z
  | CStr s => s
  | CNaN => "nan"
  end.

(** [len(v)] *)
Definition py_len (v : cell) : result Z :=
  match v with
  | CStr s => Ok (Z.of_nat (length s))
  | _ => Err TypeError
  end.

Fixpoint str_ltb (a b : str) : bool :=
  match a, b with
  | _, [] => false
  | [], _ :: _ => true
  | x :: a', y :: b' =>
      let n := nat_of_ascii x in
      let m := nat_of_ascii y in
      (n <? m)%nat || ((n =? m)%nat && str_ltb a' b')
  end.

(** [a > b] *)
Definition py_gt (a b : cell) : result bool :=
  match a, b with
  | CInt x, CInt y => Ok (y <? x)
  | CStr x, CStr y => Ok (str_ltb y x)
  | CNaN, (CInt _ | CNaN) | CInt _, CNaN => Ok false
  | _, _ => Err TypeError
  end.

(** [max(iterable)]: the first maximal element. *)
Definition py_max (l : list cell) : result cell :=
  match l with
  | [] => Err ValueError
  | x :: xs =>
      foldM (fun best item =>
               g <- py_gt item best ;; Ok (if g : bool then item else best))
            x xs
  end.

Inductive dtype := Int64 | Float64 | Object.

Global Instance dtype_eq_dec : EqDecision dtype.
Proof. solve_decision. Defined.

(** A frame with column labels [0 .. ncols-1]; every row has [ncols]
    cells. *)
Record DataFrame := mkDF { ncols : nat; rows : list (list cell) }.

Definition is_CStr (c : cell) : bool :=
  match c with CStr _ => true | _ => false end.
Definition is_CInt (c : cell) : bool :=
  match c with CInt _ => true | _ => false end.

(** [df[j]] as the list of its values; [KeyError] for an absent label. *)
Definition df_col (df : DataFrame) (j : nat) : result (list cell) :=
  if (j <? ncols df)%nat then Ok (map (fun r => nth j r CNaN) (rows df))
  else Err KeyError.

(** The dtype of a column holding the values [col]. *)
Definition col_dtype (col : list cell) : dtype :=
  if existsb is_CStr col then Object
  else if forallb is_CInt col then Int64
  else Float64.

Definition df_dtypes (df : DataFrame) : list dtype :=
  map (fun j => col_dtype (map (fun r => nth j r CNaN) (rows df)))
      (seq 0 (ncols df)).

(** [df[mask]] for a boolean mask: the rows whose entry is true. *)
Fixpoint mask_rows {A} (l : list A) (mask : list bool) : list A :=
  match l, mask with
  | x :: l', b :: mask' => if b then x :: mask_rows l' mask' else mask_rows l' mask'
  | _, _ => []
  end.

Definition df_mask (df : DataFrame) (mask : list bool) : DataFrame :=
  mkDF (ncols df) (mask_rows (rows df) mask).

(** [df.empty] *)
Definition df_empty (df : DataFrame) : bool :=
  (ncols df =? 0)%nat || (length (rows df) =? 0)%nat.

(** [df.iloc[i, j]] *)
Definition df_iloc (df : DataFrame) (i j : nat) : result cell :=
  match rows df !! i with
  | Some r => match r !! j with Some c => Ok c | None => Err IndexError end
  | None => Err IndexError
  end.

(** [pd.DataFrame([row])] *)
Definition df_of_row (row : list cell) : DataFrame :=
  mkDF (length row) [row].

(** A row brought to width [n]: absent labels are filled with NaN. *)
Definition pad_row (n : nat) (r : list cell) : list cell :=
  r ++ repeat CNaN (n - length r).

(** [a.append(b)]: the rows of [a] then those of [b], over the union of
    their column labels. *)
Definition df_append (a b : DataFrame) : DataFrame :=
  let n := Nat.max (ncols a) (ncols b) in
  mkDF n (map (pad_row n) (rows a) ++ map (pad_row n) (rows b)).

(** [df.iterrows()], the rows as Series.  A row Series has one dtype: when
    every column is numeric and int64 meets float64, the integers are
    converted to floats, which this development does not describe. *)
Definition df_iterrows (df : DataFrame) : result (list (list cell)) :=
  let ts := df_dtypes df in
  if existsb (fun t => bool_decide (t = Object)) ts then Ok (rows df)
  else if existsb (fun t => bool_decide (t = Int64)) ts
          && existsb (fun t => bool_decide (t = Float64)) ts
          && negb (length (rows df) =? 0)%nat
       then Err Unmodelled
       else Ok (rows df).

(** pandas' default [na_values]. *)
Definition na_values : list str :=
  [ ""; "#N/A"; "#N/A N/A"; "#NA"; "-1.#IND"; "-1.#QNAN"; "-NaN"; "-nan";
    "1.#IND"; "1.#QNAN"; "<NA>"; "N/A"; "NA"; "NULL"; "NaN"; "None";
    "n/a"; "nan"; "null" ].

Definition is_na (s : str) : bool := existsb (fun v => bool_decide (s = v)) na_values.

(** ASCII lower case, as [strcasecmp] compares. *)
Definition to_lower (c : ascii) : ascii :=
  let n := nat_of_ascii c in
  if ((65 <=? n) && (n <=? 90))%nat then ascii_of_nat (n + 32) else c.

(** The words the C parser reads as a float or as a boolean although
    they do not begin as a number; it compares them without case. *)
Definition special_words : list str :=
  [ "inf"; "+inf"; "-inf"; "infinity"; "+infinity"; "-infinity"; "true"; "false" ].

(** The token begins as a number: after one optional sign comes a digit
    or the decimal point.  The number parsers of pandas ([str_to_int64],
    [xstrtod], [precise_xstrtod]) all fail on a token that, its leading
    blanks skipped, does not begin so. *)
Definition number_head (s : str) : bool :=
  match s with
  | [] => false
  | c :: r =>
      if Ascii.eqb c "-" || Ascii.eqb c "+" then
        match r with
        | [] => false
        | d :: _ => is_digit d || Ascii.eqb d "."
        end
      else is_digit c || Ascii.eqb c "."
  end.

(** A token that pandas reads neither as an integer, nor as a float, nor
    as a boolean: without the blanks around it, it does not begin as a
    number and is none of the special words.  The test is on the stripped
    token, which leaves aside some tokens that pandas would also keep as
    text (a special word with blanks around it, say). *)
Definition never_numeric (s : str) : bool :=
  let t := py_strip s in
  negb (number_head t)
  && negb (existsb (fun w => bool_decide (map to_lower t = w)) special_words).

Inductive col_kind := KNaN | KInt | KObj.

(** Type inference for one column of raw tokens. *)
Definition infer_kind (col : list str) : result col_kind :=
  if forallb is_na col then Ok KNaN
  else if forallb (fun s => negb (is_na s) && bool_decide (is_Some (str_to_int64 s))) col
  then Ok KInt
  else if existsb (fun s => negb (is_na s) && never_numeric s) col then Ok KObj
  else Err Unmodelled.

Definition convert (k : col_kind) (s : str) : cell :=
  match k with
  | KNaN => CNaN
  | KInt => match str_to_int64 s with Some z => CInt z | None => CNaN end
  | KObj => if is_na s then CNaN else CStr s
  end.

Fixpoint convert_row (ks : list col_kind) (r : list str) : list cell :=
  match ks with
  | [] => []
  | k :: ks' =>
      match r with
      | s :: r' => convert k s :: convert_row ks' r'
      | [] => convert k [] :: convert_row ks' []
      end
  end.

(** A line the tokenizer skips: empty, or blanks and tabs only. *)
Definition blank_line (l : str) : bool :=
  forallb (fun c => Ascii.eqb c " " || Ascii.eqb c TAB) l.

(** The number of rows the C parser converts at a time when
    [low_memory] is set, as it is by default:
    [heuristic = 2**20 // table_width; buffer_lines = 1;
     while buffer_lines * 2 < heuristic: buffer_lines *= 2]. *)
Fixpoint grow_lines (fuel : nat) (lines heuristic : N) : N :=
  match fuel with
  | O => lines
  | S k =>
      if (lines * 2 <? heuristic)%N then grow_lines k (lines * 2) heuristic
      else lines
  end.

Definition buffer_lines (table_width : nat) : N :=
  grow_lines 20 1 (2 ^ 20 / N.of_nat table_width)%N.

(** [pd.read_csv(text, header=None, sep="|")].

    The records are the lines that are not blank; the first one fixes the
    number of columns; a longer record is an error and a shorter one is
    completed with missing values; every column gets one dtype.  Outside
    the model are: carriage returns; the NUL character, at which the C
    tokenizer cuts a token; quoted fields (a token that starts with a
    double quote); and a text of more records than [buffer_lines], for
    which pandas infers the dtypes chunk by chunk. *)
Definition read_csv (text : str) : result DataFrame :=
  if mem_char CR text || mem_char NUL text then Err Unmodelled else
  let records := List.filter (fun l => negb (blank_line l)) (split_char LF text) in
  let raw := map (split_char "|") records in
  match raw with
  | [] => Err EmptyDataError
  | first :: _ =>
      let n := length first in
      if existsb (fun r => (n <? length r)%nat) raw then Err ParserError
      else if existsb (existsb (py_startswith [QUOTE])) raw then Err Unmodelled
      else if (buffer_lines n <? N.of_nat (length raw))%N then Err Unmodelled
      else
        ks <- mapM (fun j => infer_kind (map (fun r => nth j r []) raw)) (seq 0 n) ;;
        Ok (mkDF n (map (convert_row ks) raw))
  end.

(** [df.apply(lambda x: x.str.strip() if x.dtype == "object" else x)] *)
Definition strip_cell (t : dtype) (c : cell) : cell :=
  match t, c with
  | Object, CStr s => CStr (py_strip s)
  | _, _ => c
  end.

Fixpoint strip_row (ts : list dtype) (r : list cell) : list cell :=
  match ts, r with
  | t :: ts', c :: r' => strip_cell t c :: strip_row ts' r'
  | _, _ => r
  end.

Definition df_strip_objects (df : DataFrame) : DataFrame :=
  mkDF (ncols df) (map (strip_row (df_dtypes df)) (rows df)).

(* ================================================================== *)
(** * re: the substitution [re.sub(r"(>.+)", template, text)] *)
(* ================================================================== *)

(** What [.+] consumes: the longest run of characters other than the line
    feed, and the text after it. *)
Fixpoint span_line (s : str) : str * str :=
  match s with
  | [] => ([], [])
  | c :: s' =>
      if Ascii.eqb c LF then ([], s)
      else let '(m, r) := span_line s' in (c :: m, r)
  end.

(** A match of [(>.+)] at the head of [s]: the matched text and the rest. *)
Definition match_header (s : str) : option (str * str) :=
  match s with
  | c :: s' =>
      if Ascii.eqb c ">" then
        match span_line s' with
        | ([], _) => None
        | (m, r) => Some (c :: m, r)
        end
      else None
  | [] => None
  end.

(** The scan of [re.sub]: at each position either the pattern matches and
    the match is replaced, or the character is copied. *)
Fixpoint sub_scan (fuel : nat) (repl : str -> str) (s : str) : str :=
  match fuel with
  | O => []
  | S fuel' =>
      match s with
      | [] => []
      | c :: s' =>
          match match_header s with
          | Some (m, r) => repl m ++ sub_scan fuel' repl r
          | None => c :: sub_scan fuel' repl s'
          end
      end
  end.

(** A parsed replacement template: literal characters and group
    references. *)
Inductive titem := TLit (c : ascii) | TGroup (n : nat).

Definition is_octal (c : ascii) : bool :=
  let n := nat_of_ascii c in ((48 <=? n) && (n <=? 55))%nat.
Definition digit_val (c : ascii) : nat := (nat_of_ascii c - 48)%nat.
Definition is_ascii_letter (c : ascii) : bool :=
  let n := nat_of_ascii c in
  ((65 <=? n) && (n <=? 90) || (97 <=? n) && (n <=? 122))%nat.

(** The one-letter escapes of a template. *)
Definition template_escape (c : ascii) : option ascii :=
  match nat_of_ascii c with
  | 97 => Some (chr 7)     (* \a *)
  | 98 => Some (chr 8)     (* \b *)
  | 102 => Some (chr 12)   (* \f *)
  | 110 => Some (chr 10)   (* \n *)
  | 114 => Some (chr 13)   (* \r *)
  | 116 => Some (chr 9)    (* \t *)
  | 118 => Some (chr 11)   (* \v *)
  | 92 => Some (chr 92)    (* \\ *)
  | _ => None
  end%nat.

Definition add_group (groups index : nat) (rest : result (list titem))
  : result (list titem) :=
  if (groups <? index)%nat then Err ReError
  else r <- rest ;; Ok (TGroup index :: r).

Definition add_lit (c : ascii) (rest : result (list titem))
  : result (list titem) :=
  r <- rest ;; Ok (TLit c :: r).

(** [re]'s [parse_template] for a pattern with [groups] groups, none of
    them named.  A [\g<name>] whose name is not a decimal number is outside
    the model. *)
Fixpoint parse_template (groups : nat) (s : str) : result (list titem) :=
  match s with
  | [] => Ok []
  | c :: s1 =>
      if negb (Ascii.eqb c BACKSLASH) then add_lit c (parse_template groups s1)
      else
        match s1 with
        | [] => Err ReError
        | e :: s2 =>
            if Ascii.eqb e "g" then
              match s2 with
              | lt :: s3 =>
                  if Ascii.eqb lt "<" then
                    (fix name (acc : nat) (seen : bool) (t : str) {struct t} :=
                       match t with
                       | [] => Err ReError
                       | x :: t' =>
                           if Ascii.eqb x ">" then
                             if seen then add_group groups acc (parse_template groups t')
                             else Err ReError
                           else if is_digit x
                                then name (10 * acc + digit_val x)%nat true t'
                                else Err Unmodelled
                       end) 0%nat false s3
                  else Err ReError
              | [] => Err ReError
              end
            else if Ascii.eqb e "0" then
              match s2 with
              | o1 :: s3 =>
                  if is_octal o1 then
                    match s3 with
                    | o2 :: s4 =>
                        if is_octal o2
                        then add_lit (chr ((8 * digit_val o1 + digit_val o2) mod 256))
                                     (parse_template groups s4)
                        else add_lit (chr (digit_val o1)) (parse_template groups s3)
                    | [] => add_lit (chr (digit_val o1)) (parse_template groups s3)
                    end
                  else add_lit (chr 0) (parse_template groups s2)
              | [] => add_lit (chr 0) (parse_template groups s2)
              end
            else if is_digit e then
              match s2 with
              | d2 :: s3 =>
                  if is_digit d2 then
                    match s3 with
                    | d3 :: s4 =>
                        if is_octal e && is_octal d2 && is_octal d3 then
                          let v := (64 * digit_val e + 8 * digit_val d2 + digit_val d3)%nat in
                          if (255 <? v)%nat then Err ReError
                          else add_lit (chr v) (parse_template groups s4)
                        else add_group groups (10 * digit_val e + digit_val d2)
                                       (parse_template groups s3)
                    | [] => add_group groups (10 * digit_val e + digit_val d2)
                                      (parse_template groups s3)
                    end
                  else add_group groups (digit_val e) (parse_template groups s2)
              | [] => add_group groups (digit_val e) (parse_template groups s2)
              end
            else
              match template_escape e with
              | Some x => add_lit x (parse_template groups s2)
              | None =>
                  if is_ascii_letter e then Err ReError
                  else add_lit c (add_lit e (parse_template groups s2))
              end
        end
  end.

(** The replacement for a match [m]; the pattern's group 1 is the whole
    match, as group 0 is. *)
Definition expand (items : list titem) (m : str) : str :=
  concat (map (fun it => match it with TLit c => [c] | TGroup _ => m end) items).

(** The scan with the fuel it needs: every step consumes a character. *)
Definition re_sub (repl : str -> str) (s : str) : str :=
  sub_scan (length s) repl s.

(** [re.sub(r"(>.+)", template, text)] *)
Definition re_sub_header (template text : str) : result str :=
  items <- parse_template 1 template ;;
  Ok (re_sub (expand items) text).

(* ================================================================== *)
(** * The file system *)
(* ================================================================== *)

(** A file as its readers see it: [Plain t] is read as the text [t] in
    text mode; [Gz t] is a gzip archive that decompresses to [t]. *)
Inductive file := Plain (text : str) | Gz (text : str).

Global Instance file_eq_dec : EqDecision file.
Proof. solve_decision. Defined.

Abbreviation fsys := (gmap str file).

(** [open(p, "r").read()] *)
Definition open_read (fs : fsys) (p : str) : result str :=
  match fs !! p with
  | None => Err FileNotFoundError
  | Some (Plain t) => Ok t
  | Some (Gz _) => Err UnicodeDecodeError
  end.

(** [gzip.open(p, "rt").read()] *)
Definition gzip_open_read (fs : fsys) (p : str) : result str :=
  match fs !! p with
  | None => Err FileNotFoundError
  | Some (Gz t) => Ok t
  | Some (Plain _) => Err BadGzipFile
  end.

(** The writes and renames of the program, one per system call it makes:
    [Rename] is [os.rename], [OpenW] is [open(p, "w")], which creates or
    truncates, and [Print] is [print(line, file=handle)] on a handle opened
    on [p]. *)
Inductive fs_op :=
| Rename (src dst : str)
| OpenW (p : str)
| Print (p : str) (line : str).

Definition exec_op (fs : fsys) (op : fs_op) : result fsys :=
  match op with
  | Rename src dst =>
      match fs !! src with
      | Some f => Ok (<[dst := f]> (delete src fs))
      | None => Err FileNotFoundError
      end
  | OpenW p => Ok (<[p := Plain []]> fs)
  | Print p line =>
      match fs !! p with
      | Some (Plain t) => Ok (<[p := Plain (t ++ line ++ [LF])]> fs)
      | _ => Err FileNotFoundError
      end
  end.

(** A straight-line sequence of effects; an [Err] is an exception raised
    between two of them. *)
Abbreviation script := (list (result fs_op)).

(** Runs a script until it ends or something raises: the file system
    reached and the exception, if any. *)
Fixpoint run (fs : fsys) (p : script) : fsys * option exn :=
  match p with
  | [] => (fs, None)
  | Err e :: _ => (fs, Some e)
  | Ok op :: p' =>
      match exec_op fs op with
      | Ok fs' => run fs' p'
      | Err e => (fs, Some e)
      end
  end.

(** [defaultdict(list)]: keys in insertion order.  [dd_append k v d] is
    [d[k].append(v)]. *)
Fixpoint dd_append {K} `{EqDecision K} (k : K) (v : str) (d : list (K * list str))
  : list (K * list str) :=
  match d with
  | [] => [(k, [v])]
  | (k', vs) :: d' =>
      if decide (k = k') then (k', vs ++ [v]) :: d'
      else (k', vs) :: dd_append k v d'
  end.

(** [d[k]] read without inserting. *)
Fixpoint dd_get {K} `{EqDecision K} (k : K) (d : list (K * list str)) : list str :=
  match d with
  | [] => []
  | (k', vs) :: d' => if decide (k = k') then vs else dd_get k d'
  end.

(* ================================================================== *)
(** * taxadd.py *)
(* ================================================================== *)

(** [f"{outdir}/{taxid}_{name}"] *)
Definition fasta_file_path (outdir taxid name : str) : str :=
  outdir ++ "/" ++ taxid ++ "_" ++ name.

(** [r"\1|kraken:taxid|{0}|{1}".format(taxid, taxname)] *)
Definition kraken_template (taxid taxname : str) : str :=
  BACKSLASH :: "1|kraken:taxid|" ++ taxid ++ "|" ++ taxname.

(** [editFasta]: reads [infasta], rewrites the headers and writes the
    result under [outdir].  Returns the file system and the value the
    function returns, the integer 0. *)
Definition editFasta (fs : fsys) (infasta outdir taxid taxname : str)
  : result (fsys * cell) :=
  open_file <-
    (if py_endswith ".gz" infasta then
       fasta_data <- gzip_open_read fs infasta ;;
       Ok (fasta_data,
           fasta_file_path outdir taxid
             (hd [] (split_go ".gz" 0 [] (basename infasta))))
     else
       fasta_data <- open_read fs infasta ;;
       Ok (fasta_data, fasta_file_path outdir taxid (basename infasta))) ;;
  let fasta_data := fst open_file in
  let fasta_file := snd open_file in
  fasta_edit <- re_sub_header (kraken_template taxid taxname) fasta_data ;;
  Ok (<[fasta_file := Plain fasta_edit]> fs, CInt 0).

(** A local variable read: unbound locals raise. *)
Definition load_local (name : str) (v : option cell) : result cell :=
  match v with
  | Some c => Ok c
  | None => Err (UnboundLocalError name)
  end.

(** [a + b] *)
Definition py_add (a b : cell) : result cell :=
  match a, b with
  | CInt x, CInt y => Ok (CInt (x + y))
  | CStr x, CStr y => Ok (CStr (x ++ y))
  | CNaN, (CInt _ | CNaN) | CInt _, CNaN => Ok CNaN
  | _, _ => Err TypeError
  end.

(** [10 ** e]; a negative exponent gives a float. *)
Definition py_pow10 (e : Z) : result cell :=
  if e <? 0 then Err Unmodelled else Ok (CInt (10 ^ e)).

(** [addTaxon].  The function assigns [taxid] on its second statement, so
    [taxid] is a local variable of the function; the right-hand side of
    that same statement reads it before any assignment. *)
Definition addTaxon (taxname : str) (mother_clade_taxid : cell)
    (names_df nodes_df : DataFrame) : result (str * DataFrame * DataFrame) :=
  col0 <- df_col names_df 0 ;;
  max_taxid <- py_max col0 ;;
  unbound <- load_local "taxid" None ;;
  n <- py_len unbound ;;
  p <- py_pow10 (n - 1) ;;
  taxid <- py_add max_taxid p ;;
  let rank :=
    if 1 <? py_count " " taxname then "subspecies"
    else if py_count " " taxname =? 1 then "species"
    else "no rank" in
  let names_dbline :=
    df_of_row [taxid; CStr taxname; CStr ""; CStr "scientific name"; CStr "NaN"] in
  let nodes_dbline :=
    df_of_row [taxid; mother_clade_taxid; CStr rank; CStr ""; CStr "1";
               CStr "1"; CStr "1"; CStr "1"; CStr "1"; CStr "1"; CStr "1";
               CStr "1"; CStr ""] in
  let names_df := df_append names_df names_dbline in
  let nodes_df := df_append nodes_df nodes_dbline in
  Ok (py_str taxid, names_df, nodes_df).

(** [names_df[1] == taxname], element by element. *)
Definition eq_taxname (taxname : str) (c : cell) : bool :=
  match c with
  | CStr s => bool_decide (s = taxname)
  | _ => false
  end.

(** [search_taxon]: the taxid of the first row named [taxname], as a
    string, or [None]. *)
Definition search_taxon (taxname : str) (names_df : DataFrame)
  : result (option str) :=
  col1 <- df_col names_df 1 ;;
  let taxon_row := df_mask names_df (map (eq_taxname taxname) col1) in
  if df_empty taxon_row then Ok None
  else v <- df_iloc taxon_row 0 0 ;; Ok (Some (py_str v)).

(** [getTaxidNames].  The block that would add a missing taxon is a
    string literal in the source, so nothing follows the lookup. *)
Definition getTaxidNames (taxname : str) (mother_clade : option str)
    (names_df nodes_df : DataFrame)
  : result (option str * DataFrame * DataFrame) :=
  let taxname := py_replace "_" " " taxname in
  taxid <- search_taxon taxname names_df ;;
  Ok (taxid, names_df, nodes_df).

(** [f"{taxid}"] for a taxid that may be [None]. *)
Definition fmt_taxid (taxid : option str) : str :=
  match taxid with
  | Some t => t
  | None => "None"
  end.

(** [writeSeq2taxid] *)
Definition writeSeq2taxid (scaffold_taxid_dict : list (option str * list str))
    (outdir : str) : script :=
  let fout := outdir ++ "/seqid2taxid.map" in
  Ok (OpenW fout)
  :: flat_map (fun entry =>
       map (fun scaffid => Ok (Print fout (scaffid ++ [TAB] ++ fmt_taxid (fst entry))))
           (snd entry))
     scaffold_taxid_dict.

(** Biopython's [SeqIO.parse(fasta, "fasta")], the record ids: for every
    line that starts with [>], the first word of what follows.  A text
    that does not start with a header is outside the model (Biopython's
    versions differ on it). *)
Definition fasta_record_ids (text : str) : result (list str) :=
  match text with
  | [] => Ok []
  | c :: _ =>
      if Ascii.eqb c ">" then
        Ok (map (fun l => first_word (tail l))
                (List.filter (py_startswith ">") (split_char LF text)))
      else Err Unmodelled
  end.

(** [get_scaffold_ids] *)
Definition get_scaffold_ids (fs : fsys) (fasta : str) : result (list str) :=
  text <- open_read fs fasta ;;
  fasta_record_ids text.

(** The line [writeDmp] prints for a row. *)
Definition dmp_line (row : list cell) : str :=
  let tmp_row := removelast (map py_str row) in
  let tmp_row := tmp_row ++ [ [] ] in
  py_join ([TAB] ++ "|" ++ [TAB]) tmp_row.

(** One [with open(path, 'w')] block of [writeDmp]. *)
Definition write_table (path : str) (df : DataFrame) : script :=
  Ok (OpenW path)
  :: match df_iterrows df with
     | Ok rs => map (fun row => Ok (Print path (dmp_line row))) rs
     | Err e => [Err e]
     end.

(** [writeDmp] *)
Definition writeDmp (names_df nodes_df : DataFrame) (outdir : str) : script :=
  write_table (outdir ++ "/names.dmp") names_df
  ++ write_table (outdir ++ "/nodes.dmp") nodes_df.

(** The file extensions from which [pd.read_csv] infers a compression. *)
Definition other_compression (p : str) : bool :=
  existsb (fun e => py_endswith e p)
          [".bz2"; ".zip"; ".xz"; ".zst"; ".tar"; ".tar.gz"; ".tar.xz"; ".tar.bz2"].

(** [pd.read_csv(path, header=None, sep="|")] *)
Definition pd_read_csv (fs : fsys) (path : str) : result DataFrame :=
  if other_compression path then Err Unmodelled
  else
    text <- (if py_endswith ".gz" path then gzip_open_read fs path
             else open_read fs path) ;;
    read_csv text.

(** [readDmp] *)
Definition readDmp (fs : fsys) (dmp_file : str) : result DataFrame :=
  dmp_df <- pd_read_csv fs dmp_file ;;
  Ok (df_strip_objects dmp_df).

(** [s.split(sep)] *)
Definition py_split (sep s : str) : result (list str) :=
  match sep with
  | [] => Err ValueError
  | _ :: _ => Ok (split_go sep 0 [] s)
  end.

(** The variables of [taxadd_Main] that its loops update. *)
Record state := mkState {
  st_fs : fsys;
  st_names : DataFrame;
  st_nodes : DataFrame;
  st_scaffold : list (option str * list str);
  st_fasta : list (str * list str)
}.

(** The body of [for fasta in fastas]. *)
Definition process_fasta (fasta_WDir dir taxname : str) (mother_clade : option str)
    (st : state) (fasta : str) : result state :=
  let infasta := path_join dir fasta in
  let fasta_dict := dd_append taxname infasta (st_fasta st) in
  r <- getTaxidNames taxname mother_clade (st_names st) (st_nodes st) ;;
  let '(taxid, names_df, nodes_df) := r in
  scaffold_ids <- get_scaffold_ids (st_fs st) infasta ;;
  let scaffold_taxid_dict :=
    fold_left (fun d scaffold_id => dd_append taxid scaffold_id d)
              scaffold_ids (st_scaffold st) in
  match taxid with
  | None => Ok (mkState (st_fs st) names_df nodes_df scaffold_taxid_dict fasta_dict)
  | Some t =>
      w <- editFasta (st_fs st) infasta fasta_WDir t taxname ;;
      Ok (mkState (fst w) names_df nodes_df scaffold_taxid_dict fasta_dict)
  end.

(** The body of [for dir, subdirs, fastas in walk(fasta_db_path)]. *)
Definition process_dir (fasta_WDir fasta_db_path : str) (st : state)
    (entry : str * list str * list str) : result state :=
  let '(dir, _, fastas) := entry in
  pieces <- py_split fasta_db_path dir ;;
  let taxon_rank := split_char "/" (List.last pieces []) in
  let taxname := List.last taxon_rank [] in
  let mother_clade :=
    if (1 <? length taxon_rank)%nat
    then Some (List.last (removelast taxon_rank) [])
    else None in
  foldM (process_fasta fasta_WDir dir taxname mother_clade) st fastas.

(** The statements of [taxadd_Main] after the walk. *)
Definition write_step (names_path nodes_path : str) (names_df nodes_df : DataFrame)
    (scaffold_taxid_dict : list (option str * list str)) : script :=
  let dirpath := py_join "/" (removelast (split_char "/" names_path)) in
  [ Ok (Rename names_path (dirpath ++ "/names.dmp.old"));
    Ok (Rename nodes_path (dirpath ++ "/nodes.dmp.old")) ]
  ++ writeDmp names_df nodes_df dirpath
  ++ writeSeq2taxid scaffold_taxid_dict dirpath.

(** [taxadd_Main].  [walk] is what [os.walk(fasta_db_path)] yields. *)
Definition taxadd_Main (fs : fsys) (walk : list (str * list str * list str))
    (fasta_WDir fasta_db_path names_path nodes_path : str)
  : result (fsys * list (str * list str)) :=
  names_df <- readDmp fs names_path ;;
  nodes_df <- readDmp fs nodes_path ;;
  st <- foldM (process_dir fasta_WDir fasta_db_path)
              (mkState fs names_df nodes_df [] []) walk ;;
  match run (st_fs st)
            (write_step names_path nodes_path (st_names st) (st_nodes st)
                        (st_scaffold st)) with
  | (fs', None) => Ok (fs', st_fasta st)
  | (_, Some e) => Err e
  end.

(* ================================================================== *)
(** * Vocabulary of the specification *)
(* ================================================================== *)

(** The name field and the taxid field of a names-table row. *)
Definition name_of (row : list cell) : cell := nth 1 row CNaN.
Definition taxid_of (row : list cell) : cell := nth 0 row CNaN.

(** A names table has the taxid and the name columns. *)
Definition names_table (df : DataFrame) : Prop := (1 < ncols df)%nat.

(** The table has no row named [name]. *)
Definition lacks (df : DataFrame) (name : str) : Prop :=
  Forall (fun row => name_of row <> CStr name) (rows df).

(** The table has a row named [name]. *)
Definition has_name (df : DataFrame) (name : str) : Prop :=
  Exists (fun row => name_of row = CStr name) (rows df).

(** The lookup as the specification words it: the first row whose name
    equals [name] and whose name class is "scientific name". *)
Definition spec_lookup (name : str) (names_df : DataFrame) : option str :=
  match List.find (fun row => bool_decide (name_of row = CStr name)
                              && bool_decide (nth 3 row CNaN = CStr "scientific name"))
                  (rows names_df) with
  | Some row => Some (py_str (taxid_of row))
  | None => None
  end.

(** The outcome the specification expects of the synthesis fallback: a
    new taxid above every taxid of the names table, one row appended to
    each table, the nodes row of rank "species". *)
Definition synthesised (names_df nodes_df : DataFrame)
    (res : result (option str * DataFrame * DataFrame)) : Prop :=
  exists (t : Z) (names' nodes' : DataFrame) (nrow xrow : list cell),
    res = Ok (Some (Z_to_str t), names', nodes')
    /\ rows names' = rows names_df ++ [nrow]
    /\ rows nodes' = rows nodes_df ++ [xrow]
    /\ (forall row z, In row (rows names_df) -> taxid_of row = CInt z -> z < t)
    /\ nth 2 xrow CNaN = CStr "species".

(** Sample tables. *)
Definition names_row (taxid : Z) (name class : str) : list cell :=
  [CInt taxid; CStr name; CStr ""; CStr class; CNaN].

Definition names_foo : DataFrame :=
  mkDF 5 [names_row 1 "root" "scientific name"; names_row 5 "Foo" "scientific name"].

Definition names_human : DataFrame :=
  mkDF 5 [names_row 1 "root" "scientific name";
          names_row 9606 "Homo sapiens" "scientific name"].

Definition names_synonym : DataFrame :=
  mkDF 5 [names_row 5 "Foo" "synonym"; names_row 7 "Foo" "scientific name"].

Definition nodes_foo : DataFrame :=
  mkDF 14 [[CInt 1; CInt 1; CStr "no rank"; CStr ""; CInt 8; CInt 0; CInt 1;
            CInt 0; CInt 0; CInt 0; CInt 0; CInt 0; CStr ""; CNaN];
           [CInt 5; CInt 1; CStr "genus"; CStr ""; CInt 0; CInt 1; CInt 11;
            CInt 1; CInt 0; CInt 1; CInt 0; CInt 0; CStr ""; CNaN]].

(** The suffix [editFasta] is to append to a header. *)
Definition kraken_suffix (taxid taxname : str) : str :=
  "|kraken:taxid|" ++ taxid ++ "|" ++ taxname.

(** What the substitution makes of one line, [repl] being what replaces a
    match: the line is copied up to its first [>]; if at least one
    character follows that [>], the rest of the line from the [>] on is
    replaced. *)
Fixpoint rewrite_line (repl : str -> str) (l : str) : str :=
  match l with
  | [] => []
  | c :: l' =>
      if Ascii.eqb c ">" then
        match l' with
        | [] => l
        | _ :: _ => repl l
        end
      else c :: rewrite_line repl l'
  end.

(** The rewriting as the specification words it: the suffix is appended to
    every line that begins with [>], the other lines are kept. *)
Definition spec_rewrite_line (suffix : str) (l : str) : str :=
  if py_startswith ">" l then l ++ suffix else l.

Definition spec_rewrite (suffix : str) (text : str) : str :=
  py_join [LF] (map (spec_rewrite_line suffix) (split_char LF text)).

(** The lines of a list hold no line feed. *)
Definition one_line (l : str) : Prop := mem_char LF l = false.

(** [infasta] holds the FASTA text [text], compressed if its name says so. *)
Definition stored_fasta (fs : fsys) (infasta text : str) : Prop :=
  fs !! infasta = Some (if py_endswith ".gz" infasta then Gz text else Plain text).

(** The file at [p] after a call that returns a file system. *)
Definition written {A} (r : result (fsys * A)) (p : str) : option file :=
  match r with
  | Ok (fs, _) => fs !! p
  | Err _ => None
  end.

(** The file system a call leaves. *)
Definition final_fs {A} (r : result (fsys * A)) : fsys :=
  match r with
  | Ok (fs, _) => fs
  | Err _ => ∅
  end.

(** The value a call returns. *)
Definition returned {A} (r : result (fsys * A)) : option A :=
  match r with
  | Ok (_, v) => Some v
  | Err _ => None
  end.

(** [sep] occurs in [s]. *)
Fixpoint occurs (sep s : str) : bool :=
  py_startswith sep s
  || match s with
     | [] => false
     | _ :: s' => occurs sep s'
     end.

(** A file system with one FASTA file. *)
Definition fs_one (p text : str) : fsys := {[ p := Plain text ]}.

(** The name [editFasta] gives the file it writes, after the taxid. *)
Definition edited_name (infasta : str) : str :=
  if py_endswith ".gz" infasta
  then hd [] (split_go ".gz" 0 [] (basename infasta))
  else basename infasta.

(** Sample FASTA files. *)
Definition fasta_seq1 : str := ">seq1 description
ACGT
".

Definition fasta_bare : str := ">
AC>GT
".

(** Sample dump files: the names and nodes of "root" and the genus "Foo". *)
Definition names_dump_foo : str :=
"1	|	root	|		|	scientific name	|
5	|	Foo	|		|	scientific name	|
".

Definition nodes_dump_foo : str :=
"1	|	1	|	no rank	|		|	8	|	0	|	1	|	0	|	0	|	0	|	0	|	0	|		|
5	|	1	|	genus	|		|	0	|	1	|	11	|	1	|	0	|	1	|	0	|	0	|		|
".

(** A database with one FASTA file, of a taxon the names table lacks. *)
Definition fs_unresolved : fsys :=
  <["tax/names.dmp" := Plain names_dump_foo]>
    (<["tax/nodes.dmp" := Plain nodes_dump_foo]>
       (<["db/Foo_bar/g1.fa" := Plain fasta_seq1]> ∅)).

Definition walk_unresolved : list (str * list str * list str) :=
  [("db", ["Foo_bar"], []); ("db/Foo_bar", [], ["g1.fa"])].

(** Some file of [fs] is [f]. *)
Definition holds (fs : fsys) (f : file) : Prop := exists p, fs !! p = Some f.

(** The directory [taxadd_Main] writes to: that of [names_path]. *)
Definition dump_dir (names_path : str) : str :=
  py_join "/" (removelast (split_char "/" names_path)).

(** The file system after the first [k] effects of a script. *)
Definition state_after (fs : fsys) (p : script) (k : nat) : fsys :=
  fst (run fs (take k p)).

(** A step that is no rename: an exception, or the opening of or a print
    to one of the three files the write step produces in [d]. *)
Definition writes_new (d : str) (step : result fs_op) : Prop :=
  match step with
  | Ok (Rename _ _) => False
  | Ok (OpenW p) | Ok (Print p _) =>
      p = d ++ "/names.dmp" \/ p = d ++ "/nodes.dmp" \/ p = d ++ "/seqid2taxid.map"
  | Err _ => True
  end.

(** A names dump next to a nodes dump that is called [names.dmp.old]. *)
Definition fs_clash : fsys :=
  <["tax/current.dmp" := Plain names_dump_foo]>
    (<["tax/names.dmp.old" := Plain nodes_dump_foo]> ∅).

(** The text does not begin with a digit. *)
Definition no_digit_head (s : str) : Prop :=
  match s with
  | [] => True
  | c :: _ => digit_cons c = None
  end.

(** ** Dump files in the NCBI layout *)

(** The tokens of a line between its pipes: every field is followed by a
    tab and, but for the first, preceded by one; [trailer] is what follows
    the last pipe. *)
Definition raw_cells (trailer : str) (fields : list str) : list str :=
  match fields with
  | [] => [trailer]
  | f :: fs => (f ++ [TAB]) :: map (fun g => [TAB] ++ g ++ [TAB]) fs ++ [trailer]
  end.

Definition dump_line (trailer : str) (fields : list str) : str :=
  py_join "|" (raw_cells trailer fields).

(** The text of a table of fields, one line per row. *)
Definition dump_text (trailer : str) (table : list (list str)) : str :=
  concat (map (fun fields => dump_line trailer fields ++ [LF]) table).

(** The layout of the NCBI dumps: each line ends with its last pipe. *)
Definition ncbi_text (table : list (list str)) : str := dump_text [] table.

Definition column (j : nat) (table : list (list str)) : list str :=
  map (fun r => nth j r []) table.

Definition int_field (f : str) : bool := bool_decide (is_Some (str_to_int64 f)).

(** A field holds no pipe, no line feed, no carriage return and no NUL
    character. *)
Definition clean_field (f : str) : bool :=
  negb (mem_char "|" f) && negb (mem_char LF f) && negb (mem_char CR f)
  && negb (mem_char NUL f).

(** A well-formed dump, as a table of fields: at least one row; all rows
    of one width, at least 1; clean fields; no double quote in a first
    field; every column made of integers or holding a field that is
    plainly text; at least one column of text; and no more rows than
    pandas converts at a time. *)
Definition wf_dump (table : list (list str)) : bool :=
  match table with
  | [] => false
  | r0 :: _ =>
      let n := length r0 in
      (0 <? n)%nat
      && forallb (fun r => (length r =? n)%nat) table
      && forallb (forallb clean_field) table
      && forallb (fun r => negb (mem_char QUOTE (hd [] r))) table
      && forallb (fun j => forallb int_field (column j table)
                           || existsb never_numeric (column j table)) (seq 0 n)
      && existsb (fun j => existsb never_numeric (column j table)) (seq 0 n)
      && (N.of_nat (length table) <=? buffer_lines (S n))%N
  end.

Definition width (table : list (list str)) : nat := length (hd [] table).

(** [wf_dump], spelled out. *)
Definition well_formed (table : list (list str)) : Prop :=
  table <> []
  /\ (0 < width table)%nat
  /\ Forall (fun r => length r = width table) table
  /\ Forall (Forall (fun f => clean_field f = true)) table
  /\ Forall (fun r => mem_char QUOTE (hd [] r) = false) table
  /\ (forall j, (j < width table)%nat ->
        forallb int_field (column j table) = true
        \/ existsb never_numeric (column j table) = true)
  /\ (exists j, (j < width table)%nat
        /\ existsb never_numeric (column j table) = true)
  /\ (N.of_nat (length table) <= buffer_lines (S (width table)))%N.

(** The cell pandas and [readDmp] make of a field, by the kind of its
    column. *)
Definition typed_field (int_col : bool) (f : str) : cell :=
  if int_col then
    match str_to_int64 f with
    | Some z => CInt z
    | None => CNaN
    end
  else CStr (py_strip f).

(** The informative cells of the row [r] of a table. *)
Definition typed_row (table : list (list str)) (r : list str) : list cell :=
  map (fun j => typed_field (forallb int_field (column j table)) (nth j r []))
      (seq 0 (width table)).

Definition typed_table (table : list (list str)) : list (list cell) :=
  map (typed_row table) table.

(** A path from whose name [pd.read_csv] infers no compression. *)
Definition plain_path (p : str) : Prop :=
  other_compression p = false /\ py_endswith ".gz" p = false.

(** The fields of the sample dumps. *)
Definition names_fields_foo : list (list str) :=
  [ ["1"; "root"; ""; "scientific name"];
    ["5"; "Foo"; ""; "scientific name"] ].

(** A dump whose text column holds ordinary words. *)
Definition names_fields_text : list (list str) :=
  [ ["9682"; "Felis"; ""; "scientific name"];
    ["25628"; "Taxus"; ""; "scientific name"];
    ["36"; "strain"; ""; "synonym"] ].

(** The token of the field [f] at column [j] of a line. *)
Definition pad (j : nat) (f : str) : str :=
  match j with
  | O => f ++ [TAB]
  | S _ => [TAB] ++ f ++ [TAB]
  end.

(** The cell read after the last pipe: nothing there is a missing value,
    a tab there is a text that strips to the empty string. *)
Definition trail_cell (trailer : str) : cell :=
  match trailer with
  | [] => CNaN
  | _ :: _ => CStr (py_strip trailer)
  end.

(** The kind pandas infers for the column after the last pipe. *)
Definition trail_kind (trailer : str) : col_kind :=
  match trailer with
  | [] => KNaN
  | _ :: _ => KObj
  end.

(** The kind pandas infers for a column of fields. *)
Definition field_kind (col : list str) : col_kind :=
  if forallb int_field col then KInt else KObj.

(** Stripping, whatever the dtype: only strings change. *)
Definition strip_any (c : cell) : cell :=
  match c with
  | CStr s => CStr (py_strip s)
  | _ => c
  end.

(** The fields [writeDmp] writes for a parsed table. *)
Definition rewritten (table : list (list str)) : list (list str) :=
  map (fun r => map py_str (typed_row table r)) table.

(** A frame read from a dump: the informative cells and the cell after
    the last pipe. *)
Definition dump_frame (table : list (list str)) (last : cell) : DataFrame :=
  mkDF (S (width table)) (map (fun r => typed_row table r ++ [last]) table).

Definition nodes_fields_foo : list (list str) :=
  [ ["1"; "1"; "no rank"; ""; "8"; "0"; "1"; "0"; "0"; "0"; "0"; "0"; ""];
    ["5"; "1"; "genus"; ""; "0"; "1"; "11"; "1"; "0"; "1"; "0"; "0"; ""] ].

(** The sample names table as it is read back from what [writeDmp] wrote
    for it. *)
Definition names_foo_reread : DataFrame :=
  mkDF 5 [ [CInt 1; CStr "root"; CStr ""; CStr "scientific name"; CStr ""];
           [CInt 5; CStr "Foo"; CStr ""; CStr "scientific name"; CStr ""] ].

(** ** Vocabulary for the remaining functions *)

(** The lines of [seqid2taxid.map]: for every key in insertion order, one
    line per scaffold id. *)
Definition map_lines (d : list (option str * list str)) : list str :=
  flat_map (fun entry => map (fun scaffid => scaffid ++ [TAB] ++ fmt_taxid (fst entry))
                             (snd entry)) d.

(** A text made of lines, each ended by a line feed. *)
Definition unlines (ls : list str) : str := concat (map (fun l => l ++ [LF]) ls).

(** The text [writeDmp] writes for the rows [rs]. *)
Definition dmp_text (rs : list (list cell)) : str := unlines (map dmp_line rs).

(** The parent component of a path given by its components: the one
    before the last, if there are two. *)
Definition mother_of (comps : list str) : option str :=
  match rev comps with
  | _ :: m :: _ => Some m
  | _ => None
  end.

(** The components hold no slash. *)
Definition no_slash (s : str) : Prop := mem_char "/" s = false.

(** A FASTA record: its id, the rest of its header line (empty, or a
    description after white space), its sequence lines. *)
Record fasta_record := mkRecord {
  rec_id : str;
  rec_desc : str;
  rec_seq : list str
}.

Definition record_lines (r : fasta_record) : list str :=
  (">" ++ rec_id r ++ rec_desc r) :: rec_seq r.

(** The text of a FASTA file of the given records. *)
Definition fasta_text (rs : list fasta_record) : str :=
  unlines (flat_map record_lines rs).

Definition non_space (c : ascii) : bool := negb (py_isspace c).

(** A record as a FASTA file has it: a non-empty id without white space;
    a description that is empty or begins with white space and stays on
    the line; sequence lines without line feed and without [>]. *)
Definition wf_record (r : fasta_record) : Prop :=
  rec_id r <> []
  /\ forallb non_space (rec_id r) = true
  /\ match rec_desc r with
     | [] => True
     | c :: _ => py_isspace c = true
     end
  /\ one_line (rec_desc r)
  /\ Forall (fun l => one_line l /\ mem_char ">" l = false) (rec_seq r).

(** The id of a record once [editFasta] has rewritten its header: the
    suffix ends up in the id when the header has no description, up to
    the first white space of the suffix. *)
Definition tagged_id (taxid taxname : str) (r : fasta_record) : str :=
  rec_id r ++ match rec_desc r with
              | [] => take_while non_space (kraken_suffix taxid taxname)
              | _ :: _ => []
              end.

(** Sample records: one with a description, one without. *)
Definition records_two : list fasta_record :=
  [ mkRecord "seq1" " description" ["ACGT"]; mkRecord "seq2" "" ["GGCC"; "TT"] ].

(** The scaffold ids and the path of one more file of a taxon. *)
Definition record_file (taxid : option str) (ids : list str) (taxname infasta : str)
    (st st' : state) : Prop :=
  st_scaffold st' = fold_left (fun d id => dd_append taxid id d) ids (st_scaffold st)
  /\ st_fasta st' = dd_append taxname infasta (st_fasta st).

(* ================================================================== *)
(** * Lookup of a taxon: search_taxon and getTaxidNames *)
(* ================================================================== *)

#[local] Arguments Ascii.eqb : simpl never.

Section Lookup.

Implicit Types (names_df nodes_df : DataFrame) (taxname : str).

Lemma mask_rows_filter {A B} (f : B -> bool) (g : A -> B) (l : list A) :
  mask_rows l (map f (map g l)) = List.filter (fun x => f (g x)) l.
Proof.
  induction l as [|x l IH]; simpl; [reflexivity|].
  destruct (f (g x)); simpl; now rewrite IH.
Qed.

(** [search_taxon] is a [find] on the rows, by name only. *)
Lemma search_taxon_find taxname names_df :
  names_table names_df ->
  search_taxon taxname names_df =
  Ok (match List.find (fun row => eq_taxname taxname (name_of row)) (rows names_df) with
      | Some row => Some (py_str (taxid_of row))
      | None => None
      end).
Proof.
  intros Hn. unfold names_table in Hn. unfold search_taxon, df_col.
  assert (Hlt : (1 <? ncols names_df)%nat = true) by (apply Nat.ltb_lt; lia).
  rewrite Hlt. simpl. unfold df_mask, df_empty, df_iloc. simpl.
  rewrite (mask_rows_filter (eq_taxname taxname) (fun r => nth 1 r CNaN)).
  assert (Hz : (ncols names_df =? 0)%nat = false) by (apply Nat.eqb_neq; lia).
  rewrite Hz. simpl.
  induction (rows names_df) as [|row l IH]; simpl; [reflexivity|].
  unfold name_of at 1.
  destruct (eq_taxname taxname (nth 1 row CNaN)) eqn:E; simpl.
  - destruct row as [|c0 row']; simpl in *; [discriminate|reflexivity].
  - exact IH.
Qed.

Lemma eq_taxname_true taxname c :
  eq_taxname taxname c = true <-> c = CStr taxname.
Proof.
  destruct c; simpl; try (split; [discriminate|congruence]).
  rewrite bool_decide_eq_true. split; congruence.
Qed.

Lemma find_lacks taxname names_df :
  lacks names_df taxname ->
  List.find (fun row => eq_taxname taxname (name_of row)) (rows names_df) = None.
Proof.
  unfold lacks. induction 1 as [|row l Hrow _ IH]; simpl; [reflexivity|].
  destruct (eq_taxname taxname (name_of row)) eqn:E; [|exact IH].
  apply eq_taxname_true in E. contradiction.
Qed.

Lemma find_first taxname (pre post : list (list cell)) row :
  Forall (fun r => name_of r <> CStr taxname) pre ->
  name_of row = CStr taxname ->
  List.find (fun r => eq_taxname taxname (name_of r)) (pre ++ row :: post) = Some row.
Proof.
  intros Hpre Hrow. induction Hpre as [|r l Hr _ IH]; simpl.
  - apply eq_taxname_true in Hrow. now rewrite Hrow.
  - destruct (eq_taxname taxname (name_of r)) eqn:E; [|exact IH].
    apply eq_taxname_true in E. contradiction.
Qed.

(** A name the table lacks resolves to [None] and the tables come back
    as they were. *)
Lemma getTaxidNames_absent taxname mother_clade names_df nodes_df :
  names_table names_df ->
  lacks names_df (py_replace "_" " " taxname) ->
  getTaxidNames taxname mother_clade names_df nodes_df = Ok (None, names_df, nodes_df).
Proof.
  intros Hn Hl. unfold getTaxidNames.
  rewrite (search_taxon_find _ _ Hn), (find_lacks _ _ Hl). reflexivity.
Qed.

Lemma getTaxidNames_first taxname mother_clade names_df nodes_df pre row post :
  names_table names_df ->
  rows names_df = pre ++ row :: post ->
  Forall (fun r => name_of r <> CStr (py_replace "_" " " taxname)) pre ->
  name_of row = CStr (py_replace "_" " " taxname) ->
  getTaxidNames taxname mother_clade names_df nodes_df
  = Ok (Some (py_str (taxid_of row)), names_df, nodes_df).
Proof.
  intros Hn Hrows Hpre Hrow. unfold getTaxidNames.
  rewrite (search_taxon_find _ _ Hn), Hrows, (find_first _ _ _ _ Hpre Hrow).
  reflexivity.
Qed.

End Lookup.

(** C4.  A names table that has neither "Foo bar baz" nor the genus "Foo":
    [getTaxidNames "Foo_bar_baz" None] returns the identifier [None] and
    both tables exactly as they were given. *)
Theorem getTaxidNames_unresolvable (names_df nodes_df : DataFrame) :
  names_table names_df ->
  lacks names_df "Foo bar baz" ->
  lacks names_df "Foo" ->
  getTaxidNames "Foo_bar_baz" None names_df nodes_df = Ok (None, names_df, nodes_df).
Proof.
  intros Hn Hfull _. now apply getTaxidNames_absent.
Qed.

Lemma getTaxidNames_unresolvable_witness :
  names_table names_human
  /\ lacks names_human "Foo bar baz"
  /\ lacks names_human "Foo"
  /\ getTaxidNames "Foo_bar_baz" None names_human nodes_foo
     = Ok (None, names_human, nodes_foo).
Proof.
  assert (H1 : names_table names_human) by (unfold names_table; simpl; lia).
  assert (H2 : lacks names_human "Foo bar baz")
    by (unfold lacks; simpl; repeat constructor; discriminate).
  assert (H3 : lacks names_human "Foo")
    by (unfold lacks; simpl; repeat constructor; discriminate).
  split; [exact H1 | split; [exact H2 | split; [exact H3 | ]]].
  exact (getTaxidNames_unresolvable names_human nodes_foo H1 H2 H3).
Defined.

(** C1, as the code has it.  With the genus "Foo" present and "Foo bar"
    absent, [getTaxidNames "Foo_bar" None] synthesises nothing: it returns
    the identifier [None] and both tables unchanged. *)
Theorem getTaxidNames_no_synthesis (names_df nodes_df : DataFrame) :
  names_table names_df ->
  has_name names_df "Foo" ->
  lacks names_df "Foo bar" ->
  getTaxidNames "Foo_bar" None names_df nodes_df = Ok (None, names_df, nodes_df).
Proof.
  intros Hn _ Habsent. now apply getTaxidNames_absent.
Qed.

Lemma getTaxidNames_no_synthesis_witness :
  names_table names_foo
  /\ has_name names_foo "Foo"
  /\ lacks names_foo "Foo bar"
  /\ getTaxidNames "Foo_bar" None names_foo nodes_foo = Ok (None, names_foo, nodes_foo).
Proof.
  assert (H1 : names_table names_foo) by (unfold names_table; simpl; lia).
  assert (H2 : has_name names_foo "Foo")
    by (unfold has_name; simpl; apply Exists_cons_tl, Exists_cons_hd; reflexivity).
  assert (H3 : lacks names_foo "Foo bar")
    by (unfold lacks; simpl; repeat constructor; discriminate).
  split; [exact H1 | split; [exact H2 | split; [exact H3 | ]]].
  exact (getTaxidNames_no_synthesis names_foo nodes_foo H1 H2 H3).
Defined.

(** C1, as the specification states it, fails: on a names table with the
    genus "Foo" and without "Foo bar" the result is not a synthesised
    taxon. *)
Lemma getTaxidNames_synthesis_counterexample :
  has_name names_foo "Foo"
  /\ lacks names_foo "Foo bar"
  /\ ~ synthesised names_foo nodes_foo
         (getTaxidNames "Foo_bar" None names_foo nodes_foo).
Proof.
  split; [|split].
  - unfold has_name; simpl. apply Exists_cons_tl, Exists_cons_hd. reflexivity.
  - unfold lacks; simpl. repeat constructor; discriminate.
  - intros (t & n' & x' & nrow & xrow & Hres & _).
    vm_compute in Hres. discriminate Hres.
Qed.

(** C3, as the code has it.  [getTaxidNames] replaces the underscores of
    the name by spaces and returns, as a string, the taxid of the first
    row whose name field equals the normalised name, whatever the name
    class of that row; both tables come back unchanged. *)
Theorem getTaxidNames_first_named (taxname : str) (mother_clade : option str)
    (names_df nodes_df : DataFrame) (pre post : list (list cell)) (row : list cell) :
  names_table names_df ->
  rows names_df = pre ++ row :: post ->
  Forall (fun r => name_of r <> CStr (py_replace "_" " " taxname)) pre ->
  name_of row = CStr (py_replace "_" " " taxname) ->
  getTaxidNames taxname mother_clade names_df nodes_df
  = Ok (Some (py_str (taxid_of row)), names_df, nodes_df).
Proof.
  intros. now apply getTaxidNames_first with (pre := pre) (post := post).
Qed.

(** The names table with (9606, "Homo sapiens", "", "scientific name"):
    "Homo_sapiens" resolves to "9606". *)
Lemma getTaxidNames_first_named_witness :
  names_table names_human
  /\ rows names_human
     = [names_row 1 "root" "scientific name"]
       ++ names_row 9606 "Homo sapiens" "scientific name" :: []
  /\ Forall (fun r => name_of r <> CStr (py_replace "_" " " "Homo_sapiens"))
            [names_row 1 "root" "scientific name"]
  /\ name_of (names_row 9606 "Homo sapiens" "scientific name")
     = CStr (py_replace "_" " " "Homo_sapiens")
  /\ getTaxidNames "Homo_sapiens" None names_human nodes_foo
     = Ok (Some "9606", names_human, nodes_foo).
Proof.
  assert (H1 : names_table names_human) by (unfold names_table; simpl; lia).
  assert (H2 : rows names_human
     = [names_row 1 "root" "scientific name"]
       ++ names_row 9606 "Homo sapiens" "scientific name" :: []) by reflexivity.
  assert (H3 : Forall (fun r => name_of r <> CStr (py_replace "_" " " "Homo_sapiens"))
            [names_row 1 "root" "scientific name"])
    by (repeat constructor; discriminate).
  assert (H4 : name_of (names_row 9606 "Homo sapiens" "scientific name")
     = CStr (py_replace "_" " " "Homo_sapiens")) by reflexivity.
  split; [exact H1 | split; [exact H2 | split; [exact H3 | split; [exact H4 | ]]]].
  exact (getTaxidNames_first_named "Homo_sapiens" None names_human nodes_foo
           _ _ _ H1 H2 H3 H4).
Defined.

(** C3, as the specification states it, fails: the name class is not
    consulted.  With a synonym row before the scientific name of the same
    name, the code returns the synonym's taxid. *)
Lemma getTaxidNames_name_class_counterexample :
  getTaxidNames "Foo" None names_synonym nodes_foo
  = Ok (Some "5", names_synonym, nodes_foo)
  /\ spec_lookup (py_replace "_" " " "Foo") names_synonym = Some "7".
Proof. split; reflexivity. Qed.

(* ================================================================== *)
(** * addTaxon *)
(* ================================================================== *)

(** C7.  [addTaxon] never completes: whatever it is given, it raises.
    When the taxid column of the names table has a maximum, the exception
    is the read of the unassigned local [taxid]. *)
Theorem addTaxon_raises (taxname : str) (mother_clade_taxid : cell)
    (names_df nodes_df : DataFrame) :
  (exists e, addTaxon taxname mother_clade_taxid names_df nodes_df = Err e)
  /\ (forall col0 m, df_col names_df 0 = Ok col0 -> py_max col0 = Ok m ->
        addTaxon taxname mother_clade_taxid names_df nodes_df
        = Err (UnboundLocalError "taxid")).
Proof.
  unfold addTaxon. split.
  - destruct (df_col names_df 0) as [col0|e]; simpl; [|eauto].
    destruct (py_max col0) as [m|e]; simpl; eauto.
  - intros col0 m -> Hm. simpl. now rewrite Hm.
Qed.

(** [addTaxon] on a one-genus names table. *)
Example addTaxon_Foo_bar :
  addTaxon "Foo bar" (CStr "5") names_foo nodes_foo = Err (UnboundLocalError "taxid").
Proof. reflexivity. Qed.

(* ================================================================== *)
(** * Header rewriting: re.sub and editFasta *)
(* ================================================================== *)

Section Substitution.

Variable repl : str -> str.

Lemma span_line_length s : (length (snd (span_line s)) <= length s)%nat.
Proof.
  induction s as [|c s IH]; simpl; [lia|].
  destruct (Ascii.eqb c LF); simpl; [lia|].
  destruct (span_line s) as [m r]; simpl in *. lia.
Qed.

(** [span_line] cuts a text after its first line. *)
Lemma span_line_app (line rest : str) :
  one_line line ->
  rest = [] \/ (exists rest', rest = LF :: rest') ->
  span_line (line ++ rest) = (line, rest).
Proof.
  unfold one_line. induction line as [|c line IH]; simpl; intros Hl Hr.
  - destruct Hr as [->|[rest' ->]]; [reflexivity|].
    simpl. reflexivity.
  - apply orb_false_iff in Hl as [Hc Hl].
    rewrite Ascii.eqb_sym, Hc. now rewrite IH.
Qed.

(** Every text is a first line followed by nothing or by a line feed and
    the remaining text. *)
Lemma first_line_split (s : str) :
  exists line rest, s = line ++ rest /\ one_line line
    /\ (rest = [] \/ exists rest', rest = LF :: rest').
Proof.
  unfold one_line. induction s as [|c s (line & rest & -> & Hl & Hr)].
  - exists [], []. auto.
  - destruct (Ascii.eqb c LF) eqn:E.
    + apply Ascii.eqb_eq in E as ->. exists [], (LF :: line ++ rest). eauto.
    + exists (c :: line), rest. simpl. rewrite Ascii.eqb_sym, E. auto.
Qed.

Lemma match_header_length s m r :
  match_header s = Some (m, r) -> (length r < length s)%nat.
Proof.
  destruct s as [|c s]; simpl; [discriminate|].
  destruct (Ascii.eqb c ">"); [|discriminate].
  pose proof (span_line_length s) as Hlen.
  destruct (span_line s) as [[|x m'] r']; [discriminate|].
  intros [= <- <-]. simpl in Hlen. lia.
Qed.

(** Fuel beyond the length of the text changes nothing. *)
Lemma sub_scan_fuel (fuel fuel' : nat) (s : str) :
  (length s <= fuel)%nat -> (length s <= fuel')%nat ->
  sub_scan fuel repl s = sub_scan fuel' repl s.
Proof.
  revert fuel' s. induction fuel as [|fuel IH]; intros fuel' s H1 H2.
  - destruct s; simpl in *; [|lia]. now destruct fuel'.
  - destruct fuel' as [|fuel']; [destruct s; simpl in *; [reflexivity|lia]|].
    destruct s as [|c s]; [reflexivity|].
    cbn [sub_scan]. destruct (match_header (c :: s)) as [[m r]|] eqn:E.
    + apply match_header_length in E. simpl in *. f_equal. apply IH; lia.
    + simpl in *. f_equal. apply IH; lia.
Qed.

Lemma re_sub_cons c s :
  re_sub repl (c :: s) =
  match match_header (c :: s) with
  | Some (m, r) => repl m ++ re_sub repl r
  | None => c :: re_sub repl s
  end.
Proof.
  unfold re_sub. cbn [length sub_scan].
  destruct (match_header (c :: s)) as [[m r]|] eqn:E.
  - apply match_header_length in E. simpl in E. f_equal.
    apply sub_scan_fuel; lia.
  - reflexivity.
Qed.

(** The scan of a first line: it is rewritten as [rewrite_line] says and
    the scan resumes after it. *)
Lemma re_sub_first_line (line rest : str) :
  one_line line ->
  rest = [] \/ (exists rest', rest = LF :: rest') ->
  re_sub repl (line ++ rest) = rewrite_line repl line ++ re_sub repl rest.
Proof.
  intros Hl Hr. induction line as [|c line IH]; [reflexivity|].
  assert (Hl' : one_line line).
  { unfold one_line in *. simpl in Hl. now apply orb_false_iff in Hl as [_ ?]. }
  change ((c :: line) ++ rest) with (c :: (line ++ rest)).
  rewrite re_sub_cons. cbn [match_header rewrite_line].
  destruct (Ascii.eqb c ">") eqn:Ec.
  - rewrite (span_line_app line rest Hl' Hr).
    destruct line as [|x line]; [reflexivity|]. reflexivity.
  - simpl. f_equal. now apply IH.
Qed.

Lemma split_char_first_line c (line rest : str) :
  mem_char c line = false ->
  split_char c (line ++ c :: rest) = line :: split_char c rest.
Proof.
  induction line as [|a line IH]; simpl; intros Hl.
  - now rewrite Ascii.eqb_refl.
  - apply orb_false_iff in Hl as [Ha Hl]. rewrite Ascii.eqb_sym, Ha.
    now rewrite IH.
Qed.

Lemma split_char_last_line c (line : str) :
  mem_char c line = false -> split_char c line = [line].
Proof.
  induction line as [|a line IH]; simpl; intros Hl; [reflexivity|].
  apply orb_false_iff in Hl as [Ha Hl]. rewrite Ascii.eqb_sym, Ha.
  now rewrite IH.
Qed.

Lemma split_char_nonempty c s : split_char c s <> [].
Proof.
  destruct s as [|a s]; simpl; [discriminate|].
  destruct (Ascii.eqb a c); [discriminate|].
  destruct (split_char c s); discriminate.
Qed.

Lemma py_join_cons sep (p : str) (ps : list str) :
  ps <> [] -> py_join sep (p :: ps) = p ++ sep ++ py_join sep ps.
Proof. destruct ps; [congruence|reflexivity]. Qed.

(** The substitution works line by line. *)
Lemma re_sub_lines (text : str) :
  re_sub repl text = py_join [LF] (map (rewrite_line repl) (split_char LF text)).
Proof.
  remember (length text) as n eqn:Hn. revert text Hn.
  induction n as [n IH] using lt_wf_ind. intros text ->.
  destruct (first_line_split text) as (line & rest & -> & Hl & Hr).
  rewrite (re_sub_first_line _ _ Hl Hr).
  destruct Hr as [->|[rest' ->]].
  - change (re_sub repl []) with (@nil ascii).
    rewrite !app_nil_r, (split_char_last_line _ _ Hl). reflexivity.
  - rewrite (split_char_first_line _ _ _ Hl). cbn [map].
    rewrite py_join_cons.
    2:{ intros H. apply map_eq_nil in H. now apply split_char_nonempty in H. }
    rewrite re_sub_cons. simpl match_header.
    rewrite (IH (length rest')); [reflexivity| |reflexivity].
    rewrite length_app. simpl. lia.
Qed.

End Substitution.

Section Template.

Lemma parse_template_literal (groups : nat) (s : str) :
  mem_char BACKSLASH s = false ->
  parse_template groups s = Ok (map TLit s).
Proof.
  induction s as [|c s IH]; [reflexivity|].
  unfold mem_char. cbn [existsb]. intros H.
  apply orb_false_iff in H as [Hc Hs].
  cbn [parse_template map]. rewrite Ascii.eqb_sym, Hc. cbn [negb].
  rewrite (IH Hs). reflexivity.
Qed.

Lemma mem_char_app c (a b : str) :
  mem_char c (a ++ b) = mem_char c a || mem_char c b.
Proof. unfold mem_char. apply existsb_app. Qed.

Lemma kraken_suffix_no_backslash (taxid taxname : str) :
  mem_char BACKSLASH taxid = false ->
  mem_char BACKSLASH taxname = false ->
  mem_char BACKSLASH (kraken_suffix taxid taxname) = false.
Proof.
  intros H1 H2. unfold kraken_suffix.
  rewrite !mem_char_app, H1, H2. reflexivity.
Qed.

(** The template of [editFasta] is the reference to group 1 followed by
    the literal suffix, as long as the suffix has no backslash. *)
Lemma parse_kraken_template (taxid taxname : str) :
  mem_char BACKSLASH taxid = false ->
  mem_char BACKSLASH taxname = false ->
  parse_template 1 (kraken_template taxid taxname)
  = Ok (TGroup 1 :: map TLit (kraken_suffix taxid taxname)).
Proof.
  intros H1 H2.
  pose proof (parse_template_literal 1 _ (kraken_suffix_no_backslash _ _ H1 H2)) as Hp.
  unfold kraken_template, kraken_suffix in *.
  change ("1|kraken:taxid|" ++ taxid ++ "|" ++ taxname)
    with ("1"%char :: "|"%char :: "kraken:taxid|" ++ taxid ++ "|" ++ taxname).
  change ("|kraken:taxid|" ++ taxid ++ "|" ++ taxname)
    with ("|"%char :: "kraken:taxid|" ++ taxid ++ "|" ++ taxname) in *.
  generalize dependent ("kraken:taxid|" ++ taxid ++ "|" ++ taxname).
  intros tail Hp. cbn [parse_template] in *.
  change (Ascii.eqb BACKSLASH BACKSLASH) with true.
  change (Ascii.eqb "1" "g") with false.
  change (Ascii.eqb "1" "0") with false.
  change (is_digit "1") with true.
  change (is_digit "|") with false.
  cbn [negb]. cbv iota. rewrite Hp. reflexivity.
Qed.

Lemma expand_literal (s : str) (m : str) : expand (map TLit s) m = s.
Proof.
  unfold expand. induction s as [|c s IH]; [reflexivity|].
  simpl. now f_equal.
Qed.

Lemma expand_kraken (suffix m : str) :
  expand (TGroup 1 :: map TLit suffix) m = m ++ suffix.
Proof.
  change (expand (TGroup 1 :: map TLit suffix) m)
    with (m ++ expand (map TLit suffix) m).
  now rewrite expand_literal.
Qed.

Lemma rewrite_line_ext (f g : str -> str) (l : str) :
  (forall m, f m = g m) -> rewrite_line f l = rewrite_line g l.
Proof.
  intros Hfg. induction l as [|c l IH]; [reflexivity|].
  cbn [rewrite_line]. destruct (Ascii.eqb c ">").
  - destruct l; [reflexivity|apply Hfg].
  - now rewrite IH.
Qed.

(** A header with text after the [>] gets the replacement. *)
Lemma rewrite_line_header (repl : str -> str) (h : str) :
  h <> [] -> rewrite_line repl (">"%char :: h) = repl (">"%char :: h).
Proof. destruct h; [congruence|reflexivity]. Qed.

(** A bare [>] stays. *)
Lemma rewrite_line_bare (repl : str -> str) : rewrite_line repl ">" = ">".
Proof. reflexivity. Qed.

(** A line without [>] stays. *)
Lemma rewrite_line_plain (repl : str -> str) (l : str) :
  mem_char ">" l = false -> rewrite_line repl l = l.
Proof.
  induction l as [|c l IH]; [reflexivity|].
  unfold mem_char. cbn [existsb rewrite_line]. intros H.
  apply orb_false_iff in H as [Hc Hl].
  rewrite Ascii.eqb_sym, Hc. now rewrite (IH Hl).
Qed.

Lemma split_char_join c (ls : list str) :
  ls <> [] ->
  Forall (fun l => mem_char c l = false) ls ->
  split_char c (py_join [c] ls) = ls.
Proof.
  intros Hne Hall. induction Hall as [|l ls Hl Hls IH]; [congruence|].
  destruct ls as [|l' ls'].
  - simpl. now apply split_char_last_line.
  - rewrite py_join_cons by discriminate.
    change ([c] ++ py_join [c] (l' :: ls')) with (c :: py_join [c] (l' :: ls')).
    rewrite split_char_first_line by assumption.
    rewrite IH by discriminate. reflexivity.
Qed.

End Template.

Section EditFasta.

Variables (fs : fsys) (infasta outdir taxid taxname : str).

(** [editFasta] on a stored FASTA text, for a template that parses. *)
Lemma editFasta_ok (text : str) (items : list titem) :
  stored_fasta fs infasta text ->
  parse_template 1 (kraken_template taxid taxname) = Ok items ->
  editFasta fs infasta outdir taxid taxname
  = Ok (<[fasta_file_path outdir taxid (edited_name infasta)
          := Plain (py_join [LF] (map (rewrite_line (expand items))
                                      (split_char LF text)))]> fs,
        CInt 0).
Proof.
  unfold stored_fasta, editFasta, edited_name, re_sub_header.
  intros Hst Hp. rewrite Hp.
  destruct (py_endswith ".gz" infasta);
    unfold gzip_open_read, open_read; rewrite Hst; simpl;
    now rewrite re_sub_lines.
Qed.

(** [editFasta] on a stored FASTA text, for a template [re] rejects. *)
Lemma editFasta_bad_template (text : str) (e : exn) :
  stored_fasta fs infasta text ->
  parse_template 1 (kraken_template taxid taxname) = Err e ->
  editFasta fs infasta outdir taxid taxname = Err e.
Proof.
  unfold stored_fasta, editFasta, re_sub_header.
  intros Hst Hp. rewrite Hp.
  destruct (py_endswith ".gz" infasta);
    unfold gzip_open_read, open_read; rewrite Hst; reflexivity.
Qed.

End EditFasta.

Section Destination.

Lemma startswith_gz_app (s : str) :
  s <> [] ->
  py_startswith ".gz" s = false ->
  py_startswith ".gz" (s ++ ".gz") = false.
Proof.
  destruct s as [|c [|d [|e s]]]; intros Hne H; [congruence| | |exact H];
    cbn [py_startswith app] in *.
  - change (Ascii.eqb "g" ".") with false. now rewrite andb_false_r.
  - change (Ascii.eqb "z" ".") with false. now rewrite !andb_false_r.
Qed.

(** The piece before the first [.gz] of [b.gz], for a [b] without
    [.gz], is [b]. *)
Lemma split_head_gz (b cur : str) :
  occurs ".gz" b = false ->
  hd [] (split_go ".gz" 0 cur (b ++ ".gz")) = rev cur ++ b.
Proof.
  revert cur. induction b as [|c b IH]; intros cur Hocc.
  - simpl. now rewrite app_nil_r.
  - cbn [occurs] in Hocc. apply orb_false_iff in Hocc as [Hst Hocc].
    change ((c :: b) ++ ".gz") with (c :: (b ++ ".gz")).
    cbn [split_go].
    change (c :: b ++ ".gz") with ((c :: b) ++ ".gz").
    rewrite (startswith_gz_app (c :: b)) by (discriminate || assumption).
    rewrite (IH (c :: cur) Hocc). simpl. now rewrite <- app_assoc.
Qed.

End Destination.

(** C6, as the code has it.  For a taxid and a taxon name without
    backslash, [editFasta] writes the input text with every line rewritten
    on its own: a header line with at least one character after its [>]
    gets the suffix [|kraken:taxid|<taxid>|<taxname>] appended, and a line
    that contains no [>] is copied unchanged. *)
Theorem editFasta_appends_suffix (fs : fsys) (infasta outdir taxid taxname text : str) :
  stored_fasta fs infasta text ->
  mem_char BACKSLASH taxid = false ->
  mem_char BACKSLASH taxname = false ->
  (exists dest,
     editFasta fs infasta outdir taxid taxname
     = Ok (<[dest := Plain (py_join [LF]
                    (map (rewrite_line (fun m => m ++ kraken_suffix taxid taxname))
                         (split_char LF text)))]> fs,
           CInt 0))
  /\ (forall h, h <> [] ->
        rewrite_line (fun m => m ++ kraken_suffix taxid taxname) (">"%char :: h)
        = ">"%char :: h ++ kraken_suffix taxid taxname)
  /\ (forall l, mem_char ">" l = false ->
        rewrite_line (fun m => m ++ kraken_suffix taxid taxname) l = l).
Proof.
  intros Hst H1 H2. split; [|split].
  - eexists.
    rewrite (editFasta_ok fs infasta outdir taxid taxname text _ Hst
               (parse_kraken_template taxid taxname H1 H2)).
    rewrite (map_ext _ (rewrite_line (fun m => m ++ kraken_suffix taxid taxname)));
      [reflexivity|].
    intros l. apply rewrite_line_ext. intros m. apply expand_kraken.
  - intros h Hh. now rewrite rewrite_line_header.
  - intros l Hl. now apply rewrite_line_plain.
Qed.

(** The record [>seq1 description] with taxid "9606" and name
    "Homo sapiens". *)
Lemma editFasta_appends_suffix_witness :
  stored_fasta (fs_one "genomes/g1.fa" fasta_seq1) "genomes/g1.fa" fasta_seq1
  /\ mem_char BACKSLASH "9606" = false
  /\ mem_char BACKSLASH "Homo sapiens" = false
  /\ exists dest,
       editFasta (fs_one "genomes/g1.fa" fasta_seq1) "genomes/g1.fa" "work"
                 "9606" "Homo sapiens"
       = Ok (<[dest := Plain ">seq1 description|kraken:taxid|9606|Homo sapiens
ACGT
"]> (fs_one "genomes/g1.fa" fasta_seq1), CInt 0).
Proof.
  assert (H0 : stored_fasta (fs_one "genomes/g1.fa" fasta_seq1) "genomes/g1.fa" fasta_seq1)
    by (unfold stored_fasta, fs_one; simpl; apply lookup_singleton_eq).
  assert (H1 : mem_char BACKSLASH "9606" = false) by reflexivity.
  assert (H2 : mem_char BACKSLASH "Homo sapiens" = false) by reflexivity.
  split; [exact H0 | split; [exact H1 | split; [exact H2 | ]]].
  exact (proj1 (editFasta_appends_suffix _ "genomes/g1.fa" "work" "9606" "Homo sapiens"
                  fasta_seq1 H0 H1 H2)).
Defined.

(** C6, as the specification states it, fails on three counts: a header
    that is a bare [>] gets no suffix; a sequence line that contains a [>]
    followed by something gets one; and a backslash in the taxon name is
    read as an escape, not copied. *)
Lemma editFasta_suffix_counterexample :
  written (editFasta (fs_one "g.fa" fasta_bare) "g.fa" "work" "9606" "Homo sapiens")
          "work/9606_g.fa"
  = Some (Plain ">
AC>GT|kraken:taxid|9606|Homo sapiens
")
  /\ spec_rewrite (kraken_suffix "9606" "Homo sapiens") fasta_bare
     = ">|kraken:taxid|9606|Homo sapiens
AC>GT
"
  /\ written (editFasta (fs_one "g.fa" fasta_seq1) "g.fa" "work" "9606" "a\\b")
             "work/9606_g.fa"
     = Some (Plain ">seq1 description|kraken:taxid|9606|a\b
ACGT
")
  /\ editFasta (fs_one "g.fa" fasta_seq1) "g.fa" "work" "9606" "a\qb" = Err ReError.
Proof. repeat split; vm_compute; reflexivity. Qed.

(** C10.  A line of the input that consists of the character [>] alone is
    a line of the output, at the same place, still a bare [>]: whatever
    the taxid and the taxon name, either [re] rejects the template and
    nothing is written, or the file written has every other line rewritten
    and that line unchanged. *)
Theorem editFasta_bare_header (fs : fsys) (infasta outdir taxid taxname : str)
    (before after : list str) :
  Forall one_line before ->
  Forall one_line after ->
  stored_fasta fs infasta (py_join [LF] (before ++ [ [">"%char] ] ++ after)) ->
  match parse_template 1 (kraken_template taxid taxname) with
  | Ok items =>
      exists dest,
        editFasta fs infasta outdir taxid taxname
        = Ok (<[dest := Plain (py_join [LF]
                 (map (rewrite_line (expand items)) before
                  ++ [ [">"%char] ]
                  ++ map (rewrite_line (expand items)) after))]> fs,
              CInt 0)
  | Err e => editFasta fs infasta outdir taxid taxname = Err e
  end.
Proof.
  intros Hb Ha Hst.
  destruct (parse_template 1 (kraken_template taxid taxname)) as [items|e] eqn:Hp.
  - eexists. rewrite (editFasta_ok _ _ _ _ _ _ _ Hst Hp).
    rewrite split_char_join.
    + now rewrite !map_app.
    + destruct before; discriminate.
    + apply Forall_app. split; [exact Hb|]. constructor; [reflexivity|exact Ha].
  - exact (editFasta_bad_template _ _ _ _ _ _ _ Hst Hp).
Qed.

Lemma editFasta_bare_header_witness :
  Forall one_line [">s1 first"; "ACGT"]
  /\ Forall one_line ["GGCC"; ""]
  /\ stored_fasta (fs_one "g.fa" ">s1 first
ACGT
>
GGCC
") "g.fa" (py_join [LF] ([">s1 first"; "ACGT"] ++ [ [">"%char] ] ++ ["GGCC"; ""]))
  /\ exists dest,
       editFasta (fs_one "g.fa" ">s1 first
ACGT
>
GGCC
") "g.fa" "work" "9606" "Homo sapiens"
       = Ok (<[dest := Plain ">s1 first|kraken:taxid|9606|Homo sapiens
ACGT
>
GGCC
"]> (fs_one "g.fa" ">s1 first
ACGT
>
GGCC
"), CInt 0).
Proof.
  assert (H1 : Forall one_line [">s1 first"; "ACGT"]) by (repeat constructor).
  assert (H2 : Forall one_line ["GGCC"; ""]) by (repeat constructor).
  assert (H3 : stored_fasta (fs_one "g.fa" ">s1 first
ACGT
>
GGCC
") "g.fa" (py_join [LF] ([">s1 first"; "ACGT"] ++ [ [">"%char] ] ++ ["GGCC"; ""])))
    by (unfold stored_fasta, fs_one; simpl; apply lookup_singleton_eq).
  split; [exact H1 | split; [exact H2 | split; [exact H3 | ]]].
  exact (editFasta_bare_header _ "g.fa" "work" "9606" "Homo sapiens" _ _ H1 H2 H3).
Defined.

(** C9, as the code has it.  [editFasta] returns the integer 0, not a
    path.  The file it writes is [<outdir>/<taxid>_<name>], where [name]
    is the basename of the source when the source does not end in [.gz],
    and the basename without its [.gz] suffix when the basename is
    [b.gz] for a [b] in which [.gz] does not occur. *)
Theorem editFasta_destination (fs : fsys) (infasta outdir taxid taxname text : str) :
  stored_fasta fs infasta text ->
  mem_char BACKSLASH taxid = false ->
  mem_char BACKSLASH taxname = false ->
  exists name out,
    editFasta fs infasta outdir taxid taxname
    = Ok (<[outdir ++ "/" ++ taxid ++ "_" ++ name := Plain out]> fs, CInt 0)
    /\ (py_endswith ".gz" infasta = false -> name = basename infasta)
    /\ (forall b, py_endswith ".gz" infasta = true ->
                  basename infasta = b ++ ".gz" ->
                  occurs ".gz" b = false -> name = b).
Proof.
  intros Hst H1 H2. exists (edited_name infasta). eexists. split; [|split].
  - exact (editFasta_ok fs infasta outdir taxid taxname text _ Hst
             (parse_kraken_template taxid taxname H1 H2)).
  - unfold edited_name. now intros ->.
  - unfold edited_name. intros b -> -> Hocc. now rewrite split_head_gz.
Qed.

Lemma editFasta_destination_witness :
  stored_fasta (<["genomes/g1.fa.gz" := Gz fasta_seq1]> ∅) "genomes/g1.fa.gz" fasta_seq1
  /\ mem_char BACKSLASH "9606" = false
  /\ mem_char BACKSLASH "Homo sapiens" = false
  /\ exists name out,
       editFasta (<["genomes/g1.fa.gz" := Gz fasta_seq1]> ∅) "genomes/g1.fa.gz"
                 "work" "9606" "Homo sapiens"
       = Ok (<["work" ++ "/" ++ "9606" ++ "_" ++ name := Plain out]>
               (<["genomes/g1.fa.gz" := Gz fasta_seq1]> ∅), CInt 0)
       /\ (py_endswith ".gz" "genomes/g1.fa.gz" = false -> name = basename "genomes/g1.fa.gz")
       /\ (forall b, py_endswith ".gz" "genomes/g1.fa.gz" = true ->
                     basename "genomes/g1.fa.gz" = b ++ ".gz" ->
                     occurs ".gz" b = false -> name = b).
Proof.
  assert (H0 : stored_fasta (<["genomes/g1.fa.gz" := Gz fasta_seq1]> ∅)
                            "genomes/g1.fa.gz" fasta_seq1)
    by (unfold stored_fasta; simpl; apply lookup_insert_eq).
  assert (H1 : mem_char BACKSLASH "9606" = false) by reflexivity.
  assert (H2 : mem_char BACKSLASH "Homo sapiens" = false) by reflexivity.
  split; [exact H0 | split; [exact H1 | split; [exact H2 | ]]].
  exact (editFasta_destination _ "genomes/g1.fa.gz" "work" "9606" "Homo sapiens"
           fasta_seq1 H0 H1 H2).
Defined.

(** C9, as the specification states it, fails: the value returned is the
    integer 0 and not the path of the file written. *)
Lemma editFasta_return_counterexample :
  returned (editFasta (fs_one "genomes/g1.fa" fasta_seq1) "genomes/g1.fa" "work"
                      "9606" "Homo sapiens")
  = Some (CInt 0)
  /\ is_Some (written (editFasta (fs_one "genomes/g1.fa" fasta_seq1) "genomes/g1.fa"
                                 "work" "9606" "Homo sapiens")
                      "work/9606_g1.fa")
  /\ CInt 0 <> CStr "work/9606_g1.fa".
Proof.
  split; [|split].
  - vm_compute. reflexivity.
  - vm_compute. eexists. reflexivity.
  - discriminate.
Qed.

(** The first [.gz] of the basename is where the name is cut, suffix or
    not. *)
Example edited_name_inner_gz :
  edited_name "genomes/a.gz.fasta.gz" = "a".
Proof. reflexivity. Qed.

(* ================================================================== *)
(** * The orchestrator: taxadd_Main *)
(* ================================================================== *)

Section UnresolvedFile.

(** One file of a taxon that does not resolve: the path is recorded, the
    file system is left alone, and the scaffold ids of the file are
    appended under the key [None]. *)
Lemma process_fasta_unresolved (fasta_WDir dir taxname fasta : str)
    (mother_clade : option str) (st : state) (ids : list str) :
  names_table (st_names st) ->
  lacks (st_names st) (py_replace "_" " " taxname) ->
  get_scaffold_ids (st_fs st) (path_join dir fasta) = Ok ids ->
  process_fasta fasta_WDir dir taxname mother_clade st fasta
  = Ok (mkState (st_fs st) (st_names st) (st_nodes st)
          (fold_left (fun d id => dd_append None id d) ids (st_scaffold st))
          (dd_append taxname (path_join dir fasta) (st_fasta st))).
Proof.
  intros Hn Hl Hids. unfold process_fasta.
  rewrite (getTaxidNames_absent _ _ _ _ Hn Hl). simpl.
  rewrite Hids. reflexivity.
Qed.

End UnresolvedFile.

(** C2.  The run on a database whose only FASTA file belongs to a taxon
    the names table lacks: the run completes and records the path under
    the taxon name, no rewritten FASTA appears, but the scaffold id of the
    file is written to [seqid2taxid.map], with "None" for a taxid. *)
Theorem taxadd_Main_unresolved_scaffolds :
  returned (taxadd_Main fs_unresolved walk_unresolved "work" "db"
                        "tax/names.dmp" "tax/nodes.dmp")
  = Some [("Foo_bar", ["db/Foo_bar/g1.fa"])]
  /\ written (taxadd_Main fs_unresolved walk_unresolved "work" "db"
                          "tax/names.dmp" "tax/nodes.dmp")
             "tax/seqid2taxid.map"
     = Some (Plain ("seq1" ++ [TAB] ++ "None" ++ [LF]))
  /\ dom (final_fs (taxadd_Main fs_unresolved walk_unresolved "work" "db"
                                "tax/names.dmp" "tax/nodes.dmp"))
     = {[ "db/Foo_bar/g1.fa"; "tax/names.dmp"; "tax/nodes.dmp";
          "tax/names.dmp.old"; "tax/nodes.dmp.old"; "tax/seqid2taxid.map" ]}.
Proof.
  split; [|split].
  - vm_compute. reflexivity.
  - vm_compute. reflexivity.
  - refine (bool_decide_unpack (dom _ = _) _). vm_compute. exact I.
Qed.

(* ================================================================== *)
(** * The write step: renames before writes *)
(* ================================================================== *)

Section WriteStep.

Variables (names_path nodes_path : str).
Variables (names_df nodes_df : DataFrame).
Variable scaffold_taxid_dict : list (option str * list str).

Let d : str := dump_dir names_path.
Let old_names : str := d ++ "/names.dmp.old".
Let old_nodes : str := d ++ "/nodes.dmp.old".

Lemma write_table_new (path : str) (df : DataFrame) :
  (path = d ++ "/names.dmp" \/ path = d ++ "/nodes.dmp"
   \/ path = d ++ "/seqid2taxid.map") ->
  Forall (writes_new d) (write_table path df).
Proof.
  intros Hp. unfold write_table. constructor; [exact Hp|].
  destruct (df_iterrows df) as [rs|e].
  - apply Forall_map. apply Forall_forall. intros row _. exact Hp.
  - repeat constructor.
Qed.

Lemma writeSeq2taxid_new :
  Forall (writes_new d) (writeSeq2taxid scaffold_taxid_dict d).
Proof.
  unfold writeSeq2taxid. constructor; [simpl; auto|].
  apply Forall_flat_map. apply Forall_forall. intros entry _.
  apply Forall_map. apply Forall_forall. intros id _. simpl. auto.
Qed.

(** The write step is the two renames and then only writes to the three
    new files. *)
Lemma write_step_renames_first :
  exists rest,
    write_step names_path nodes_path names_df nodes_df scaffold_taxid_dict
    = Ok (Rename names_path old_names) :: Ok (Rename nodes_path old_nodes) :: rest
    /\ Forall (writes_new d) rest.
Proof.
  eexists. split; [reflexivity|].
  apply Forall_app. split.
  - unfold writeDmp. apply Forall_app. split; apply write_table_new; auto.
  - apply writeSeq2taxid_new.
Qed.

Lemma new_not_old (p : str) :
  (p = d ++ "/names.dmp" \/ p = d ++ "/nodes.dmp" \/ p = d ++ "/seqid2taxid.map") ->
  p <> old_names /\ p <> old_nodes.
Proof.
  unfold old_names, old_nodes.
  intros [-> | [-> | ->]]; split; intros H; apply app_inv_head in H; discriminate H.
Qed.

(** Writes to the new files leave the two [.old] files as they are, at
    every point of the run. *)
Lemma old_files_kept (N X : file) (rest : script) :
  Forall (writes_new d) rest ->
  forall (fs : fsys) (k : nat),
    fs !! old_names = Some N -> fs !! old_nodes = Some X ->
    state_after fs rest k !! old_names = Some N
    /\ state_after fs rest k !! old_nodes = Some X.
Proof.
  unfold state_after.
  induction 1 as [|step rest Hstep _ IH]; intros fs k HN HX.
  - rewrite take_nil. simpl. auto.
  - destruct k as [|k]; [simpl; auto|].
    cbn [take run]. destruct step as [[src dst|p|p line]|e]; simpl in Hstep.
    + contradiction.
    + destruct (new_not_old p Hstep) as [H1 H2]. cbn [exec_op].
      apply IH; rewrite lookup_insert_ne by congruence; assumption.
    + destruct (new_not_old p Hstep) as [H1 H2]. cbn [exec_op].
      destruct (fs !! p) as [[t|t]|]; simpl; auto.
      apply IH; rewrite lookup_insert_ne by congruence; assumption.
    + simpl. auto.
Qed.

(** At every point of the write step some file holds the names dump and
    some file holds the nodes dump that were there when it began. *)
Lemma write_step_keeps_copies (fs : fsys) (N X : file) (k : nat) :
  fs !! names_path = Some N ->
  fs !! nodes_path = Some X ->
  nodes_path <> old_names ->
  holds (state_after fs (write_step names_path nodes_path names_df nodes_df
                                    scaffold_taxid_dict) k) N
  /\ holds (state_after fs (write_step names_path nodes_path names_df nodes_df
                                       scaffold_taxid_dict) k) X.
Proof.
  intros HN HX Hclash.
  destruct write_step_renames_first as (rest & -> & Hrest).
  unfold state_after, holds.
  destruct k as [|k]; [simpl; eauto|].
  cbn [take run exec_op]. rewrite HN.
  set (fs1 := <[old_names := N]> (delete names_path fs)).
  assert (H1N : fs1 !! old_names = Some N) by apply lookup_insert_eq.
  assert (H1X : exists p, fs1 !! p = Some X).
  { destruct (decide (nodes_path = names_path)) as [E|E].
    - exists old_names. rewrite E, HN in HX. congruence.
    - exists nodes_path. unfold fs1.
      rewrite lookup_insert_ne, lookup_delete_ne by congruence. exact HX. }
  destruct k as [|k]; [simpl; eauto|].
  cbn [take run exec_op].
  destruct (fs1 !! nodes_path) as [X'|] eqn:E1; [|simpl; eauto].
  assert (X' = X) as ->.
  { unfold fs1 in E1. rewrite lookup_insert_ne in E1 by congruence.
    apply lookup_delete_Some in E1 as [_ E1]. congruence. }
  set (fs2 := <[old_nodes := X]> (delete nodes_path fs1)).
  assert (H2N : fs2 !! old_names = Some N).
  { unfold fs2. rewrite lookup_insert_ne.
    - rewrite lookup_delete_ne by exact Hclash. exact H1N.
    - unfold old_names, old_nodes. intros H.
      apply app_inv_head in H. discriminate H. }
  assert (H2X : fs2 !! old_nodes = Some X) by apply lookup_insert_eq.
  destruct (old_files_kept N X rest Hrest fs2 k H2N H2X) as [HN' HX'].
  unfold state_after in *. eauto.
Qed.

End WriteStep.

(** C8, as the code has it.  The write step renames the two dump files and
    only then opens the new ones; and when the nodes dump is not itself
    the file [<dir>/names.dmp.old], at every point of the step some file
    holds the previous names content and some file holds the previous
    nodes content. *)
Theorem write_step_old_before_new (fs : fsys) (names_path nodes_path : str)
    (names_df nodes_df : DataFrame) (scaffold_taxid_dict : list (option str * list str))
    (N X : file) :
  fs !! names_path = Some N ->
  fs !! nodes_path = Some X ->
  nodes_path <> dump_dir names_path ++ "/names.dmp.old" ->
  (exists rest,
     write_step names_path nodes_path names_df nodes_df scaffold_taxid_dict
     = Ok (Rename names_path (dump_dir names_path ++ "/names.dmp.old"))
       :: Ok (Rename nodes_path (dump_dir names_path ++ "/nodes.dmp.old"))
       :: rest
     /\ Forall (writes_new (dump_dir names_path)) rest)
  /\ forall k,
       holds (state_after fs (write_step names_path nodes_path names_df nodes_df
                                         scaffold_taxid_dict) k) N
       /\ holds (state_after fs (write_step names_path nodes_path names_df nodes_df
                                            scaffold_taxid_dict) k) X.
Proof.
  intros HN HX Hclash. split.
  - apply write_step_renames_first.
  - intros k. now apply write_step_keeps_copies.
Qed.

Lemma write_step_old_before_new_witness :
  fs_unresolved !! "tax/names.dmp" = Some (Plain names_dump_foo)
  /\ fs_unresolved !! "tax/nodes.dmp" = Some (Plain nodes_dump_foo)
  /\ "tax/nodes.dmp" <> dump_dir "tax/names.dmp" ++ "/names.dmp.old"
  /\ (exists rest,
        write_step "tax/names.dmp" "tax/nodes.dmp" names_foo nodes_foo []
        = Ok (Rename "tax/names.dmp" (dump_dir "tax/names.dmp" ++ "/names.dmp.old"))
          :: Ok (Rename "tax/nodes.dmp" (dump_dir "tax/names.dmp" ++ "/nodes.dmp.old"))
          :: rest
        /\ Forall (writes_new (dump_dir "tax/names.dmp")) rest)
  /\ forall k,
       holds (state_after fs_unresolved
                (write_step "tax/names.dmp" "tax/nodes.dmp" names_foo nodes_foo []) k)
             (Plain names_dump_foo)
       /\ holds (state_after fs_unresolved
                   (write_step "tax/names.dmp" "tax/nodes.dmp" names_foo nodes_foo []) k)
                (Plain nodes_dump_foo).
Proof.
  assert (H1 : fs_unresolved !! "tax/names.dmp" = Some (Plain names_dump_foo))
    by (vm_compute; reflexivity).
  assert (H2 : fs_unresolved !! "tax/nodes.dmp" = Some (Plain nodes_dump_foo))
    by (vm_compute; reflexivity).
  assert (H3 : "tax/nodes.dmp" <> dump_dir "tax/names.dmp" ++ "/names.dmp.old")
    by (vm_compute; discriminate).
  split; [exact H1 | split; [exact H2 | split; [exact H3 | ]]].
  exact (write_step_old_before_new fs_unresolved "tax/names.dmp" "tax/nodes.dmp"
           names_foo nodes_foo [] _ _ H1 H2 H3).
Defined.

(** C8, as the specification states it, fails when the nodes dump is the
    file [names.dmp.old] of the names dump's directory: the first rename
    replaces it, and from then on no file holds the previous nodes
    content. *)
Lemma write_step_clash_counterexample :
  fs_clash !! "tax/current.dmp" = Some (Plain names_dump_foo)
  /\ fs_clash !! "tax/names.dmp.old" = Some (Plain nodes_dump_foo)
  /\ ~ holds (state_after fs_clash
                (write_step "tax/current.dmp" "tax/names.dmp.old" names_foo nodes_foo [])
                1)
             (Plain nodes_dump_foo).
Proof.
  split; [vm_compute; reflexivity|]. split; [vm_compute; reflexivity|].
  assert (E : state_after fs_clash
                (write_step "tax/current.dmp" "tax/names.dmp.old" names_foo nodes_foo [])
                1
              = {[ "tax/names.dmp.old" := Plain names_dump_foo ]}).
  { refine (bool_decide_unpack (_ = _) _). vm_compute. exact I. }
  intros [p Hp]. rewrite E in Hp.
  apply lookup_singleton_Some in Hp as [_ Hp]. discriminate Hp.
Qed.

(* ================================================================== *)
(** * Facts about the string primitives *)
(* ================================================================== *)

Section Characters.

Ltac by_cases c :=
  destruct c as [[] [] [] [] [] [] [] []]; vm_compute; congruence.

Lemma c_isspace_py c : c_isspace c = true -> py_isspace c = true.
Proof. by_cases c. Qed.

Lemma c_isspace_no_digit c : c_isspace c = true -> digit_cons c = None.
Proof. by_cases c. Qed.

Lemma c_isspace_no_sign c :
  c_isspace c = true -> Ascii.eqb c "-" = false /\ Ascii.eqb c "+" = false.
Proof. destruct c as [[] [] [] [] [] [] [] []]; vm_compute; intuition congruence. Qed.

Lemma digit_cons_is_digit c k : digit_cons c = Some k -> is_digit c = true.
Proof. destruct c as [[] [] [] [] [] [] [] []]; vm_compute; congruence. Qed.

Lemma digit_cons_not_py_space c k : digit_cons c = Some k -> py_isspace c = false.
Proof. destruct c as [[] [] [] [] [] [] [] []]; vm_compute; congruence. Qed.

Lemma digit_cons_not_space c k : digit_cons c = Some k -> c_isspace c = false.
Proof. destruct c as [[] [] [] [] [] [] [] []]; vm_compute; congruence. Qed.

Lemma digit_cons_clean c k :
  digit_cons c = Some k ->
  Ascii.eqb c "|" = false /\ Ascii.eqb c LF = false /\ Ascii.eqb c CR = false
  /\ Ascii.eqb c QUOTE = false /\ Ascii.eqb c "-" = false /\ Ascii.eqb c "+" = false.
Proof.
  destruct c as [[] [] [] [] [] [] [] []]; vm_compute; intuition congruence.
Qed.

End Characters.

Section DropWhile.

Variable p : ascii -> bool.

Lemma drop_while_all (ws s : str) :
  forallb p ws = true -> drop_while p (ws ++ s) = drop_while p s.
Proof.
  induction ws as [|c ws IH]; simpl; [reflexivity|].
  intros H. apply andb_true_iff in H as [-> H]. auto.
Qed.

Lemma drop_while_stop (s t : str) :
  drop_while p s <> [] -> drop_while p (s ++ t) = drop_while p s ++ t.
Proof.
  induction s as [|c s IH]; simpl; [congruence|].
  destruct (p c); auto.
Qed.

Lemma drop_while_nil_app (s t : str) :
  drop_while p s = [] -> drop_while p (s ++ t) = drop_while p t.
Proof.
  induction s as [|c s IH]; simpl; [reflexivity|].
  destruct (p c); [auto|discriminate].
Qed.

(** A text is the blanks dropped followed by what is kept. *)
Lemma drop_while_split (s : str) :
  exists w, s = w ++ drop_while p s /\ forallb p w = true.
Proof.
  induction s as [|c s (w & Hs & Hw)]; simpl.
  - exists []. auto.
  - destruct (p c) eqn:E.
    + exists (c :: w). simpl. rewrite E, Hw. split; [now f_equal|reflexivity].
    + exists []. auto.
Qed.

Lemma drop_while_head (s : str) c r :
  drop_while p s = c :: r -> p c = false.
Proof.
  induction s as [|a s IH]; simpl; [discriminate|].
  destruct (p a) eqn:E; [exact IH|]. intros [= <- <-]. exact E.
Qed.

Lemma drop_while_id (s : str) :
  match s with [] => True | c :: _ => p c = false end -> drop_while p s = s.
Proof. destruct s as [|c s]; simpl; [reflexivity|]. now intros ->. Qed.

End DropWhile.

Section Strip.

Lemma forallb_rev {A} (f : A -> bool) (l : list A) :
  forallb f (rev l) = forallb f l.
Proof.
  induction l as [|x l IH]; simpl; [reflexivity|].
  rewrite forallb_app, IH. simpl. rewrite andb_true_r. apply andb_comm.
Qed.

(** A text is blanks, its stripped form, and blanks. *)
Lemma py_strip_split (s : str) :
  exists w1 w2, s = w1 ++ py_strip s ++ w2
    /\ forallb py_isspace w1 = true /\ forallb py_isspace w2 = true.
Proof.
  unfold py_strip, py_rstrip, py_lstrip.
  destruct (drop_while_split py_isspace s) as (w1 & Hs & Hw1).
  destruct (drop_while_split py_isspace (rev (drop_while py_isspace s)))
    as (w2 & Hr & Hw2).
  exists w1, (rev w2). split; [|split; [exact Hw1|now rewrite forallb_rev]].
  rewrite <- rev_app_distr, <- Hr, rev_involutive. exact Hs.
Qed.

Lemma py_lstrip_pad (ws s : str) :
  forallb py_isspace ws = true -> py_lstrip (ws ++ s) = py_lstrip s.
Proof. apply drop_while_all. Qed.

Lemma py_rstrip_pad (ws s : str) :
  forallb py_isspace ws = true -> py_rstrip (s ++ ws) = py_rstrip s.
Proof.
  intros H. unfold py_rstrip. rewrite rev_app_distr, drop_while_all; [reflexivity|].
  now rewrite forallb_rev.
Qed.

Lemma py_rstrip_nil : py_rstrip [] = [].
Proof. reflexivity. Qed.

(** Blanks around a text do not change its stripped form. *)
Lemma py_strip_pad (ws1 ws2 s : str) :
  forallb py_isspace ws1 = true -> forallb py_isspace ws2 = true ->
  py_strip (ws1 ++ s ++ ws2) = py_strip s.
Proof.
  intros H1 H2. unfold py_strip. rewrite (py_lstrip_pad _ _ H1).
  unfold py_lstrip.
  destruct (drop_while py_isspace s) as [|c r] eqn:E.
  - rewrite (drop_while_nil_app _ _ _ E).
    destruct (drop_while_split py_isspace ws2) as (w & Hw & _).
    assert (drop_while py_isspace ws2 = []) as ->; [|reflexivity].
    clear -H2. induction ws2 as [|a ws2 IH]; simpl in *; [reflexivity|].
    apply andb_true_iff in H2 as [-> H2]. auto.
  - rewrite drop_while_stop by (rewrite E; discriminate).
    rewrite E. now apply py_rstrip_pad.
Qed.

Lemma drop_while_idem (p : ascii -> bool) (s : str) :
  drop_while p (drop_while p s) = drop_while p s.
Proof.
  induction s as [|c s IH]; simpl; [reflexivity|].
  destruct (p c) eqn:E; [exact IH|]. simpl. now rewrite E.
Qed.

(** Stripping what is stripped changes nothing. *)
Lemma py_strip_idem (s : str) : py_strip (py_strip s) = py_strip s.
Proof.
  destruct (py_strip_split s) as (w1 & w2 & Hs & H1 & H2).
  rewrite Hs at 2. now rewrite py_strip_pad.
Qed.

Lemma mem_char_strip c (s : str) :
  mem_char c s = false -> mem_char c (py_strip s) = false.
Proof.
  destruct (py_strip_split s) as (w1 & w2 & Hs & _). intros H.
  rewrite Hs, !mem_char_app in H.
  apply orb_false_iff in H as [_ H]. now apply orb_false_iff in H as [H _].
Qed.

End Strip.

Section Integers.

Lemma read_digits_app (s t : str) :
  no_digit_head t ->
  read_digits (s ++ t) = (fst (read_digits s), snd (read_digits s) ++ t).
Proof.
  intros Ht. induction s as [|c s IH]; simpl.
  - destruct t as [|a t]; [reflexivity|]. simpl in *. now rewrite Ht.
  - destruct (digit_cons c); [|reflexivity].
    rewrite IH. now destruct (read_digits s).
Qed.

Lemma all_space_no_digit_head (ws : str) :
  forallb c_isspace ws = true -> no_digit_head ws.
Proof.
  destruct ws as [|c ws]; simpl; [trivial|].
  intros H. apply andb_true_iff in H as [H _]. now apply c_isspace_no_digit.
Qed.

Lemma drop_while_all_nil (p : ascii -> bool) (ws : str) :
  forallb p ws = true -> drop_while p ws = [].
Proof.
  induction ws as [|c ws IH]; simpl; [reflexivity|].
  intros H. apply andb_true_iff in H as [-> H]. auto.
Qed.

Lemma int_of_digits_pad_r (neg : bool) (s ws : str) :
  forallb c_isspace ws = true ->
  int_of_digits neg (s ++ ws) = int_of_digits neg s.
Proof.
  intros Hws. unfold int_of_digits.
  rewrite (read_digits_app _ _ (all_space_no_digit_head _ Hws)).
  destruct (read_digits s) as [d r]. simpl fst. simpl snd.
  assert (Htail : drop_while c_isspace (r ++ ws) = []
                  <-> drop_while c_isspace r = []).
  { destruct (drop_while c_isspace r) as [|x y] eqn:E.
    - now rewrite (drop_while_nil_app _ _ _ E), (drop_while_all_nil _ _ Hws).
    - rewrite drop_while_stop by (rewrite E; discriminate). now rewrite E. }
  destruct (drop_while c_isspace (r ++ ws)) as [|x y],
           (drop_while c_isspace r) as [|x' y'];
    try reflexivity; exfalso;
    [assert (H : x' :: y' = []) by now apply Htail
    |assert (H : x :: y = []) by now apply Htail];
    discriminate H.
Qed.

(** Blanks after a token change neither whether it is an integer nor
    its value. *)
Lemma str_to_int64_pad_r (s ws : str) :
  forallb c_isspace ws = true ->
  str_to_int64 (s ++ ws) = str_to_int64 s.
Proof.
  intros Hws. unfold str_to_int64.
  destruct (drop_while c_isspace s) as [|c r] eqn:E.
  - now rewrite (drop_while_nil_app _ _ _ E), (drop_while_all_nil _ _ Hws).
  - rewrite drop_while_stop by (rewrite E; discriminate). rewrite E.
    change ((c :: r) ++ ws) with (c :: (r ++ ws)). cbv beta iota.
    destruct (Ascii.eqb c "-"); [now apply int_of_digits_pad_r|].
    destruct (Ascii.eqb c "+"); [now apply int_of_digits_pad_r|].
    now apply (int_of_digits_pad_r false (c :: r)).
Qed.

Lemma str_to_int64_pad_l (ws s : str) :
  forallb c_isspace ws = true ->
  str_to_int64 (ws ++ s) = str_to_int64 s.
Proof.
  intros Hws. unfold str_to_int64. now rewrite drop_while_all.
Qed.

Lemma str_to_int64_pad (ws1 ws2 s : str) :
  forallb c_isspace ws1 = true -> forallb c_isspace ws2 = true ->
  str_to_int64 (ws1 ++ s ++ ws2) = str_to_int64 s.
Proof.
  intros H1 H2. now rewrite str_to_int64_pad_l, str_to_int64_pad_r.
Qed.

Lemma read_digits_uint (d : Decimal.uint) : read_digits (uint_to_str d) = (d, []).
Proof. induction d; simpl; try reflexivity; now rewrite IHd. Qed.

Lemma uint_to_str_head (d : Decimal.uint) :
  d <> Nil -> exists c r k, uint_to_str d = c :: r /\ digit_cons c = Some k.
Proof. destruct d; [congruence|..]; intros _; simpl; eauto. Qed.

Lemma to_int_nonnil (z : Z) :
  match Z.to_int z with Pos d | Neg d => d <> Nil end.
Proof.
  destruct z as [|p|p]; simpl; try discriminate;
    apply DecimalPos.Unsigned.to_uint_nonnil.
Qed.

Lemma int_of_digits_uint (neg : bool) (d : Decimal.uint) :
  d <> Nil ->
  int_of_digits neg (uint_to_str d)
  = let z := Z.of_int (if neg then Neg d else Pos d) in
    if (INT64_MIN <=? z) && (z <=? INT64_MAX) then Some z else None.
Proof.
  intros Hd. unfold int_of_digits. rewrite read_digits_uint.
  destruct d; [congruence|..]; reflexivity.
Qed.

(** The integers of int64 are read back from their decimal writing. *)
Lemma str_to_int64_Z_to_str (z : Z) :
  INT64_MIN <= z <= INT64_MAX -> str_to_int64 (Z_to_str z) = Some z.
Proof.
  intros Hz. unfold Z_to_str.
  pose proof (DecimalZ.of_to z) as Hof. pose proof (to_int_nonnil z) as Hnn.
  assert (Hrange : (INT64_MIN <=? z) && (z <=? INT64_MAX) = true).
  { apply andb_true_iff. split; apply Z.leb_le; lia. }
  destruct (Z.to_int z) as [d|d].
  - destruct (uint_to_str_head d Hnn) as (c & r & k & Hd & Hk).
    unfold str_to_int64. rewrite Hd.
    cbn [drop_while]. rewrite (digit_cons_not_space _ _ Hk).
    destruct (digit_cons_clean _ _ Hk) as (_ & _ & _ & _ & -> & ->).
    rewrite <- Hd, (int_of_digits_uint false d Hnn). cbv zeta.
    now rewrite Hof, Hrange.
  - unfold str_to_int64. cbn [drop_while].
    change (c_isspace "-") with false. cbv iota.
    change (Ascii.eqb "-" "-") with true. cbv iota.
    rewrite (int_of_digits_uint true d Hnn). cbv zeta.
    now rewrite Hof, Hrange.
Qed.

Lemma int_of_digits_range (neg : bool) (s : str) (z : Z) :
  int_of_digits neg s = Some z -> INT64_MIN <= z <= INT64_MAX.
Proof.
  unfold int_of_digits. destruct (read_digits s) as [d r].
  destruct d; try discriminate;
    destruct (drop_while c_isspace r); try discriminate; cbv zeta;
    match goal with
    | |- context [if ?b then _ else _] => destruct b eqn:Eb; [|discriminate]
    end;
    intros [= <-]; apply andb_true_iff in Eb as [H1 H2];
    apply Z.leb_le in H1; apply Z.leb_le in H2; lia.
Qed.

Lemma str_to_int64_range (s : str) (z : Z) :
  str_to_int64 s = Some z -> INT64_MIN <= z <= INT64_MAX.
Proof.
  unfold str_to_int64.
  destruct (drop_while c_isspace s) as [|c r]; [discriminate|].
  destruct (Ascii.eqb c "-"); [apply int_of_digits_range|].
  destruct (Ascii.eqb c "+"); apply int_of_digits_range.
Qed.

End Integers.

Section Tokens.

Lemma drop_while_nil_all (p : ascii -> bool) (s : str) :
  drop_while p s = [] -> forallb p s = true.
Proof.
  induction s as [|c s IH]; simpl; [reflexivity|].
  destruct (p c); [exact IH|discriminate].
Qed.

Lemma forallb_impl {A} (f g : A -> bool) (l : list A) :
  (forall x, f x = true -> g x = true) -> forallb f l = true -> forallb g l = true.
Proof.
  intros Hfg. induction l as [|x l IH]; simpl; [reflexivity|].
  intros H. apply andb_true_iff in H as [Hx Hl].
  now rewrite (Hfg _ Hx), IH.
Qed.

Lemma forallb_c_space_py (ws : str) :
  forallb c_isspace ws = true -> forallb py_isspace ws = true.
Proof. apply forallb_impl. intros c. apply c_isspace_py. Qed.

(** Stripping on the right keeps a first character that is no blank. *)
Lemma py_rstrip_cons (x : ascii) (l : str) :
  py_isspace x = false -> py_rstrip (x :: l) = x :: py_rstrip l.
Proof.
  intros Hx. unfold py_rstrip. cbn [rev].
  destruct (drop_while py_isspace (rev l)) as [|c r] eqn:E.
  - rewrite (drop_while_nil_app _ _ _ E). cbn [drop_while]. now rewrite Hx.
  - rewrite drop_while_stop by (rewrite E; discriminate).
    rewrite E, rev_app_distr. reflexivity.
Qed.

Lemma py_strip_cons (x : ascii) (l : str) :
  py_isspace x = false -> py_strip (x :: l) = x :: py_rstrip l.
Proof.
  intros Hx. unfold py_strip, py_lstrip. cbn [drop_while]. rewrite Hx.
  now apply py_rstrip_cons.
Qed.

(** Digits begin with a digit. *)
Lemma int_of_digits_head (neg : bool) (s : str) (z : Z) :
  int_of_digits neg s = Some z ->
  exists c r k, s = c :: r /\ digit_cons c = Some k.
Proof.
  unfold int_of_digits. destruct s as [|c r]; [discriminate|].
  cbn [read_digits]. destruct (digit_cons c) as [k|] eqn:E; [eauto|discriminate].
Qed.

Lemma sign_not_py_space (c : ascii) :
  Ascii.eqb c "-" || Ascii.eqb c "+" = true -> py_isspace c = false.
Proof.
  intros H. apply orb_true_iff in H as [H|H]; apply Ascii.eqb_eq in H; subst c;
    reflexivity.
Qed.

Lemma digit_no_sign (c : ascii) k :
  digit_cons c = Some k -> Ascii.eqb c "-" || Ascii.eqb c "+" = false.
Proof.
  intros H. destruct (digit_cons_clean _ _ H) as (_ & _ & _ & _ & -> & ->).
  reflexivity.
Qed.

(** An integer token begins as a number. *)
Lemma str_to_int64_head (s : str) (z : Z) :
  str_to_int64 s = Some z -> number_head (py_strip s) = true.
Proof.
  unfold str_to_int64.
  destruct (drop_while_split c_isspace s) as (w & Hs & Hw).
  destruct (drop_while c_isspace s) as [|c r]; [discriminate|].
  intros H.
  assert (Hstrip : py_strip s = py_strip (c :: r)).
  { rewrite Hs at 1. rewrite <- (app_nil_r (c :: r)) at 1.
    apply py_strip_pad; [now apply forallb_c_space_py|reflexivity]. }
  rewrite Hstrip. clear Hstrip Hs.
  destruct (Ascii.eqb c "-") eqn:E1; [|destruct (Ascii.eqb c "+") eqn:E2].
  - apply int_of_digits_head in H as (d & r' & k & -> & Hk).
    rewrite py_strip_cons by (apply sign_not_py_space; now rewrite E1).
    rewrite (py_rstrip_cons _ _ (digit_cons_not_py_space _ _ Hk)).
    cbn [number_head]. rewrite E1. cbn [orb].
    now rewrite (digit_cons_is_digit _ _ Hk).
  - apply int_of_digits_head in H as (d & r' & k & -> & Hk).
    rewrite py_strip_cons by (apply sign_not_py_space; rewrite E2; apply orb_true_r).
    rewrite (py_rstrip_cons _ _ (digit_cons_not_py_space _ _ Hk)).
    cbn [number_head]. rewrite E1, E2. cbn [orb].
    now rewrite (digit_cons_is_digit _ _ Hk).
  - apply int_of_digits_head in H as (d & r' & k & [= <- <-] & Hk).
    rewrite (py_strip_cons _ _ (digit_cons_not_py_space _ _ Hk)).
    cbn [number_head]. rewrite E1, E2. cbn [orb].
    now rewrite (digit_cons_is_digit _ _ Hk).
Qed.

(** A token that is plainly text is no integer. *)
Lemma never_numeric_not_int (s : str) :
  never_numeric s = true -> str_to_int64 s = None.
Proof.
  unfold never_numeric. intros H. apply andb_true_iff in H as [H _].
  apply negb_true_iff in H.
  destruct (str_to_int64 s) as [z|] eqn:E; [|reflexivity].
  apply str_to_int64_head in E. congruence.
Qed.

Lemma never_numeric_not_int_field (s : str) :
  never_numeric s = true -> int_field s = false.
Proof.
  intros H. unfold int_field. rewrite (never_numeric_not_int _ H).
  apply bool_decide_eq_false. intros [z Hz]. discriminate Hz.
Qed.

(** Blanks around a token do not change whether it is plainly text. *)
Lemma never_numeric_pad (ws1 ws2 s : str) :
  forallb c_isspace ws1 = true -> forallb c_isspace ws2 = true ->
  never_numeric (ws1 ++ s ++ ws2) = never_numeric s.
Proof.
  intros H1 H2. unfold never_numeric.
  now rewrite (py_strip_pad _ _ _ (forallb_c_space_py _ H1) (forallb_c_space_py _ H2)).
Qed.

(** What is plainly text is still so once stripped. *)
Lemma never_numeric_strip (s : str) :
  never_numeric s = true -> never_numeric (py_strip s) = true.
Proof. unfold never_numeric. now rewrite py_strip_idem. Qed.

(** No missing-value token holds a tab. *)
Lemma is_na_no_tab (s : str) : is_na s = true -> mem_char TAB s = false.
Proof.
  unfold is_na. intros H. apply existsb_exists in H as (v & Hv & Hs).
  apply bool_decide_eq_true in Hs. subst s.
  assert (Hall : forallb (fun v => negb (mem_char TAB v)) na_values = true)
    by reflexivity.
  rewrite forallb_forall in Hall. specialize (Hall v Hv).
  now apply negb_true_iff in Hall.
Qed.

Lemma tab_not_na (s t : str) : is_na (s ++ TAB :: t) = false.
Proof.
  destruct (is_na (s ++ TAB :: t)) eqn:E; [|reflexivity].
  apply is_na_no_tab in E. rewrite mem_char_app in E. simpl in E.
  rewrite orb_true_r in E. discriminate E.
Qed.

Lemma mem_char_uint (c : ascii) (d : Decimal.uint) :
  digit_cons c = None -> mem_char c (uint_to_str d) = false.
Proof.
  intros Hc. unfold mem_char.
  induction d; simpl; try reflexivity; rewrite IHd, orb_false_r;
    apply Ascii.eqb_neq; intros ->; vm_compute in Hc; discriminate Hc.
Qed.

(** The decimal writing of an integer is made of digits and a sign. *)
Lemma mem_char_Z_to_str (c : ascii) (z : Z) :
  digit_cons c = None -> Ascii.eqb c "-" = false ->
  mem_char c (Z_to_str z) = false.
Proof.
  intros Hc Hm. unfold Z_to_str. destruct (Z.to_int z) as [d|d].
  - now apply mem_char_uint.
  - unfold mem_char in *. simpl. rewrite Hm. now apply mem_char_uint.
Qed.

End Tokens.

(* ================================================================== *)
(** * Dump files: read_csv, readDmp and writeDmp *)
(* ================================================================== *)

Section Lists.

Lemma map_seq_nth {A} (l : list A) (d : A) :
  map (fun j => nth j l d) (seq 0 (length l)) = l.
Proof.
  induction l as [|x l IH]; [reflexivity|].
  cbn [length seq map nth]. f_equal.
  rewrite <- seq_shift, map_map. exact IH.
Qed.

Lemma nth_map_seq {A} (f : nat -> A) (n j : nat) (d : A) :
  (j < n)%nat -> nth j (map f (seq 0 n)) d = f j.
Proof.
  intros Hj. rewrite (nth_indep _ d (f 0%nat)) by (rewrite length_map, length_seq; lia).
  rewrite map_nth, seq_nth by lia. reflexivity.
Qed.

Lemma mapM_ok {A B} (f : A -> result B) (g : A -> B) (l : list A) :
  (forall x, In x l -> f x = Ok (g x)) -> mapM f l = Ok (map g l).
Proof.
  induction l as [|x l IH]; intros H; [reflexivity|].
  cbn [mapM map]. rewrite (H x) by (left; reflexivity). simpl.
  rewrite IH by (intros y Hy; apply H; right; exact Hy). reflexivity.
Qed.

Lemma split_char_unlines c (ls : list str) :
  Forall (fun l => mem_char c l = false) ls ->
  split_char c (concat (map (fun l => l ++ [c]) ls)) = ls ++ [[]].
Proof.
  induction 1 as [|l ls Hl _ IH]; [reflexivity|].
  cbn [map concat]. rewrite <- app_assoc.
  change ([c] ++ concat (map (fun l0 => l0 ++ [c]) ls))
    with (c :: concat (map (fun l0 => l0 ++ [c]) ls)).
  rewrite split_char_first_line by exact Hl. now rewrite IH.
Qed.

Lemma mem_char_join c (sep : str) (ls : list str) :
  mem_char c sep = false ->
  Forall (fun l => mem_char c l = false) ls ->
  mem_char c (py_join sep ls) = false.
Proof.
  intros Hsep. induction 1 as [|l ls Hl Hls IH]; [reflexivity|].
  destruct ls as [|l' ls']; [exact Hl|].
  rewrite py_join_cons by discriminate.
  now rewrite !mem_char_app, Hl, Hsep, IH.
Qed.

Lemma mem_char_concat c (ls : list str) :
  Forall (fun l => mem_char c l = false) ls ->
  mem_char c (concat ls) = false.
Proof.
  induction 1 as [|l ls Hl _ IH]; [reflexivity|].
  simpl. now rewrite mem_char_app, Hl, IH.
Qed.

End Lists.

Section Layout.

Variable trailer : str.
Hypothesis trailer_cases : trailer = [] \/ trailer = [TAB].

Lemma raw_cells_seq (r : list str) :
  r <> [] ->
  raw_cells trailer r
  = map (fun j => pad j (nth j r [])) (seq 0 (length r)) ++ [trailer].
Proof.
  destruct r as [|f fs]; [congruence|]. intros _.
  cbn [raw_cells length seq map nth pad]. rewrite <- app_comm_cons. do 2 f_equal.
  rewrite <- seq_shift, map_map. cbn [pad nth].
  rewrite <- (map_seq_nth fs []) at 1. now rewrite map_map.
Qed.

Lemma length_raw_cells (r : list str) : length (raw_cells trailer r) = S (length r).
Proof.
  destruct r as [|f fs]; [reflexivity|].
  cbn [raw_cells length]. rewrite length_app, length_map. simpl. lia.
Qed.

Lemma nth_raw_cells (r : list str) (j : nat) :
  (j < length r)%nat -> nth j (raw_cells trailer r) [] = pad j (nth j r []).
Proof.
  intros Hj. rewrite raw_cells_seq by (destruct r; simpl in *; [lia|discriminate]).
  rewrite app_nth1 by (rewrite length_map, length_seq; exact Hj).
  now rewrite nth_map_seq.
Qed.

Lemma nth_raw_cells_last (r : list str) :
  nth (length r) (raw_cells trailer r) [] = trailer.
Proof.
  destruct r as [|f fs]; [reflexivity|].
  cbn [raw_cells length nth].
  rewrite app_nth2 by (rewrite length_map; lia).
  rewrite length_map, Nat.sub_diag. reflexivity.
Qed.

(** The padding is made of blanks. *)
Lemma pad_blanks (j : nat) (f : str) :
  exists ws1 ws2, pad j f = ws1 ++ f ++ ws2
    /\ forallb c_isspace ws1 = true /\ forallb c_isspace ws2 = true.
Proof.
  destruct j; [exists [], [TAB]|exists [TAB], [TAB]]; repeat split.
Qed.

Lemma str_to_int64_padded (j : nat) (f : str) :
  str_to_int64 (pad j f) = str_to_int64 f.
Proof.
  destruct (pad_blanks j f) as (w1 & w2 & -> & H1 & H2).
  now apply str_to_int64_pad.
Qed.

Lemma never_numeric_padded (j : nat) (f : str) :
  never_numeric (pad j f) = never_numeric f.
Proof.
  destruct (pad_blanks j f) as (w1 & w2 & -> & H1 & H2).
  now apply never_numeric_pad.
Qed.

Lemma py_strip_padded (j : nat) (f : str) : py_strip (pad j f) = py_strip f.
Proof.
  destruct (pad_blanks j f) as (w1 & w2 & -> & H1 & H2).
  apply py_strip_pad; now apply forallb_c_space_py.
Qed.

Lemma is_na_padded (j : nat) (f : str) : is_na (pad j f) = false.
Proof.
  destruct j; cbn [pad].
  - apply tab_not_na.
  - rewrite app_assoc. apply tab_not_na.
Qed.

Lemma mem_char_padded c (j : nat) (f : str) :
  Ascii.eqb c TAB = false -> mem_char c f = false -> mem_char c (pad j f) = false.
Proof.
  intros Hc Hf. destruct j; cbn [pad]; rewrite !mem_char_app, Hf; simpl;
    now rewrite Hc.
Qed.

Lemma mem_char_trailer c : Ascii.eqb c TAB = false -> mem_char c trailer = false.
Proof.
  intros Hc. destruct trailer_cases as [-> | ->]; simpl; [reflexivity|].
  now rewrite Hc.
Qed.

(** A character that is neither the tab nor the pipe is in a line only
    if it is in a field. *)
Lemma mem_char_raw_cells c (r : list str) :
  r <> [] ->
  Ascii.eqb c TAB = false ->
  Forall (fun f => mem_char c f = false) r ->
  Forall (fun cell => mem_char c cell = false) (raw_cells trailer r).
Proof.
  intros Hr Hc Hall. rewrite raw_cells_seq by exact Hr.
  apply Forall_app. split.
  - apply Forall_map. apply Forall_forall. intros j Hj.
    apply elem_of_seq in Hj. apply mem_char_padded; [exact Hc|].
    rewrite Forall_forall in Hall. apply Hall.
    apply list_elem_of_In, nth_In. lia.
  - constructor; [now apply mem_char_trailer|constructor].
Qed.

Lemma mem_char_dump_line c (r : list str) :
  r <> [] ->
  Ascii.eqb c TAB = false -> Ascii.eqb c "|" = false ->
  Forall (fun f => mem_char c f = false) r ->
  mem_char c (dump_line trailer r) = false.
Proof.
  intros Hr Ht Hp Hall. unfold dump_line. apply mem_char_join.
  - simpl. now rewrite Hp.
  - now apply mem_char_raw_cells.
Qed.

Lemma dump_line_has_pipe (r : list str) :
  r <> [] -> mem_char "|" (dump_line trailer r) = true.
Proof.
  destruct r as [|f fs]; [congruence|]. intros _.
  unfold dump_line. cbn [raw_cells].
  rewrite py_join_cons by (destruct fs; discriminate).
  rewrite !mem_char_app. simpl. apply orb_true_r.
Qed.

Lemma blank_line_no_pipe (l : str) : blank_line l = true -> mem_char "|" l = false.
Proof.
  unfold blank_line, mem_char. induction l as [|c l IH]; simpl; [reflexivity|].
  intros H. apply andb_true_iff in H as [Hc Hl]. rewrite (IH Hl), orb_false_r.
  apply orb_true_iff in Hc as [Hc|Hc]; apply Ascii.eqb_eq in Hc; subst c;
    reflexivity.
Qed.

Lemma dump_line_not_blank (r : list str) :
  r <> [] -> blank_line (dump_line trailer r) = false.
Proof.
  intros Hr. destruct (blank_line (dump_line trailer r)) eqn:E; [|reflexivity].
  apply blank_line_no_pipe in E. now rewrite dump_line_has_pipe in E.
Qed.

End Layout.

Section WellFormed.

Lemma wf_dump_elim (table : list (list str)) :
  wf_dump table = true -> well_formed table.
Proof.
  unfold well_formed, wf_dump, width. destruct table as [|r0 table]; [discriminate|].
  cbn [hd]. set (t := r0 :: table). intros H.
  apply andb_true_iff in H as [H Hb].
  apply andb_true_iff in H as [H Hx]. apply andb_true_iff in H as [H Ht].
  apply andb_true_iff in H as [H Hq]. apply andb_true_iff in H as [H Hc].
  apply andb_true_iff in H as [Hn Hl].
  rewrite forallb_forall in Hl, Hc, Hq, Ht.
  split; [discriminate|]. split; [now apply Nat.ltb_lt|].
  split; [|split; [|split; [|split; [|split]]]].
  - apply Forall_forall. intros r Hr. apply list_elem_of_In in Hr.
    apply Nat.eqb_eq. now apply Hl.
  - apply Forall_forall. intros r Hr. apply list_elem_of_In in Hr.
    specialize (Hc r Hr). rewrite forallb_forall in Hc.
    apply Forall_forall. intros f Hf. apply list_elem_of_In in Hf.
    now apply Hc.
  - apply Forall_forall. intros r Hr. apply list_elem_of_In in Hr.
    apply negb_true_iff. now apply Hq.
  - intros j Hj. apply orb_true_iff. apply Ht. apply in_seq. lia.
  - apply existsb_exists in Hx as (j & Hj & Hx).
    exists j. apply in_seq in Hj. split; [lia|assumption].
  - now apply N.leb_le.
Qed.

End WellFormed.

Section Parse.

Variable trailer : str.
Hypothesis trailer_cases : trailer = [] \/ trailer = [TAB].
Variable table : list (list str).
Hypothesis Hwf : well_formed table.

Let n : nat := width table.

Lemma wf_rows (r : list str) : In r table -> length r = n /\ r <> [].
Proof.
  destruct Hwf as (_ & Hn & Hlen & _). intros Hr.
  rewrite Forall_forall in Hlen. apply list_elem_of_In in Hr.
  specialize (Hlen r Hr). split; [exact Hlen|].
  intros ->. simpl in Hlen. fold n in Hn. unfold n in *. lia.
Qed.

Lemma wf_clean (r : list str) (c : ascii) :
  In r table ->
  (c = "|"%char \/ c = LF \/ c = CR \/ c = NUL) ->
  Forall (fun f => mem_char c f = false) r.
Proof.
  destruct Hwf as (_ & _ & _ & Hclean & _). intros Hr Hc.
  rewrite Forall_forall in Hclean. apply list_elem_of_In in Hr.
  specialize (Hclean r Hr). eapply Forall_impl; [exact Hclean|].
  intros f Hf. unfold clean_field in Hf.
  apply andb_true_iff in Hf as [Hf H4].
  apply andb_true_iff in Hf as [Hf H3]. apply andb_true_iff in Hf as [H1 H2].
  apply negb_true_iff in H1, H2, H3, H4.
  destruct Hc as [-> | [-> | [-> | ->]]]; assumption.
Qed.

Lemma dump_lines_no (c : ascii) :
  (c = LF \/ c = CR \/ c = NUL) ->
  Forall (fun l => mem_char c l = false) (map (dump_line trailer) table).
Proof.
  intros Hc. apply Forall_map. apply Forall_forall. intros r Hr.
  apply list_elem_of_In in Hr. destruct (wf_rows r Hr) as [_ Hne].
  apply mem_char_dump_line; [exact trailer_cases|exact Hne| | |].
  - destruct Hc as [-> | [-> | ->]]; reflexivity.
  - destruct Hc as [-> | [-> | ->]]; reflexivity.
  - apply wf_clean; [exact Hr|tauto].
Qed.

Lemma dump_text_no (c : ascii) :
  (c = CR \/ c = NUL) -> mem_char c (dump_text trailer table) = false.
Proof.
  intros Hc. unfold dump_text. apply mem_char_concat. apply Forall_map.
  assert (H : Forall (fun l => mem_char c l = false) (map (dump_line trailer) table))
    by (apply dump_lines_no; tauto).
  rewrite Forall_map in H. eapply Forall_impl; [exact H|].
  intros r Hr. simpl in Hr. rewrite mem_char_app, Hr.
  destruct Hc as [-> | ->]; reflexivity.
Qed.

(** The dump is converted in one piece. *)
Lemma raw_one_chunk :
  (buffer_lines (S n) <? N.of_nat (length (map (raw_cells trailer) table)))%N = false.
Proof.
  destruct Hwf as (_ & _ & _ & _ & _ & _ & _ & Hb).
  rewrite length_map. apply N.ltb_ge. exact Hb.
Qed.

(** The records pandas sees are the lines of the dump. *)
Lemma records_of_dump :
  List.filter (fun l => negb (blank_line l)) (split_char LF (dump_text trailer table))
  = map (dump_line trailer) table.
Proof.
  unfold dump_text.
  rewrite <- (map_map (dump_line trailer) (fun l => l ++ [LF])).
  rewrite split_char_unlines by (apply dump_lines_no; now left).
  rewrite List.filter_app. simpl. rewrite app_nil_r.
  apply forallb_filter_id. apply forallb_forall. intros l Hl.
  apply in_map_iff in Hl as (r & <- & Hr).
  destruct (wf_rows r Hr) as [_ Hne].
  now rewrite dump_line_not_blank.
Qed.

(** The tokens of a record are the padded fields and the trailer. *)
Lemma raw_of_dump :
  map (split_char "|") (map (dump_line trailer) table)
  = map (raw_cells trailer) table.
Proof.
  rewrite map_map. apply map_ext_in. intros r Hr.
  destruct (wf_rows r Hr) as [_ Hne]. unfold dump_line.
  apply split_char_join.
  - destruct r; [congruence|discriminate].
  - apply mem_char_raw_cells; [exact trailer_cases|exact Hne|reflexivity|].
    apply wf_clean; [exact Hr|tauto].
Qed.

Lemma raw_column (j : nat) :
  (j < n)%nat ->
  map (fun r => nth j r []) (map (raw_cells trailer) table)
  = map (pad j) (column j table).
Proof.
  intros Hj. unfold column. rewrite !map_map. apply map_ext_in. intros r Hr.
  destruct (wf_rows r Hr) as [Hlen _].
  apply nth_raw_cells. lia.
Qed.

Lemma raw_column_last :
  map (fun r => nth n r []) (map (raw_cells trailer) table)
  = map (fun _ => trailer) table.
Proof.
  rewrite map_map. apply map_ext_in. intros r Hr.
  destruct (wf_rows r Hr) as [<- _]. apply nth_raw_cells_last.
Qed.

Lemma column_nonempty (j : nat) : column j table <> [].
Proof.
  destruct Hwf as (Hne & _). unfold column. destruct table; [congruence|discriminate].
Qed.

Lemma forallb_map {A B} (f : B -> bool) (g : A -> B) (l : list A) :
  forallb f (map g l) = forallb (fun x => f (g x)) l.
Proof. induction l as [|x l IH]; simpl; [reflexivity|]. now rewrite IH. Qed.

Lemma existsb_map {A B} (f : B -> bool) (g : A -> B) (l : list A) :
  existsb f (map g l) = existsb (fun x => f (g x)) l.
Proof. induction l as [|x l IH]; simpl; [reflexivity|]. now rewrite IH. Qed.

Lemma forallb_eq {A} (f g : A -> bool) (l : list A) :
  (forall x, f x = g x) -> forallb f l = forallb g l.
Proof. intros H. induction l as [|x l IH]; simpl; [reflexivity|]. now rewrite H, IH. Qed.

Lemma existsb_eq {A} (f g : A -> bool) (l : list A) :
  (forall x, f x = g x) -> existsb f l = existsb g l.
Proof. intros H. induction l as [|x l IH]; simpl; [reflexivity|]. now rewrite H, IH. Qed.

Lemma forallb_never {A} (l : list A) : l <> [] -> forallb (fun _ => false) l = false.
Proof. destruct l; [congruence|reflexivity]. Qed.

(** The three tests of [infer_kind] on a column of padded fields. *)
Lemma padded_all_na (j : nat) (col : list str) :
  col <> [] -> forallb is_na (map (pad j) col) = false.
Proof.
  intros Hne. rewrite forallb_map.
  rewrite (forallb_eq _ (fun _ => false)) by (intros f; apply is_na_padded).
  now apply forallb_never.
Qed.

Lemma padded_all_int (j : nat) (col : list str) :
  forallb (fun s => negb (is_na s) && bool_decide (is_Some (str_to_int64 s)))
          (map (pad j) col)
  = forallb int_field col.
Proof.
  rewrite forallb_map. apply forallb_eq. intros f.
  now rewrite is_na_padded, str_to_int64_padded.
Qed.

Lemma padded_some_text (j : nat) (col : list str) :
  existsb (fun s => negb (is_na s) && never_numeric s) (map (pad j) col)
  = existsb never_numeric col.
Proof.
  rewrite existsb_map. apply existsb_eq. intros f.
  now rewrite is_na_padded, never_numeric_padded.
Qed.

(** The kind inferred for a column of padded fields. *)
Lemma infer_kind_fields (j : nat) :
  (j < n)%nat ->
  infer_kind (map (pad j) (column j table)) = Ok (field_kind (column j table)).
Proof.
  intros Hj. destruct Hwf as (_ & _ & _ & _ & _ & Htyp & _).
  unfold infer_kind, field_kind.
  rewrite padded_all_na by apply column_nonempty.
  rewrite padded_all_int, padded_some_text.
  destruct (forallb int_field (column j table)) eqn:E; [reflexivity|].
  destruct (Htyp j Hj) as [H|H]; [congruence|]. now rewrite H.
Qed.

(** The kind inferred for the column after the last pipe. *)
Lemma infer_kind_trailer :
  infer_kind (map (fun _ => trailer) table) = Ok (trail_kind trailer).
Proof.
  destruct Hwf as (Hne & _).
  destruct table as [|r0 rest]; [congruence|]. clear Hne.
  destruct trailer_cases as [-> | ->].
  - unfold infer_kind, trail_kind.
    assert (H : forallb is_na (map (fun _ : list str => []) (r0 :: rest)) = true).
    { apply forallb_forall. intros x Hx. apply in_map_iff in Hx as (? & <- & _).
      reflexivity. }
    now rewrite H.
  - unfold infer_kind, trail_kind. cbn [map forallb existsb].
    change (is_na [TAB]) with false.
    change (str_to_int64 [TAB]) with (@None Z).
    change (never_numeric [TAB]) with true. cbn [negb andb orb].
    rewrite bool_decide_eq_false_2 by (intros [z Hz]; discriminate Hz).
    reflexivity.
Qed.

Lemma convert_row_app (ks1 ks2 : list col_kind) (r1 r2 : list str) :
  length ks1 = length r1 ->
  convert_row (ks1 ++ ks2) (r1 ++ r2) = convert_row ks1 r1 ++ convert_row ks2 r2.
Proof.
  revert r1. induction ks1 as [|k ks1 IH]; intros [|s r1] Hlen;
    try discriminate Hlen; [reflexivity|].
  simpl. f_equal. apply IH. now injection Hlen.
Qed.

Lemma convert_row_map {A} (kf : A -> col_kind) (pf : A -> str) (l : list A) :
  convert_row (map kf l) (map pf l) = map (fun j => convert (kf j) (pf j)) l.
Proof. induction l as [|x l IH]; simpl; [reflexivity|]. now rewrite IH. Qed.

(** What [read_csv] makes of one record. *)
Lemma convert_dump_row (r : list str) :
  In r table ->
  convert_row (map (fun j => field_kind (column j table)) (seq 0 n)
               ++ [trail_kind trailer])
              (raw_cells trailer r)
  = map (fun j => convert (field_kind (column j table)) (pad j (nth j r [])))
        (seq 0 n)
    ++ [convert (trail_kind trailer) trailer].
Proof.
  intros Hr. destruct (wf_rows r Hr) as [Hlen Hne].
  rewrite raw_cells_seq by exact Hne. rewrite Hlen.
  rewrite convert_row_app by now rewrite !length_map.
  now rewrite convert_row_map.
Qed.

Lemma match_first {A B} (l : list A) (d : A) (e : B) (f : A -> B) :
  l <> [] -> match l with [] => e | x :: _ => f x end = f (hd d l).
Proof. destruct l; [congruence|reflexivity]. Qed.

Lemma hd_map {A B} (g : A -> B) (l : list A) (d : A) (d' : B) :
  l <> [] -> hd d' (map g l) = g (hd d l).
Proof. destruct l; [congruence|reflexivity]. Qed.

Lemma raw_width :
  length (hd [] (map (raw_cells trailer) table)) = S n.
Proof.
  destruct Hwf as (Hne & _).
  rewrite (hd_map _ _ []) by exact Hne. apply length_raw_cells.
Qed.

Lemma raw_not_longer :
  existsb (fun r => (S n <? length r)%nat) (map (raw_cells trailer) table) = false.
Proof.
  rewrite existsb_map. destruct (existsb _ table) eqn:E; [|reflexivity].
  apply existsb_exists in E as (r & Hr & E).
  destruct (wf_rows r Hr) as [Hlen _].
  rewrite length_raw_cells, Hlen in E. apply Nat.ltb_lt in E. lia.
Qed.

Lemma startswith_quote (s : str) :
  py_startswith [QUOTE] s = true -> exists r, s = QUOTE :: r.
Proof.
  destruct s as [|c r]; simpl; [discriminate|].
  rewrite andb_true_r. intros H. apply Ascii.eqb_eq in H. subst c. eauto.
Qed.

Lemma raw_not_quoted :
  existsb (existsb (py_startswith [QUOTE])) (map (raw_cells trailer) table) = false.
Proof.
  destruct Hwf as (_ & _ & _ & _ & Hquote & _).
  rewrite existsb_map. destruct (existsb _ table) eqn:E; [|reflexivity].
  exfalso. apply existsb_exists in E as (r & Hr & E).
  apply existsb_exists in E as (cell & Hcell & E).
  apply startswith_quote in E as (rest & ->).
  rewrite Forall_forall in Hquote. pose proof Hr as Hr'.
  apply list_elem_of_In in Hr'. specialize (Hquote r Hr').
  destruct r as [|f fs].
  - simpl in Hcell. destruct Hcell as [Ht|[]].
    destruct trailer_cases as [E | E]; rewrite E in Ht; discriminate Ht.
  - cbn [raw_cells hd] in *. destruct Hcell as [Hc|Hc].
    + destruct f as [|c f]; [discriminate Hc|].
      injection Hc as -> _. unfold mem_char in Hquote. cbn [existsb] in Hquote.
      rewrite Ascii.eqb_refl in Hquote. discriminate Hquote.
    + apply in_app_or in Hc as [Hc|[Hc|[]]].
      * apply in_map_iff in Hc as (g & Hg & _). discriminate Hg.
      * destruct trailer_cases as [E | E]; rewrite E in Hc; discriminate Hc.
Qed.

Lemma kinds_of_dump :
  mapM (fun j => infer_kind (map (fun r => nth j r []) (map (raw_cells trailer) table)))
       (seq 0 (S n))
  = Ok (map (fun j => field_kind (column j table)) (seq 0 n)
        ++ [trail_kind trailer]).
Proof.
  rewrite seq_S. cbn [Nat.add].
  rewrite (mapM_ok _ (fun j => if (j <? n)%nat then field_kind (column j table)
                               else trail_kind trailer)).
  - rewrite map_app. cbn [map]. rewrite Nat.ltb_irrefl. f_equal. f_equal.
    apply map_ext_in. intros j Hj. apply in_seq in Hj.
    destruct (Nat.ltb_spec j n); [reflexivity|lia].
  - intros j Hj. apply in_app_or in Hj as [Hj|[<-|[]]].
    + apply in_seq in Hj. destruct (Nat.ltb_spec j n); [|lia].
      rewrite raw_column by lia. now apply infer_kind_fields.
    + rewrite Nat.ltb_irrefl, raw_column_last. apply infer_kind_trailer.
Qed.

(** [read_csv] on the text of a dump. *)
Lemma read_csv_dump :
  read_csv (dump_text trailer table)
  = Ok (mkDF (S n)
          (map (fun r =>
                  map (fun j => convert (field_kind (column j table))
                                        (pad j (nth j r [])))
                      (seq 0 n)
                  ++ [convert (trail_kind trailer) trailer])
               table)).
Proof.
  unfold read_csv.
  rewrite (dump_text_no CR), (dump_text_no NUL) by tauto. cbn [orb].
  rewrite records_of_dump, raw_of_dump.
  destruct Hwf as (Hne & _).
  rewrite (match_first _ []) by (intros H; apply map_eq_nil in H; congruence).
  cbv zeta. rewrite raw_width, raw_not_longer, raw_not_quoted, raw_one_chunk.
  rewrite kinds_of_dump.
  cbn [bind]. do 2 f_equal. rewrite map_map. apply map_ext_in. intros r Hr.
  now apply convert_dump_row.
Qed.

Lemma strip_any_convert (j : nat) (col : list str) (f : str) :
  strip_any (convert (field_kind col) (pad j f))
  = typed_field (forallb int_field col) f.
Proof.
  unfold field_kind, typed_field. destruct (forallb int_field col); cbn [convert].
  - rewrite str_to_int64_padded. now destruct (str_to_int64 f).
  - rewrite is_na_padded. cbn [strip_any]. now rewrite py_strip_padded.
Qed.

Lemma strip_any_trailer :
  strip_any (convert (trail_kind trailer) trailer) = trail_cell trailer.
Proof. destruct trailer_cases as [-> | ->]; reflexivity. Qed.

End Parse.

Section StripObjects.

Lemma strip_cell_other (t : dtype) (c : cell) :
  is_CStr c = false -> strip_cell t c = c.
Proof. destruct t, c; simpl; congruence. Qed.

Lemma strip_row_offset (dt : nat -> dtype) (r : list cell) :
  forall k : nat,
    (forall i s, nth i r CNaN = CStr s -> dt (k + i)%nat = Object) ->
    strip_row (map dt (seq k (length r))) r = map strip_any r.
Proof.
  induction r as [|c r IH]; intros k H; [reflexivity|].
  cbn [length seq map strip_row]. f_equal.
  - destruct c as [z|s|]; try (now apply strip_cell_other).
    specialize (H 0%nat s eq_refl). rewrite Nat.add_0_r in H. now rewrite H.
  - apply IH. intros i s Hi. specialize (H (S i) s Hi).
    now rewrite Nat.add_succ_r in H.
Qed.

(** On a frame whose rows have the width of the frame, stripping the
    object columns strips every string. *)
Lemma strip_objects_rows (df : DataFrame) :
  Forall (fun r => length r = ncols df) (rows df) ->
  rows (df_strip_objects df) = map (map strip_any) (rows df).
Proof.
  intros Hlen. unfold df_strip_objects. cbn [rows].
  apply map_ext_in. intros r Hr.
  rewrite Forall_forall in Hlen. pose proof Hr as Hr'.
  apply list_elem_of_In in Hr'. specialize (Hlen r Hr').
  unfold df_dtypes. rewrite <- Hlen. apply strip_row_offset.
  intros i s Hi. cbn [Nat.add]. unfold col_dtype.
  assert (Hex : existsb is_CStr (map (fun r0 => nth i r0 CNaN) (rows df)) = true).
  { apply existsb_exists. exists (CStr s). split; [|reflexivity].
    apply in_map_iff. exists r. split; assumption. }
  now rewrite Hex.
Qed.

End StripObjects.

Section ParseDump.

Variable trailer : str.
Hypothesis trailer_cases : trailer = [] \/ trailer = [TAB].
Variable table : list (list str).
Hypothesis Hwf : well_formed table.

(** What [readDmp] makes of the text of a dump. *)
Lemma parse_dump :
  (dmp_df <- read_csv (dump_text trailer table) ;; Ok (df_strip_objects dmp_df))
  = Ok (dump_frame table (trail_cell trailer)).
Proof.
  rewrite (read_csv_dump trailer trailer_cases table Hwf). cbn [bind].
  f_equal. unfold dump_frame.
  match goal with
  | |- df_strip_objects ?df = _ =>
      assert (Hrows : rows (df_strip_objects df) = map (map strip_any) (rows df))
  end.
  { apply strip_objects_rows. cbn [rows ncols].
    apply Forall_map. apply Forall_forall. intros r _.
    rewrite length_app, length_map, length_seq. simpl. lia. }
  unfold df_strip_objects in *. cbn [rows ncols] in *. f_equal.
  rewrite Hrows, map_map. apply map_ext. intros r.
  rewrite map_app, map_map. cbn [map]. unfold typed_row. f_equal.
  - apply map_ext. intros j. apply strip_any_convert.
  - f_equal. now apply strip_any_trailer.
Qed.

End ParseDump.

Section Rewritten.

Variable table : list (list str).
Hypothesis Hwf : well_formed table.

Let n : nat := width table.

Lemma length_typed_row (r : list str) : length (typed_row table r) = n.
Proof. unfold typed_row. now rewrite length_map, length_seq. Qed.

Lemma width_rewritten : width (rewritten table) = n.
Proof.
  destruct Hwf as (Hne & _). unfold width, rewritten.
  rewrite (hd_map _ _ []) by exact Hne.
  rewrite length_map. apply length_typed_row.
Qed.

Lemma nth_rewritten_row (r : list str) (j : nat) :
  (j < n)%nat ->
  nth j (map py_str (typed_row table r)) []
  = py_str (typed_field (forallb int_field (column j table)) (nth j r [])).
Proof.
  intros Hj. unfold typed_row. rewrite map_map.
  now rewrite nth_map_seq.
Qed.

Lemma column_rewritten (j : nat) :
  (j < n)%nat ->
  column j (rewritten table)
  = map (fun f => py_str (typed_field (forallb int_field (column j table)) f))
        (column j table).
Proof.
  intros Hj. unfold column, rewritten. rewrite !map_map.
  apply map_ext. intros r. now apply nth_rewritten_row.
Qed.

(** A field of an integer column is read back from what is written for
    it. *)
Lemma int_field_rewritten (f : str) :
  int_field f = true ->
  int_field (py_str (typed_field true f)) = true
  /\ typed_field true (py_str (typed_field true f)) = typed_field true f.
Proof.
  unfold int_field, typed_field. intros H. apply bool_decide_eq_true in H as [z Hz].
  rewrite Hz. cbn [py_str].
  rewrite (str_to_int64_Z_to_str z (str_to_int64_range _ _ Hz)).
  split; [|reflexivity]. apply bool_decide_eq_true. eauto.
Qed.

Lemma text_field_rewritten (f : str) :
  typed_field false (py_str (typed_field false f)) = typed_field false f.
Proof. unfold typed_field. cbn [py_str]. now rewrite py_strip_idem. Qed.

(** An integer column is written as an integer column. *)
Lemma int_column_rewritten (j : nat) :
  (j < n)%nat ->
  forallb int_field (column j table) = true ->
  forallb int_field (column j (rewritten table)) = true.
Proof.
  intros Hj Hint. rewrite (column_rewritten j Hj), Hint, forallb_map.
  rewrite forallb_forall in Hint. apply forallb_forall. intros f Hf.
  now apply int_field_rewritten, Hint.
Qed.

(** A column with a plainly textual field is written as one. *)
Lemma text_column_rewritten (j : nat) :
  (j < n)%nat ->
  existsb never_numeric (column j table) = true ->
  forallb int_field (column j table) = false
  /\ forallb int_field (column j (rewritten table)) = false
  /\ existsb never_numeric (column j (rewritten table)) = true.
Proof.
  intros Hj Htext. apply existsb_exists in Htext as (f & Hf & Hnn).
  assert (Hcol : forallb int_field (column j table) = false).
  { destruct (forallb int_field (column j table)) eqn:E; [|reflexivity].
    rewrite forallb_forall in E. specialize (E f Hf).
    rewrite (never_numeric_not_int_field _ Hnn) in E. discriminate E. }
  rewrite (column_rewritten j Hj), Hcol.
  assert (Hin : In (py_strip f)
                   (map (fun f0 => py_str (typed_field false f0)) (column j table))).
  { apply in_map_iff. exists f. split; [reflexivity|exact Hf]. }
  pose proof (never_numeric_strip _ Hnn) as Hs.
  split; [reflexivity|split].
  - destruct (forallb int_field
                (map (fun f0 => py_str (typed_field false f0)) (column j table)))
      eqn:E; [|reflexivity].
    rewrite forallb_forall in E. specialize (E _ Hin).
    rewrite (never_numeric_not_int_field _ Hs) in E. discriminate E.
  - apply existsb_exists. eauto.
Qed.

Lemma kind_rewritten (j : nat) :
  (j < n)%nat ->
  forallb int_field (column j (rewritten table))
  = forallb int_field (column j table).
Proof.
  intros Hj. destruct Hwf as (_ & _ & _ & _ & _ & Htyp & _).
  destruct (Htyp j Hj) as [H|H].
  - now rewrite H, int_column_rewritten.
  - destruct (text_column_rewritten j Hj H) as (-> & -> & _). reflexivity.
Qed.

(** Parsing what is written for a row gives the row again. *)
Lemma typed_row_rewritten (r : list str) :
  In r table ->
  typed_row (rewritten table) (map py_str (typed_row table r)) = typed_row table r.
Proof.
  intros Hr. unfold typed_row at 1 3. rewrite width_rewritten. fold n.
  apply map_ext_in. intros j Hj. apply in_seq in Hj.
  rewrite nth_rewritten_row, kind_rewritten by lia.
  destruct (forallb int_field (column j table)) eqn:E.
  - apply int_field_rewritten. rewrite forallb_forall in E. apply E.
    unfold column. apply in_map_iff. eauto.
  - apply text_field_rewritten.
Qed.

Lemma typed_table_rewritten :
  map (fun r => typed_row (rewritten table) r) (rewritten table)
  = map (typed_row table) table.
Proof.
  unfold rewritten at 2. rewrite map_map. apply map_ext_in. intros r Hr.
  now apply typed_row_rewritten.
Qed.

Lemma mem_char_typed (c : ascii) (b : bool) (f : str) :
  digit_cons c = None -> Ascii.eqb c "-" = false -> mem_char c "nan" = false ->
  mem_char c f = false ->
  mem_char c (py_str (typed_field b f)) = false.
Proof.
  intros Hd Hm Hn Hf. unfold typed_field. destruct b.
  - destruct (str_to_int64 f); cbn [py_str]; [|exact Hn].
    now apply mem_char_Z_to_str.
  - cbn [py_str]. now apply mem_char_strip.
Qed.

Lemma clean_typed (b : bool) (f : str) :
  clean_field f = true -> clean_field (py_str (typed_field b f)) = true.
Proof.
  unfold clean_field. intros H.
  apply andb_true_iff in H as [H H4].
  apply andb_true_iff in H as [H H3]. apply andb_true_iff in H as [H1 H2].
  apply negb_true_iff in H1, H2, H3, H4.
  rewrite !mem_char_typed by (assumption || reflexivity). reflexivity.
Qed.

(** What [writeDmp] writes for a well-formed dump is well formed. *)
Lemma well_formed_rewritten : well_formed (rewritten table).
Proof.
  pose proof Hwf as (Hne & Hn & Hlen & Hclean & Hquote & Htyp & Htext & Hb).
  unfold well_formed. rewrite width_rewritten. fold n in Hn, Hlen, Htyp, Htext, Hb.
  split; [|split; [|split; [|split; [|split; [|split; [|split]]]]]].
  - unfold rewritten. intros H. apply map_eq_nil in H. congruence.
  - exact Hn.
  - unfold rewritten. apply Forall_map. apply Forall_forall. intros r _.
    rewrite length_map. apply length_typed_row.
  - unfold rewritten. apply Forall_map.
    rewrite Forall_forall in Hclean, Hlen. apply Forall_forall. intros r Hr.
    specialize (Hclean r Hr). specialize (Hlen r Hr).
    unfold typed_row. rewrite map_map. apply Forall_map.
    apply Forall_forall. intros j Hj. apply elem_of_seq in Hj.
    apply clean_typed. rewrite Forall_forall in Hclean. apply Hclean.
    apply list_elem_of_In, nth_In. fold n in Hj. lia.
  - unfold rewritten. apply Forall_map.
    rewrite Forall_forall in Hquote, Hlen. apply Forall_forall. intros r Hr.
    specialize (Hquote r Hr). specialize (Hlen r Hr).
    assert (Hhd : hd [] (map py_str (typed_row table r))
                  = nth 0 (map py_str (typed_row table r)) [])
      by (now destruct (map py_str (typed_row table r))).
    rewrite Hhd, nth_rewritten_row by exact Hn.
    apply mem_char_typed; try reflexivity.
    destruct r; [reflexivity|exact Hquote].
  - intros j Hj. destruct (Htyp j Hj) as [H|H].
    + left. now apply int_column_rewritten.
    + right. now apply text_column_rewritten.
  - destruct Htext as (j & Hj & H). exists j. split; [exact Hj|].
    now apply text_column_rewritten.
  - unfold rewritten. rewrite length_map. exact Hb.
Qed.

End Rewritten.

Section Serialize.

Lemma hd_In {A} (l : list A) (d : A) : l <> [] -> In (hd d l) l.
Proof. destruct l; [congruence|]. intros _. now left. Qed.

Lemma join_padded (gs : list str) :
  gs <> [] ->
  [TAB] ++ py_join ([TAB] ++ "|" ++ [TAB]) (gs ++ [[]])
  = py_join "|" (map (fun g => [TAB] ++ g ++ [TAB]) gs ++ [[TAB]]).
Proof.
  induction gs as [|g gs IH]; [congruence|]. intros _.
  destruct gs as [|g' gs'].
  - simpl. rewrite ?app_nil_r, <- ?app_assoc. reflexivity.
  - change ((g :: g' :: gs') ++ [[]]) with (g :: ((g' :: gs') ++ [[]])).
    rewrite py_join_cons by discriminate.
    change (map (fun g0 => [TAB] ++ g0 ++ [TAB]) (g :: g' :: gs') ++ [[TAB]])
      with (([TAB] ++ g ++ [TAB])
            :: (map (fun g0 => [TAB] ++ g0 ++ [TAB]) (g' :: gs') ++ [[TAB]])).
    rewrite py_join_cons by discriminate.
    rewrite <- IH by discriminate.
    simpl. rewrite <- ?app_assoc. reflexivity.
Qed.

(** A line of [writeDmp] is a line of the dump layout with a tab after
    its last pipe. *)
Lemma join_fields (fields : list str) :
  fields <> [] ->
  py_join ([TAB] ++ "|" ++ [TAB]) (fields ++ [[]]) = dump_line [TAB] fields.
Proof.
  destruct fields as [|f gs]; [congruence|]. intros _.
  unfold dump_line. cbn [raw_cells].
  destruct gs as [|g gs'].
  - simpl. rewrite ?app_nil_r, <- ?app_assoc. reflexivity.
  - change ((f :: g :: gs') ++ [[]]) with (f :: ((g :: gs') ++ [[]])).
    rewrite !py_join_cons by discriminate.
    rewrite <- join_padded by discriminate.
    simpl. rewrite <- ?app_assoc. reflexivity.
Qed.

Lemma dmp_line_row (cells : list cell) (last : cell) :
  cells <> [] ->
  dmp_line (cells ++ [last]) = dump_line [TAB] (map py_str cells).
Proof.
  intros Hne. unfold dmp_line. rewrite map_app. cbn [map].
  rewrite removelast_last. apply join_fields.
  intros H. apply map_eq_nil in H. congruence.
Qed.

(** The prints of a [with open] block append the lines to the file. *)
Lemma run_prints (q : str) (lines : list str) :
  forall (fs : fsys) (t : str),
    fs !! q = Some (Plain t) ->
    run fs (map (fun l => Ok (Print q l)) lines)
    = (<[q := Plain (t ++ concat (map (fun l => l ++ [LF]) lines))]> fs, None).
Proof.
  induction lines as [|l lines IH]; intros fs t Hq.
  - simpl. rewrite app_nil_r. now rewrite insert_id.
  - cbn [map run exec_op]. rewrite Hq.
    rewrite (IH _ (t ++ l ++ [LF])) by apply lookup_insert_eq.
    rewrite insert_insert_eq. cbn [concat]. now rewrite <- !app_assoc.
Qed.

(** One [with open] block of [writeDmp] leaves the file with one line
    per row. *)
Lemma run_write_table (fs : fsys) (q : str) (df : DataFrame) (rs : list (list cell)) :
  df_iterrows df = Ok rs ->
  run fs (write_table q df)
  = (<[q := Plain (concat (map (fun row => dmp_line row ++ [LF]) rs))]> fs, None).
Proof.
  intros Hit. unfold write_table. rewrite Hit. cbn [run exec_op].
  rewrite <- (map_map dmp_line (fun l => Ok (Print q l))).
  rewrite (run_prints q _ _ []) by apply lookup_insert_eq.
  rewrite insert_insert_eq. cbn [app]. now rewrite map_map.
Qed.

(** [readDmp] on a plain file. *)
Lemma readDmp_plain (fs : fsys) (p text : str) :
  plain_path p ->
  fs !! p = Some (Plain text) ->
  readDmp fs p = (dmp_df <- read_csv text ;; Ok (df_strip_objects dmp_df)).
Proof.
  intros [H1 H2] Hp. unfold readDmp, pd_read_csv, open_read.
  now rewrite H1, H2, Hp.
Qed.

End Serialize.

Section RoundTrip.

Variable table : list (list str).
Hypothesis Hwf : well_formed table.

Lemma nth_dump_frame_row (r : list str) (last : cell) (j : nat) :
  (j < width table)%nat ->
  nth j (typed_row table r ++ [last]) CNaN
  = typed_field (forallb int_field (column j table)) (nth j r []).
Proof.
  intros Hj. rewrite app_nth1 by (rewrite length_typed_row; exact Hj).
  unfold typed_row. now rewrite nth_map_seq.
Qed.

(** A frame read from a well-formed dump has an object column, so its
    rows iterate as they are. *)
Lemma iterrows_dump_frame (last : cell) :
  df_iterrows (dump_frame table last) = Ok (rows (dump_frame table last)).
Proof.
  destruct Hwf as (Hne & _ & _ & _ & _ & _ & (j & Hj & Htext) & _).
  unfold df_iterrows.
  assert (H : existsb (fun t => bool_decide (t = Object))
                      (df_dtypes (dump_frame table last)) = true);
    [|now rewrite H].
  apply existsb_exists. exists Object. split; [|now apply bool_decide_eq_true].
  unfold df_dtypes. apply in_map_iff. exists j. split.
  - destruct (text_column_rewritten table j Hj Htext) as (Hcol & _).
    unfold dump_frame. cbn [rows]. rewrite map_map. unfold col_dtype.
    assert (Hex : existsb is_CStr
              (map (fun r => nth j (typed_row table r ++ [last]) CNaN) table) = true);
      [|now rewrite Hex].
    apply existsb_exists.
    exists (nth j (typed_row table (hd [] table) ++ [last]) CNaN). split.
    + apply in_map_iff. exists (hd [] table). split; [reflexivity|].
      now apply hd_In.
    + rewrite nth_dump_frame_row by exact Hj. now rewrite Hcol.
  - apply in_seq. unfold dump_frame. cbn [ncols]. lia.
Qed.

(** The text [writeDmp] writes for a frame read from a well-formed
    dump. *)
Lemma written_text (last : cell) :
  concat (map (fun row => dmp_line row ++ [LF]) (rows (dump_frame table last)))
  = dump_text [TAB] (rewritten table).
Proof.
  destruct Hwf as (_ & Hn & _).
  unfold dump_frame, dump_text, rewritten. cbn [rows]. rewrite !map_map.
  f_equal. apply map_ext. intros r. f_equal. apply dmp_line_row.
  intros H. apply (f_equal (@length cell)) in H.
  rewrite length_typed_row in H. simpl in H. lia.
Qed.

(** Reading what [writeDmp] wrote: the informative cells are those of
    the first reading and the cell after the last pipe is the empty
    string. *)
Lemma parse_rewritten :
  (dmp_df <- read_csv (dump_text [TAB] (rewritten table)) ;;
   Ok (df_strip_objects dmp_df))
  = Ok (dump_frame table (CStr [])).
Proof.
  rewrite (parse_dump [TAB] (or_intror eq_refl) _ (well_formed_rewritten table Hwf)).
  unfold dump_frame. rewrite (width_rewritten table Hwf). f_equal. f_equal.
  unfold rewritten at 2. rewrite map_map. apply map_ext_in. intros r Hr.
  now rewrite (typed_row_rewritten table Hwf r Hr).
Qed.

(** Writing a frame read from the dump and reading the file again. *)
Lemma write_then_read (fs : fsys) (q : str) (last : cell) :
  plain_path q ->
  exists fs',
    run fs (write_table q (dump_frame table last)) = (fs', None)
    /\ readDmp fs' q = Ok (dump_frame table (CStr [])).
Proof.
  intros Hq. eexists. split.
  - apply run_write_table. apply iterrows_dump_frame.
  - rewrite (readDmp_plain _ q _ Hq (lookup_insert_eq _ _ _)).
    rewrite written_text. apply parse_rewritten.
Qed.

End RoundTrip.

(** The sample dumps are well formed and are the texts of their fields. *)
Example sample_dumps_well_formed :
  wf_dump names_fields_foo = true /\ ncbi_text names_fields_foo = names_dump_foo
  /\ wf_dump nodes_fields_foo = true /\ ncbi_text nodes_fields_foo = nodes_dump_foo
  /\ dump_frame names_fields_foo CNaN = names_foo
  /\ dump_frame nodes_fields_foo CNaN = nodes_foo.
Proof. repeat split; vm_compute; reflexivity. Qed.

(** Ordinary words are plainly text, numbers and the special words are
    not; a dump of such words is well formed. *)
Example text_fields_well_formed :
  map never_numeric ["strain"; "Felis"; "Taxus"; "Infectious"; ""; " x "]
  = [true; true; true; true; true; true]
  /\ map never_numeric ["12"; "-1.5"; ".5"; "inf"; "-Infinity"; "TRUE"; " 7 "]
     = [false; false; false; false; false; false; false]
  /\ wf_dump names_fields_text = true.
Proof. repeat split; vm_compute; reflexivity. Qed.

(** The rows pandas converts at a time for the five columns it reads from
    a names dump and the fourteen it reads from a nodes dump. *)
Example buffer_lines_ncbi :
  buffer_lines 5 = 131072%N /\ buffer_lines 14 = 65536%N.
Proof. split; vm_compute; reflexivity. Qed.

(** C5, as the code has it.  For a well-formed dump text (rows of one
    width in the NCBI layout; fields without pipe, line feed, carriage
    return or NUL; every column made of integers or holding a field that
    is plainly text; no more rows than pandas converts at a time),
    [readDmp] gives
    the typed fields of every row followed by a missing value (NaN) for
    what follows the last pipe; [writeDmp]'s block writes that frame, and
    reading the file written gives the same rows field for field, except
    that the trailing field is now the empty string; from that frame on,
    writing and reading give the frame back exactly. *)
Theorem dump_round_trip (table : list (list str)) (fs : fsys) (p q : str) :
  wf_dump table = true ->
  plain_path p ->
  plain_path q ->
  fs !! p = Some (Plain (ncbi_text table)) ->
  readDmp fs p = Ok (dump_frame table CNaN)
  /\ (exists fs',
        run fs (write_table q (dump_frame table CNaN)) = (fs', None)
        /\ readDmp fs' q = Ok (dump_frame table (CStr [])))
  /\ (forall (fs1 : fsys) (q1 : str),
        plain_path q1 ->
        exists fs2,
          run fs1 (write_table q1 (dump_frame table (CStr []))) = (fs2, None)
          /\ readDmp fs2 q1 = Ok (dump_frame table (CStr []))).
Proof.
  intros Hwf Hp Hq Hfs. apply wf_dump_elim in Hwf.
  split; [|split].
  - rewrite (readDmp_plain _ _ _ Hp Hfs).
    exact (parse_dump [] (or_introl eq_refl) table Hwf).
  - now apply write_then_read.
  - intros fs1 q1 Hq1. now apply write_then_read.
Qed.

Lemma dump_round_trip_witness :
  wf_dump names_fields_foo = true
  /\ plain_path "tax/names.dmp"
  /\ plain_path "out/names.dmp"
  /\ fs_one "tax/names.dmp" names_dump_foo !! "tax/names.dmp"
     = Some (Plain (ncbi_text names_fields_foo))
  /\ readDmp (fs_one "tax/names.dmp" names_dump_foo) "tax/names.dmp"
     = Ok (dump_frame names_fields_foo CNaN)
  /\ (exists fs',
        run (fs_one "tax/names.dmp" names_dump_foo)
            (write_table "out/names.dmp" (dump_frame names_fields_foo CNaN))
        = (fs', None)
        /\ readDmp fs' "out/names.dmp" = Ok (dump_frame names_fields_foo (CStr [])))
  /\ (forall (fs1 : fsys) (q1 : str),
        plain_path q1 ->
        exists fs2,
          run fs1 (write_table q1 (dump_frame names_fields_foo (CStr [])))
          = (fs2, None)
          /\ readDmp fs2 q1 = Ok (dump_frame names_fields_foo (CStr []))).
Proof.
  assert (H1 : wf_dump names_fields_foo = true) by (vm_compute; reflexivity).
  assert (H2 : plain_path "tax/names.dmp") by (split; vm_compute; reflexivity).
  assert (H3 : plain_path "out/names.dmp") by (split; vm_compute; reflexivity).
  assert (H4 : fs_one "tax/names.dmp" names_dump_foo !! "tax/names.dmp"
               = Some (Plain (ncbi_text names_fields_foo)))
    by (unfold fs_one; apply lookup_singleton_eq).
  split; [exact H1 | split; [exact H2 | split; [exact H3 | split; [exact H4 | ]]]].
  exact (dump_round_trip names_fields_foo _ "tax/names.dmp" "out/names.dmp"
           H1 H2 H3 H4).
Defined.

(** C5, as the specification states it, fails: the names dump of "root"
    and "Foo" is read with NaN as its trailing field, and what [writeDmp]
    writes for it is read with the empty string there. *)
Lemma dump_round_trip_counterexample :
  wf_dump names_fields_foo = true
  /\ readDmp (fs_one "tax/names.dmp" (ncbi_text names_fields_foo)) "tax/names.dmp"
     = Ok names_foo
  /\ readDmp (fst (run (fs_one "tax/names.dmp" (ncbi_text names_fields_foo))
                       (write_table "out/names.dmp" names_foo)))
             "out/names.dmp"
     = Ok names_foo_reread
  /\ names_foo_reread <> names_foo.
Proof.
  split; [vm_compute; reflexivity|].
  split; [vm_compute; reflexivity|].
  split; [vm_compute; reflexivity|].
  discriminate.
Qed.

(* ================================================================== *)
(** * Further properties: the files written *)
(* ================================================================== *)

Section Scripts.

Lemma run_app (p1 p2 : script) :
  forall (fs fs1 : fsys),
    run fs p1 = (fs1, None) -> run fs (p1 ++ p2) = run fs1 p2.
Proof.
  induction p1 as [|step p1 IH]; intros fs fs1 H.
  - simpl in H. now injection H as ->.
  - destruct step as [op|e]; [|discriminate H].
    cbn [app run] in *. destruct (exec_op fs op) as [fs'|e]; [|discriminate H].
    now apply IH.
Qed.

Lemma flat_map_map {A B C D} (f : C -> D) (h : A -> B -> C) (g : A -> list B)
    (l : list A) :
  flat_map (fun x => map (fun y => f (h x y)) (g x)) l
  = map f (flat_map (fun x => map (h x) (g x)) l).
Proof.
  induction l as [|x l IH]; [reflexivity|].
  simpl. now rewrite IH, map_app, map_map.
Qed.

Lemma run_writeSeq2taxid (fs : fsys) (d : list (option str * list str)) (outdir : str) :
  run fs (writeSeq2taxid d outdir)
  = (<[outdir ++ "/seqid2taxid.map" := Plain (unlines (map_lines d))]> fs, None).
Proof.
  unfold writeSeq2taxid, map_lines, unlines. cbn [run exec_op].
  rewrite (flat_map_map (fun l => Ok (Print (outdir ++ "/seqid2taxid.map") l))
             (fun entry scaffid => scaffid ++ [TAB] ++ fmt_taxid (fst entry)) snd).
  rewrite (run_prints _ _ _ []) by apply lookup_insert_eq.
  now rewrite insert_insert_eq.
Qed.

Lemma run_writeDmp (fs : fsys) (names_df nodes_df : DataFrame) (outdir : str)
    (rs1 rs2 : list (list cell)) :
  df_iterrows names_df = Ok rs1 ->
  df_iterrows nodes_df = Ok rs2 ->
  run fs (writeDmp names_df nodes_df outdir)
  = (<[outdir ++ "/nodes.dmp" := Plain (dmp_text rs2)]>
       (<[outdir ++ "/names.dmp" := Plain (dmp_text rs1)]> fs), None).
Proof.
  intros H1 H2. unfold writeDmp.
  rewrite (run_app _ _ _ _ (run_write_table fs _ _ _ H1)).
  rewrite (run_write_table _ _ _ _ H2).
  unfold dmp_text, unlines. now rewrite !map_map.
Qed.

Lemma join_terminated (sep : str) (gs : list str) :
  py_join sep (gs ++ [[]]) = concat (map (fun g => g ++ sep) gs).
Proof.
  induction gs as [|g gs IH]; [reflexivity|].
  change ((g :: gs) ++ [[]]) with (g :: (gs ++ [[]])).
  rewrite py_join_cons by (destruct gs; discriminate).
  cbn [map concat]. now rewrite IH, <- app_assoc.
Qed.

Lemma suffix_neq (d s1 s2 : str) : s1 <> s2 -> d ++ s1 <> d ++ s2.
Proof. intros Hne H. now apply app_inv_head in H. Qed.

Lemma run_app_inv (p1 p2 : script) :
  forall (fs fs' : fsys),
    run fs (p1 ++ p2) = (fs', None) ->
    exists fs1, run fs p1 = (fs1, None) /\ run fs1 p2 = (fs', None).
Proof.
  induction p1 as [|step p1 IH]; intros fs fs' H.
  - exists fs. auto.
  - destruct step as [op|e]; [|discriminate H].
    cbn [app run] in *. destruct (exec_op fs op) as [fs1|e]; [|discriminate H].
    now apply IH.
Qed.

(** A table that is written without an exception can be iterated. *)
Lemma write_table_rows (fs fs' : fsys) (q : str) (df : DataFrame) :
  run fs (write_table q df) = (fs', None) ->
  exists rs, df_iterrows df = Ok rs.
Proof.
  unfold write_table. destruct (df_iterrows df) as [rs|e]; [eauto|].
  cbn [run exec_op]. discriminate.
Qed.

(** [writeDmp] completes only for tables that can be iterated, and then
    leaves the lines of their rows. *)
Lemma writeDmp_completes (fs fs' : fsys) (names_df nodes_df : DataFrame) (outdir : str) :
  run fs (writeDmp names_df nodes_df outdir) = (fs', None) ->
  exists rs1 rs2,
    df_iterrows names_df = Ok rs1
    /\ df_iterrows nodes_df = Ok rs2
    /\ fs' = <[outdir ++ "/nodes.dmp" := Plain (dmp_text rs2)]>
               (<[outdir ++ "/names.dmp" := Plain (dmp_text rs1)]> fs).
Proof.
  intros H. pose proof H as H'. unfold writeDmp in H'.
  apply run_app_inv in H' as (fs1 & E1 & E2).
  apply write_table_rows in E1 as [rs1 H1].
  apply write_table_rows in E2 as [rs2 H2].
  rewrite (run_writeDmp _ _ _ _ _ _ H1 H2) in H. injection H as <-.
  now exists rs1, rs2.
Qed.

End Scripts.

(** X1.  Whenever [writeSeq2taxid] completes, the file
    [<outdir>/seqid2taxid.map] holds one line [scaffid<TAB>taxid] per
    scaffold id, grouped by key in the order the keys were first inserted
    and, within a key, in the order the ids were appended, whatever the
    file held before; the file at every other path is as before. *)
Theorem writeSeq2taxid_file (fs fs' : fsys) (d : list (option str * list str))
    (outdir : str) :
  run fs (writeSeq2taxid d outdir) = (fs', None) ->
  fs' !! (outdir ++ "/seqid2taxid.map") = Some (Plain (unlines (map_lines d)))
  /\ forall p, p <> outdir ++ "/seqid2taxid.map" -> fs' !! p = fs !! p.
Proof.
  rewrite run_writeSeq2taxid. intros [= <-].
  split; [apply lookup_insert_eq|].
  intros p Hp. now apply lookup_insert_ne.
Qed.

Lemma writeSeq2taxid_file_witness :
  run ∅ (writeSeq2taxid [(Some "9606", ["seq1"; "seq2"]); (None, ["seq3"])] "tax")
  = (fst (run ∅ (writeSeq2taxid [(Some "9606", ["seq1"; "seq2"]); (None, ["seq3"])]
                                "tax")), None)
  /\ fst (run ∅ (writeSeq2taxid [(Some "9606", ["seq1"; "seq2"]); (None, ["seq3"])]
                                "tax")) !! "tax/seqid2taxid.map"
     = Some (Plain ("seq1" ++ [TAB] ++ "9606" ++ [LF]
                    ++ "seq2" ++ [TAB] ++ "9606" ++ [LF]
                    ++ "seq3" ++ [TAB] ++ "None" ++ [LF])).
Proof.
  assert (H : run ∅ (writeSeq2taxid [(Some "9606", ["seq1"; "seq2"]); (None, ["seq3"])]
                                    "tax")
              = (fst (run ∅ (writeSeq2taxid
                               [(Some "9606", ["seq1"; "seq2"]); (None, ["seq3"])]
                               "tax")), None))
    by (vm_compute; reflexivity).
  split; [exact H|].
  exact (proj1 (writeSeq2taxid_file ∅ _ _ "tax" H)).
Defined.

(** X2.  Whenever [writeDmp] completes, both tables could be iterated and
    [<outdir>/names.dmp] and [<outdir>/nodes.dmp] hold one line per row of
    the names and of the nodes table, in row order, whatever these files
    held before; the file at every other path is as before. *)
Theorem writeDmp_files (fs fs' : fsys) (names_df nodes_df : DataFrame) (outdir : str) :
  run fs (writeDmp names_df nodes_df outdir) = (fs', None) ->
  exists rs1 rs2,
    df_iterrows names_df = Ok rs1
    /\ df_iterrows nodes_df = Ok rs2
    /\ fs' !! (outdir ++ "/names.dmp") = Some (Plain (dmp_text rs1))
    /\ fs' !! (outdir ++ "/nodes.dmp") = Some (Plain (dmp_text rs2))
    /\ forall p, p <> outdir ++ "/names.dmp" -> p <> outdir ++ "/nodes.dmp" ->
                 fs' !! p = fs !! p.
Proof.
  intros H. apply writeDmp_completes in H as (rs1 & rs2 & H1 & H2 & ->).
  exists rs1, rs2. split; [exact H1|]. split; [exact H2|]. split; [|split].
  - rewrite lookup_insert_ne by (apply suffix_neq; discriminate).
    apply lookup_insert_eq.
  - apply lookup_insert_eq.
  - intros p Hp1 Hp2. now rewrite !lookup_insert_ne by congruence.
Qed.

Lemma writeDmp_files_witness :
  run ∅ (writeDmp names_foo nodes_foo "tax")
  = (fst (run ∅ (writeDmp names_foo nodes_foo "tax")), None)
  /\ exists rs1 rs2,
       df_iterrows names_foo = Ok rs1
       /\ df_iterrows nodes_foo = Ok rs2
       /\ fst (run ∅ (writeDmp names_foo nodes_foo "tax")) !! "tax/names.dmp"
          = Some (Plain (dmp_text rs1))
       /\ fst (run ∅ (writeDmp names_foo nodes_foo "tax")) !! "tax/nodes.dmp"
          = Some (Plain (dmp_text rs2))
       /\ forall p, p <> "tax/names.dmp" -> p <> "tax/nodes.dmp" ->
                    fst (run ∅ (writeDmp names_foo nodes_foo "tax")) !! p = (∅ : fsys) !! p.
Proof.
  assert (H : run ∅ (writeDmp names_foo nodes_foo "tax")
              = (fst (run ∅ (writeDmp names_foo nodes_foo "tax")), None))
    by (vm_compute; reflexivity).
  split; [exact H|].
  exact (writeDmp_files ∅ _ names_foo nodes_foo "tax" H).
Defined.

(** X3.  The line [writeDmp] prints for a row is every cell but the last
    one, each followed by tab, pipe, tab: the last cell of a row is never
    written, and a row of one cell gives an empty line. *)
Theorem dmp_line_cells (cells : list cell) (last : cell) :
  dmp_line (cells ++ [last])
  = concat (map (fun c => py_str c ++ [TAB] ++ "|" ++ [TAB]) cells).
Proof.
  unfold dmp_line. rewrite map_app. cbn [map].
  rewrite removelast_last, join_terminated. now rewrite map_map.
Qed.

(* ================================================================== *)
(** * Further properties: paths and the write step *)
(* ================================================================== *)

Section Paths.

(** Joining the pieces of a split gives the string back. *)
Lemma join_split (c : ascii) (s : str) : py_join [c] (split_char c s) = s.
Proof.
  induction s as [|a s IH]; [reflexivity|].
  cbn [split_char]. destruct (Ascii.eqb a c) eqn:E.
  - apply Ascii.eqb_eq in E as ->.
    rewrite py_join_cons by apply split_char_nonempty. now rewrite IH.
  - destruct (split_char c s) as [|p ps] eqn:Es.
    + now apply split_char_nonempty in Es.
    + destruct ps as [|q ps].
      * simpl in *. now rewrite IH.
      * rewrite py_join_cons in * by discriminate. now rewrite <- IH.
Qed.

Lemma split_char_snoc (c : ascii) (a b : str) :
  mem_char c b = false ->
  split_char c (a ++ c :: b) = split_char c a ++ [b].
Proof.
  intros Hb. induction a as [|x a IH].
  - simpl. rewrite Ascii.eqb_refl. now rewrite (split_char_last_line _ _ Hb).
  - cbn [app split_char]. destruct (Ascii.eqb x c).
    + now rewrite IH.
    + rewrite IH. destruct (split_char c a) as [|p ps] eqn:Es.
      * now apply split_char_nonempty in Es.
      * reflexivity.
Qed.

(** A string holds no [c], or splits at its last [c]. *)
Lemma last_occurrence (c : ascii) (s : str) :
  mem_char c s = false
  \/ exists d b, s = d ++ c :: b /\ mem_char c b = false.
Proof.
  induction s as [|a s [IH | (d & b & -> & Hb)]].
  - now left.
  - destruct (Ascii.eqb c a) eqn:E.
    + apply Ascii.eqb_eq in E as <-. right. now exists [], s.
    + left. unfold mem_char in *. simpl. now rewrite E.
  - right. now exists (a :: d), b.
Qed.

Lemma dump_dir_parent (d base : str) :
  mem_char "/" base = false -> dump_dir (d ++ "/" ++ base) = d.
Proof.
  intros Hb. unfold dump_dir.
  change (d ++ "/" ++ base) with (d ++ "/"%char :: base).
  rewrite split_char_snoc by exact Hb.
  rewrite removelast_last. apply join_split.
Qed.

Lemma dump_dir_bare (p : str) : mem_char "/" p = false -> dump_dir p = [].
Proof.
  intros Hp. unfold dump_dir. now rewrite (split_char_last_line _ _ Hp).
Qed.

Lemma basename_child (d base : str) :
  mem_char "/" base = false -> basename (d ++ "/" ++ base) = base.
Proof.
  intros Hb. unfold basename.
  change (d ++ "/" ++ base) with (d ++ "/"%char :: base).
  rewrite split_char_snoc by exact Hb. apply last_last.
Qed.

Lemma basename_bare (p : str) : mem_char "/" p = false -> basename p = p.
Proof.
  intros Hp. unfold basename. now rewrite (split_char_last_line _ _ Hp).
Qed.

(** A path is its basename after nothing or after a prefix that ends in
    a slash. *)
Lemma basename_suffix (p : str) :
  exists pre, p = pre ++ basename p /\ (pre = [] \/ exists q, pre = q ++ "/").
Proof.
  destruct (last_occurrence "/" p) as [Hp | (d & b & -> & Hb)].
  - exists []. rewrite (basename_bare _ Hp). auto.
  - exists (d ++ "/"). split; [|eauto].
    change (d ++ "/"%char :: b) with (d ++ "/" ++ b).
    rewrite (basename_child d b Hb). now rewrite <- app_assoc.
Qed.

End Paths.

(** X4.  The directory the write step writes to is the names path cut at
    its last slash: for [names_path = <d>/<base>] it is [<d>], and for a
    names path without a slash it is the empty string, so that the
    outputs then go to [/names.dmp.old], [/nodes.dmp.old], [/names.dmp],
    [/nodes.dmp] and [/seqid2taxid.map], in the root directory and not in
    the current one. *)
Theorem write_step_directory (names_path nodes_path : str)
    (names_df nodes_df : DataFrame) (sd : list (option str * list str)) :
  (forall d base, names_path = d ++ "/" ++ base -> mem_char "/" base = false ->
     write_step names_path nodes_path names_df nodes_df sd
     = [ Ok (Rename names_path (d ++ "/names.dmp.old"));
         Ok (Rename nodes_path (d ++ "/nodes.dmp.old")) ]
       ++ writeDmp names_df nodes_df d ++ writeSeq2taxid sd d)
  /\ (mem_char "/" names_path = false ->
      write_step names_path nodes_path names_df nodes_df sd
      = [ Ok (Rename names_path "/names.dmp.old");
          Ok (Rename nodes_path "/nodes.dmp.old") ]
        ++ writeDmp names_df nodes_df [] ++ writeSeq2taxid sd []).
Proof.
  split.
  - intros d base -> Hb. unfold write_step.
    fold (dump_dir (d ++ "/" ++ base)). now rewrite (dump_dir_parent d base Hb).
  - intros Hp. unfold write_step. fold (dump_dir names_path).
    now rewrite (dump_dir_bare _ Hp).
Qed.

Lemma write_step_directory_witness :
  mem_char "/" "names.dmp" = false
  /\ write_step "names.dmp" "nodes.dmp" names_foo nodes_foo []
     = [ Ok (Rename "names.dmp" "/names.dmp.old");
         Ok (Rename "nodes.dmp" "/nodes.dmp.old") ]
       ++ writeDmp names_foo nodes_foo [] ++ writeSeq2taxid [] [].
Proof.
  split; [reflexivity|].
  exact (proj2 (write_step_directory "names.dmp" "nodes.dmp" names_foo nodes_foo [])
               eq_refl).
Defined.

(** X5.  Whenever the write step of [taxadd_Main] completes, the names
    dump existed, both tables could be iterated, and in the directory of
    the names dump [names.dmp] and [nodes.dmp] hold one line per row of
    the names and of the nodes table and [seqid2taxid.map] holds the
    scaffold lines. *)
Theorem write_step_result (fs fs' : fsys) (names_path nodes_path : str)
    (names_df nodes_df : DataFrame) (sd : list (option str * list str)) :
  run fs (write_step names_path nodes_path names_df nodes_df sd) = (fs', None) ->
  is_Some (fs !! names_path)
  /\ exists rs1 rs2,
       df_iterrows names_df = Ok rs1
       /\ df_iterrows nodes_df = Ok rs2
       /\ fs' !! (dump_dir names_path ++ "/names.dmp") = Some (Plain (dmp_text rs1))
       /\ fs' !! (dump_dir names_path ++ "/nodes.dmp") = Some (Plain (dmp_text rs2))
       /\ fs' !! (dump_dir names_path ++ "/seqid2taxid.map")
          = Some (Plain (unlines (map_lines sd))).
Proof.
  unfold write_step. fold (dump_dir names_path). intros H.
  split.
  - cbn [app run exec_op] in H. destruct (fs !! names_path); [eauto|discriminate H].
  - apply (run_app_inv [_; _]) in H as (fs1 & _ & H).
    apply run_app_inv in H as (fs2 & Hdmp & Hseq).
    apply writeDmp_completes in Hdmp as (rs1 & rs2 & H1 & H2 & ->).
    rewrite run_writeSeq2taxid in Hseq. injection Hseq as <-.
    exists rs1, rs2. split; [exact H1|]. split; [exact H2|]. split; [|split].
    + rewrite !lookup_insert_ne by (apply suffix_neq; discriminate).
      apply lookup_insert_eq.
    + rewrite !lookup_insert_ne by (apply suffix_neq; discriminate).
      apply lookup_insert_eq.
    + apply lookup_insert_eq.
Qed.

Lemma write_step_result_witness :
  run fs_unresolved
      (write_step "tax/names.dmp" "tax/nodes.dmp" names_foo nodes_foo [(None, ["seq1"])])
  = (fst (run fs_unresolved
              (write_step "tax/names.dmp" "tax/nodes.dmp" names_foo nodes_foo
                          [(None, ["seq1"])])), None)
  /\ is_Some (fs_unresolved !! "tax/names.dmp")
  /\ exists rs1 rs2,
       df_iterrows names_foo = Ok rs1
       /\ df_iterrows nodes_foo = Ok rs2
       /\ fst (run fs_unresolved
                   (write_step "tax/names.dmp" "tax/nodes.dmp" names_foo nodes_foo
                               [(None, ["seq1"])]))
            !! (dump_dir "tax/names.dmp" ++ "/names.dmp")
          = Some (Plain (dmp_text rs1))
       /\ fst (run fs_unresolved
                   (write_step "tax/names.dmp" "tax/nodes.dmp" names_foo nodes_foo
                               [(None, ["seq1"])]))
            !! (dump_dir "tax/names.dmp" ++ "/nodes.dmp")
          = Some (Plain (dmp_text rs2))
       /\ fst (run fs_unresolved
                   (write_step "tax/names.dmp" "tax/nodes.dmp" names_foo nodes_foo
                               [(None, ["seq1"])]))
            !! (dump_dir "tax/names.dmp" ++ "/seqid2taxid.map")
          = Some (Plain (unlines (map_lines [(None, ["seq1"])]))).
Proof.
  assert (H : run fs_unresolved
                (write_step "tax/names.dmp" "tax/nodes.dmp" names_foo nodes_foo
                            [(None, ["seq1"])])
              = (fst (run fs_unresolved
                        (write_step "tax/names.dmp" "tax/nodes.dmp" names_foo nodes_foo
                                    [(None, ["seq1"])])), None))
    by (vm_compute; reflexivity).
  split; [exact H|].
  exact (write_step_result fs_unresolved _ "tax/names.dmp" "tax/nodes.dmp"
           names_foo nodes_foo [(None, ["seq1"])] H).
Defined.

Section Split.

Variable sep : str.

Lemma startswith_app (s : str) : py_startswith sep (sep ++ s) = true.
Proof.
  induction sep as [|c p IH]; [reflexivity|].
  cbn [app py_startswith]. now rewrite Ascii.eqb_refl, IH.
Qed.

Lemma startswith_prefix (p a b : str) :
  py_startswith p a = true -> py_startswith p (a ++ b) = true.
Proof.
  revert a. induction p as [|c p IH]; intros a H; [reflexivity|].
  destruct a as [|x a]; [discriminate H|].
  cbn [app py_startswith] in *. apply andb_true_iff in H as [H1 H2].
  now rewrite H1, (IH _ H2).
Qed.

Lemma split_go_skip (x : str) :
  forall (cur s : str),
    split_go sep (length x) cur (x ++ s) = split_go sep 0 cur s \/ (x <> [] /\ s = []).
Proof.
  induction x as [|c x IH]; intros cur s; [now left|].
  destruct s as [|d s]; [right; split; [discriminate|reflexivity]|].
  left. cbn [length app split_go].
  destruct (IH cur (d :: s)) as [E|[_ E]]; [exact E|discriminate E].
Qed.

Lemma split_go_skip_end (x cur : str) :
  split_go sep (length x) cur x = [rev cur].
Proof.
  induction x as [|c x IH]; [reflexivity|]. exact IH.
Qed.

(** Past an occurrence of the separator a new piece begins. *)
Lemma split_go_sep (cur s : str) :
  sep <> [] ->
  split_go sep 0 cur (sep ++ s) = rev cur :: split_go sep 0 [] s.
Proof.
  intros Hne. pose proof (startswith_app s) as Hst.
  destruct sep as [|c p] eqn:Esep; [congruence|].
  cbn [app] in *. cbn [split_go]. rewrite Hst. f_equal.
  cbn [length]. rewrite Nat.sub_succ, Nat.sub_0_r.
  destruct (split_go_skip p [] s) as [E|[_ ->]].
  - rewrite <- Esep in *. exact E.
  - rewrite app_nil_r. rewrite <- Esep. apply split_go_skip_end.
Qed.

(** Without an occurrence of the separator there is one piece. *)
Lemma split_go_none (s : str) :
  forall cur, occurs sep s = false -> split_go sep 0 cur s = [rev cur ++ s].
Proof.
  induction s as [|c s IH]; intros cur H.
  - simpl. now rewrite app_nil_r.
  - cbn [occurs] in H. apply orb_false_iff in H as [H1 H2].
    cbn [split_go]. rewrite H1, (IH _ H2). simpl. now rewrite <- app_assoc.
Qed.

End Split.

Section Components.

(** The directory [root ++ rel], cut at the root. *)
Lemma py_split_root (root rel : str) :
  root <> [] ->
  occurs root rel = false ->
  py_split root (root ++ rel) = Ok [[]; rel].
Proof.
  intros Hne Hocc. unfold py_split. destruct root as [|c p] eqn:E; [congruence|].
  rewrite <- E in *. rewrite split_go_sep by congruence.
  now rewrite (split_go_none _ _ [] Hocc).
Qed.

Lemma mother_of_rank (comps : list str) :
  (if (1 <? length comps)%nat
   then Some (List.last (removelast comps) [])
   else None)
  = mother_of comps.
Proof.
  unfold mother_of.
  destruct comps as [|x comps _] using rev_ind; [reflexivity|].
  rewrite removelast_last, rev_app_distr, length_app. cbn [rev app length].
  destruct comps as [|y comps _] using rev_ind; [reflexivity|].
  rewrite rev_app_distr, length_app, last_last. cbn [rev app length].
  replace (1 <? length comps + 1 + 1)%nat with true; [reflexivity|].
  symmetry. apply Nat.ltb_lt. lia.
Qed.

End Components.

(* ================================================================== *)
(** * Further properties: the walk over the database *)
(* ================================================================== *)

Section Dicts.

Context {K : Type} `{EqDecision K}.

Lemma dd_get_append (k : K) (v : str) (d : list (K * list str)) :
  dd_get k (dd_append k v d) = dd_get k d ++ [v].
Proof.
  induction d as [|[k' vs] d IH]; simpl.
  - now rewrite decide_True by reflexivity.
  - destruct (decide (k = k')) as [E|E]; simpl.
    + now rewrite decide_True by exact E.
    + now rewrite decide_False by exact E.
Qed.

Lemma dd_get_append_ne (k k' : K) (v : str) (d : list (K * list str)) :
  k' <> k -> dd_get k' (dd_append k v d) = dd_get k' d.
Proof.
  intros Hne. induction d as [|[k0 vs] d IH]; simpl.
  - now rewrite decide_False by exact Hne.
  - destruct (decide (k = k0)) as [E|E]; simpl.
    + subst k0. now rewrite !decide_False by exact Hne.
    + destruct (decide (k' = k0)); [reflexivity|exact IH].
Qed.

Lemma dd_get_fold {A} (k : K) (g : A -> str) (xs : list A) :
  forall d,
    dd_get k (fold_left (fun d x => dd_append k (g x) d) xs d)
    = dd_get k d ++ map g xs.
Proof.
  induction xs as [|x xs IH]; intros d; simpl.
  - now rewrite app_nil_r.
  - rewrite IH, dd_get_append, <- app_assoc. reflexivity.
Qed.

Lemma dd_get_fold_ne {A} (k k' : K) (g : A -> str) (xs : list A) :
  k' <> k ->
  forall d, dd_get k' (fold_left (fun d x => dd_append k (g x) d) xs d) = dd_get k' d.
Proof.
  intros Hne. induction xs as [|x xs IH]; intros d; simpl; [reflexivity|].
  rewrite IH. now apply dd_get_append_ne.
Qed.

End Dicts.

Section Loop.

Variables (fasta_WDir dir taxname : str) (mother_clade : option str).

(** What one pass of the loop body does to the loop variables. *)
Lemma process_fasta_fields (st st' : state) (fasta : str) :
  process_fasta fasta_WDir dir taxname mother_clade st fasta = Ok st' ->
  st_names st' = st_names st
  /\ st_nodes st' = st_nodes st
  /\ exists taxid ids,
       search_taxon (py_replace "_" " " taxname) (st_names st) = Ok taxid
       /\ get_scaffold_ids (st_fs st) (path_join dir fasta) = Ok ids
       /\ record_file taxid ids taxname (path_join dir fasta) st st'
       /\ match taxid with
          | None => st_fs st' = st_fs st
          | Some t =>
              exists v, editFasta (st_fs st) (path_join dir fasta) fasta_WDir t taxname
                        = Ok (st_fs st', v)
          end.
Proof.
  unfold process_fasta, getTaxidNames, record_file.
  destruct (search_taxon _ _) as [taxid|e]; [|discriminate]. cbn [bind].
  destruct (get_scaffold_ids _ _) as [ids|e]; [|discriminate]. cbn [bind].
  destruct taxid as [t|].
  - destruct (editFasta _ _ _ _ _) as [[fs' v]|e] eqn:E; [|discriminate].
    cbn [bind fst]. intros [= <-]. cbn.
    split; [reflexivity|]. split; [reflexivity|].
    exists (Some t), ids. repeat split; eauto.
  - intros [= <-]. cbn.
    split; [reflexivity|]. split; [reflexivity|].
    exists None, ids. repeat split; eauto.
Qed.

Lemma process_fastas_fields (fastas : list str) :
  forall st st',
    foldM (process_fasta fasta_WDir dir taxname mother_clade) st fastas = Ok st' ->
    st_names st' = st_names st
    /\ st_nodes st' = st_nodes st
    /\ st_fasta st'
       = fold_left (fun d fasta => dd_append taxname (path_join dir fasta) d)
                   fastas (st_fasta st).
Proof.
  induction fastas as [|fasta fastas IH]; intros st st' H.
  - injection H as <-. auto.
  - cbn [foldM] in H.
    destruct (process_fasta _ _ _ _ st fasta) as [s1|e] eqn:E1; [|discriminate].
    cbn [bind] in H. apply IH in H as (Hn & Hx & Hf).
    apply process_fasta_fields in E1 as (Hn1 & Hx1 & taxid & ids & _ & _ & [_ Hf1] & _).
    cbn [fold_left]. rewrite Hn, Hx, Hf, Hn1, Hx1, Hf1. auto.
Qed.

End Loop.

Section Walk.

Variables (fasta_WDir fasta_db_path : str).

Lemma process_dir_tables (st st' : state) (entry : str * list str * list str) :
  process_dir fasta_WDir fasta_db_path st entry = Ok st' ->
  st_names st' = st_names st /\ st_nodes st' = st_nodes st.
Proof.
  destruct entry as [[dir subdirs] fastas]. unfold process_dir.
  destruct (py_split fasta_db_path dir) as [pieces|e]; [|discriminate].
  cbn [bind]. intros H. apply process_fastas_fields in H as (Hn & Hx & _). auto.
Qed.

Lemma walk_tables (walk : list (str * list str * list str)) :
  forall st st',
    foldM (process_dir fasta_WDir fasta_db_path) st walk = Ok st' ->
    st_names st' = st_names st /\ st_nodes st' = st_nodes st.
Proof.
  induction walk as [|entry walk IH]; intros st st' H.
  - injection H as <-. auto.
  - cbn [foldM] in H.
    destruct (process_dir _ _ st entry) as [s1|e] eqn:E1; [|discriminate].
    cbn [bind] in H. apply IH in H as [Hn Hx].
    apply process_dir_tables in E1 as [Hn1 Hx1]. split; congruence.
Qed.

End Walk.

(** X6.  Whenever [taxadd_Main] returns, the tables it wrote are the tables
    it read: [<dir>/names.dmp] holds the lines of the rows of
    [readDmp(names_path)], [<dir>/nodes.dmp] those of
    [readDmp(nodes_path)], whatever the database holds; no row is added,
    removed or changed by the walk. *)
Theorem taxadd_Main_writes_tables_read (fs fs' : fsys)
    (walk : list (str * list str * list str))
    (fasta_WDir fasta_db_path names_path nodes_path : str)
    (fasta_dict : list (str * list str)) :
  taxadd_Main fs walk fasta_WDir fasta_db_path names_path nodes_path
  = Ok (fs', fasta_dict) ->
  exists names_df nodes_df rs1 rs2,
    readDmp fs names_path = Ok names_df
    /\ readDmp fs nodes_path = Ok nodes_df
    /\ df_iterrows names_df = Ok rs1
    /\ df_iterrows nodes_df = Ok rs2
    /\ fs' !! (dump_dir names_path ++ "/names.dmp") = Some (Plain (dmp_text rs1))
    /\ fs' !! (dump_dir names_path ++ "/nodes.dmp") = Some (Plain (dmp_text rs2)).
Proof.
  unfold taxadd_Main.
  destruct (readDmp fs names_path) as [names_df|e]; [|discriminate]. cbn [bind].
  destruct (readDmp fs nodes_path) as [nodes_df|e]; [|discriminate]. cbn [bind].
  destruct (foldM _ _ walk) as [st|e] eqn:Ewalk; [|discriminate]. cbn [bind].
  apply walk_tables in Ewalk as [Hn Hx]. cbn [st_names st_nodes] in Hn, Hx.
  rewrite Hn, Hx.
  destruct (run _ _) as [fs1 [e|]] eqn:Erun; [discriminate|].
  intros [= -> <-].
  unfold write_step in Erun. fold (dump_dir names_path) in Erun.
  apply (run_app_inv [_; _]) in Erun as (fs2 & _ & Erun).
  apply run_app_inv in Erun as (fs3 & Edmp & Eseq).
  pose proof Edmp as Edmp'. unfold writeDmp in Edmp'.
  apply run_app_inv in Edmp' as (fs4 & E1 & E2).
  apply write_table_rows in E1 as [rs1 H1].
  apply write_table_rows in E2 as [rs2 H2].
  rewrite (run_writeDmp _ _ _ _ _ _ H1 H2) in Edmp. injection Edmp as <-.
  rewrite run_writeSeq2taxid in Eseq. injection Eseq as <-.
  exists names_df, nodes_df, rs1, rs2.
  repeat split; try assumption.
  - rewrite !lookup_insert_ne by (apply suffix_neq; discriminate).
    apply lookup_insert_eq.
  - rewrite !lookup_insert_ne by (apply suffix_neq; discriminate).
    apply lookup_insert_eq.
Qed.

Lemma taxadd_Main_writes_tables_read_witness :
  taxadd_Main fs_unresolved walk_unresolved "work" "db" "tax/names.dmp" "tax/nodes.dmp"
  = Ok (final_fs (taxadd_Main fs_unresolved walk_unresolved "work" "db"
                              "tax/names.dmp" "tax/nodes.dmp"),
        [("Foo_bar", ["db/Foo_bar/g1.fa"])])
  /\ exists names_df nodes_df rs1 rs2,
       readDmp fs_unresolved "tax/names.dmp" = Ok names_df
       /\ readDmp fs_unresolved "tax/nodes.dmp" = Ok nodes_df
       /\ df_iterrows names_df = Ok rs1
       /\ df_iterrows nodes_df = Ok rs2
       /\ final_fs (taxadd_Main fs_unresolved walk_unresolved "work" "db"
                                "tax/names.dmp" "tax/nodes.dmp")
            !! (dump_dir "tax/names.dmp" ++ "/names.dmp")
          = Some (Plain (dmp_text rs1))
       /\ final_fs (taxadd_Main fs_unresolved walk_unresolved "work" "db"
                                "tax/names.dmp" "tax/nodes.dmp")
            !! (dump_dir "tax/names.dmp" ++ "/nodes.dmp")
          = Some (Plain (dmp_text rs2)).
Proof.
  assert (H : taxadd_Main fs_unresolved walk_unresolved "work" "db"
                          "tax/names.dmp" "tax/nodes.dmp"
              = Ok (final_fs (taxadd_Main fs_unresolved walk_unresolved "work" "db"
                                          "tax/names.dmp" "tax/nodes.dmp"),
                    [("Foo_bar", ["db/Foo_bar/g1.fa"])]))
    by (vm_compute; reflexivity).
  split; [exact H|].
  exact (taxadd_Main_writes_tables_read _ _ _ _ _ _ _ _ H).
Defined.

Section Directory.

Variables (fasta_WDir root : str) (comps : list str).
Variables (st : state) (subdirs fastas : list str).

Hypothesis Hroot : root <> [].
Hypothesis Hcomps : comps <> [].
Hypothesis Hslash : Forall no_slash comps.
Hypothesis Hocc : occurs root (py_join "/" comps) = false.

(** The taxon name and the mother clade of a directory below the root. *)
Lemma process_dir_components :
  process_dir fasta_WDir root st (root ++ py_join "/" comps, subdirs, fastas)
  = foldM (process_fasta fasta_WDir (root ++ py_join "/" comps)
                         (List.last comps []) (mother_of comps))
          st fastas.
Proof.
  unfold process_dir. rewrite (py_split_root _ _ Hroot Hocc). cbn [bind List.last].
  rewrite (split_char_join "/" comps Hcomps Hslash).
  now rewrite mother_of_rank.
Qed.

End Directory.

(** X7.  For a directory [root ++ c1/c2/.../cn] of the walk, where the
    root is not empty and does not occur again in what follows it,
    [taxadd_Main] takes the last path component [cn] as the taxon name
    and the component before it as the mother clade; the mother clade is
    [None] only when there is a single component, so that for a directory
    [<root>/<taxon>] directly below a root given without a trailing slash
    the mother clade is the empty string, not [None]. *)
Theorem process_dir_taxon (fasta_WDir root : str) (comps : list str)
    (st : state) (subdirs fastas : list str) :
  root <> [] ->
  comps <> [] ->
  Forall no_slash comps ->
  occurs root (py_join "/" comps) = false ->
  process_dir fasta_WDir root st (root ++ py_join "/" comps, subdirs, fastas)
  = foldM (process_fasta fasta_WDir (root ++ py_join "/" comps)
                         (List.last comps []) (mother_of comps))
          st fastas
  /\ (mother_of comps = None <-> length comps = 1%nat)
  /\ (forall taxon, comps = [[]; taxon] -> mother_of comps = Some []).
Proof.
  intros Hroot Hcomps Hslash Hocc. split; [|split].
  - now apply process_dir_components.
  - unfold mother_of. destruct comps as [|x l _] using rev_ind; [congruence|].
    rewrite rev_app_distr, length_app. cbn [rev app length].
    destruct l as [|y l _] using rev_ind; [easy|].
    rewrite rev_app_distr, length_app. cbn [rev app length].
    split; [discriminate|lia].
  - now intros taxon ->.
Qed.

Lemma process_dir_taxon_witness :
  "db" <> []
  /\ [[]; "Foo_bar"] <> []
  /\ Forall no_slash [[]; "Foo_bar"]
  /\ occurs "db" (py_join "/" [[]; "Foo_bar"]) = false
  /\ process_dir "work" "db" (mkState fs_unresolved names_foo nodes_foo [] [])
                 ("db" ++ py_join "/" [[]; "Foo_bar"], [], ["g1.fa"])
     = foldM (process_fasta "work" ("db" ++ py_join "/" [[]; "Foo_bar"])
                            "Foo_bar" (Some []))
             (mkState fs_unresolved names_foo nodes_foo [] []) ["g1.fa"].
Proof.
  assert (H1 : "db" <> []) by discriminate.
  assert (H2 : [[]; "Foo_bar"] <> []) by discriminate.
  assert (H3 : Forall no_slash [[]; "Foo_bar"]) by (repeat constructor).
  assert (H4 : occurs "db" (py_join "/" [[]; "Foo_bar"]) = false) by reflexivity.
  split; [exact H1 | split; [exact H2 | split; [exact H3 | split; [exact H4 | ]]]].
  exact (proj1 (process_dir_taxon "work" "db" [[]; "Foo_bar"]
                  (mkState fs_unresolved names_foo nodes_foo [] []) [] ["g1.fa"]
                  H1 H2 H3 H4)).
Defined.

(** X8.  When the files of such a directory are processed without an
    exception, the returned dictionary has, under the taxon name of the
    directory, what it had before followed by the joined paths of all
    its files, in the order of the walk and whether or not the taxon
    resolved; every other key has what it had. *)
Theorem process_dir_records_files (fasta_WDir root : str) (comps : list str)
    (st st' : state) (subdirs fastas : list str) :
  root <> [] ->
  comps <> [] ->
  Forall no_slash comps ->
  occurs root (py_join "/" comps) = false ->
  process_dir fasta_WDir root st (root ++ py_join "/" comps, subdirs, fastas) = Ok st' ->
  dd_get (List.last comps []) (st_fasta st')
  = dd_get (List.last comps []) (st_fasta st)
    ++ map (path_join (root ++ py_join "/" comps)) fastas
  /\ forall k, k <> List.last comps [] -> dd_get k (st_fasta st') = dd_get k (st_fasta st).
Proof.
  intros Hroot Hcomps Hslash Hocc.
  rewrite (process_dir_components fasta_WDir root comps st subdirs fastas
             Hroot Hcomps Hslash Hocc).
  intros H. apply process_fastas_fields in H as (_ & _ & ->). split.
  - apply (dd_get_fold _ (path_join (root ++ py_join "/" comps))).
  - intros k Hk. now apply (dd_get_fold_ne _ _ (path_join (root ++ py_join "/" comps))).
Qed.

Lemma process_dir_records_files_witness :
  "db" <> []
  /\ [[]; "Foo_bar"] <> []
  /\ Forall no_slash [[]; "Foo_bar"]
  /\ occurs "db" (py_join "/" [[]; "Foo_bar"]) = false
  /\ process_dir "work" "db" (mkState fs_unresolved names_foo nodes_foo [] [])
                 ("db" ++ py_join "/" [[]; "Foo_bar"], [], ["g1.fa"])
     = Ok (mkState fs_unresolved names_foo nodes_foo
                   [(None, ["seq1"])] [("Foo_bar", ["db/Foo_bar/g1.fa"])])
  /\ dd_get "Foo_bar" [("Foo_bar", ["db/Foo_bar/g1.fa"])]
     = [] ++ map (path_join ("db" ++ py_join "/" [[]; "Foo_bar"])) ["g1.fa"].
Proof.
  assert (H1 : "db" <> []) by discriminate.
  assert (H2 : [[]; "Foo_bar"] <> []) by discriminate.
  assert (H3 : Forall no_slash [[]; "Foo_bar"]) by (repeat constructor).
  assert (H4 : occurs "db" (py_join "/" [[]; "Foo_bar"]) = false) by reflexivity.
  assert (H5 : process_dir "work" "db" (mkState fs_unresolved names_foo nodes_foo [] [])
                 ("db" ++ py_join "/" [[]; "Foo_bar"], [], ["g1.fa"])
               = Ok (mkState fs_unresolved names_foo nodes_foo
                       [(None, ["seq1"])] [("Foo_bar", ["db/Foo_bar/g1.fa"])]))
    by (vm_compute; reflexivity).
  split; [exact H1 | split; [exact H2 | split; [exact H3 | split; [exact H4 | ]]]].
  split; [exact H5|].
  exact (proj1 (process_dir_records_files "work" "db" [[]; "Foo_bar"]
                  (mkState fs_unresolved names_foo nodes_foo [] []) _ [] ["g1.fa"]
                  H1 H2 H3 H4 H5)).
Defined.

(** X9.  One file of the walk, processed without an exception: its
    scaffold ids are appended, in file order, under the key that the
    lookup of the taxon name gave, and this key is [None] when the name
    did not resolve, since the ids are stored before the test for an
    unresolved taxon; every other key keeps its ids; and for an
    unresolved taxon the file system is left as it was. *)
Theorem process_fasta_scaffolds (fasta_WDir dir taxname fasta : str)
    (mother_clade : option str) (st st' : state) :
  process_fasta fasta_WDir dir taxname mother_clade st fasta = Ok st' ->
  exists taxid ids,
    search_taxon (py_replace "_" " " taxname) (st_names st) = Ok taxid
    /\ get_scaffold_ids (st_fs st) (path_join dir fasta) = Ok ids
    /\ dd_get taxid (st_scaffold st') = dd_get taxid (st_scaffold st) ++ ids
    /\ (forall k, k <> taxid -> dd_get k (st_scaffold st') = dd_get k (st_scaffold st))
    /\ (taxid = None -> st_fs st' = st_fs st).
Proof.
  intros H.
  apply process_fasta_fields in H as (_ & _ & taxid & ids & Hs & Hi & [Hsc _] & Hfs).
  exists taxid, ids. rewrite Hsc. repeat split; try assumption.
  - rewrite (dd_get_fold taxid (fun id => id)). now rewrite map_id.
  - intros k Hk. now apply (dd_get_fold_ne taxid k (fun id => id)).
  - intros ->. exact Hfs.
Qed.

Lemma process_fasta_scaffolds_witness :
  process_fasta "work" "db/Foo_bar" "Foo_bar" (Some [])
                (mkState fs_unresolved names_foo nodes_foo [] []) "g1.fa"
  = Ok (mkState fs_unresolved names_foo nodes_foo
                [(None, ["seq1"])] [("Foo_bar", ["db/Foo_bar/g1.fa"])])
  /\ exists taxid ids,
       search_taxon (py_replace "_" " " "Foo_bar") names_foo = Ok taxid
       /\ get_scaffold_ids fs_unresolved (path_join "db/Foo_bar" "g1.fa") = Ok ids
       /\ dd_get taxid [(None, ["seq1"])] = dd_get taxid [] ++ ids
       /\ (forall k, k <> taxid -> dd_get k [(None, ["seq1"])] = dd_get k [])
       /\ (taxid = None -> fs_unresolved = fs_unresolved).
Proof.
  assert (H : process_fasta "work" "db/Foo_bar" "Foo_bar" (Some [])
                (mkState fs_unresolved names_foo nodes_foo [] []) "g1.fa"
              = Ok (mkState fs_unresolved names_foo nodes_foo
                      [(None, ["seq1"])] [("Foo_bar", ["db/Foo_bar/g1.fa"])]))
    by (vm_compute; reflexivity).
  split; [exact H|].
  exact (process_fasta_scaffolds _ _ _ _ _ _ _ H).
Defined.

(* ================================================================== *)
(** * Further properties: FASTA files *)
(* ================================================================== *)

Section Source.

Lemma startswith_cons (a b : ascii) (p s : str) :
  py_startswith (a :: p) (b :: s) = true -> a = b /\ py_startswith p s = true.
Proof.
  cbn [py_startswith]. intros H. apply andb_true_iff in H as [H1 H2].
  apply Ascii.eqb_eq in H1. auto.
Qed.

Lemma occurs_suffix (sep a : str) : occurs sep (a ++ sep) = true.
Proof.
  induction a as [|x a IH].
  - destruct sep as [|c p]; [reflexivity|].
    cbn [app occurs]. rewrite <- (app_nil_r (c :: p)) at 2.
    now rewrite startswith_app.
  - cbn [app occurs]. rewrite IH. apply orb_true_r.
Qed.

(** The first piece of a split holds no separator. *)
Lemma split_go_hd (sep : str) :
  sep <> [] ->
  forall (b cur : str),
    exists name rest,
      b = name ++ rest
      /\ hd [] (split_go sep 0 cur b) = rev cur ++ name
      /\ occurs sep name = false.
Proof.
  intros Hne. induction b as [|c b IH]; intros cur.
  - exists [], []. cbn. rewrite app_nil_r. repeat split.
    destruct sep; [congruence|reflexivity].
  - cbn [split_go]. destruct (py_startswith sep (c :: b)) eqn:E.
    + exists [], (c :: b). cbn. rewrite app_nil_r. repeat split.
      destruct sep; [congruence|reflexivity].
    + destruct (IH (c :: cur)) as (name & rest & -> & Hhd & Hocc).
      exists (c :: name), rest. rewrite Hhd. cbn [rev]. rewrite <- app_assoc.
      repeat split. cbn [occurs]. rewrite Hocc, orb_false_r.
      destruct (py_startswith sep (c :: name)) eqn:E'; [|reflexivity].
      apply (startswith_prefix sep _ rest) in E'. cbn [app] in E'. congruence.
Qed.

(** A name that ends in [.gz] after an underscore and what follows it
    holds [.gz] in what follows. *)
Lemma ends_gz_occurs (y name : str) :
  py_endswith ".gz" (y ++ "_" ++ name) = true -> occurs ".gz" name = true.
Proof.
  unfold py_endswith. rewrite !rev_app_distr. cbn [rev app].
  intros H.
  destruct (rev name) as [|a [|b [|c tl]]] eqn:E; cbn [app] in H.
  - apply startswith_cons in H as [H _]. discriminate H.
  - apply startswith_cons in H as [_ H].
    apply startswith_cons in H as [H _]. discriminate H.
  - apply startswith_cons in H as [_ H].
    apply startswith_cons in H as [_ H].
    apply startswith_cons in H as [H _]. discriminate H.
  - apply startswith_cons in H as [<- H].
    apply startswith_cons in H as [<- H].
    apply startswith_cons in H as [<- _].
    apply (f_equal (@rev ascii)) in E. rewrite rev_involutive in E. subst name.
    cbn [rev]. rewrite <- !app_assoc. apply (occurs_suffix ".gz").
Qed.

(** The file [editFasta] writes is never the file it reads. *)
Lemma destination_not_source (infasta outdir taxid : str) :
  fasta_file_path outdir taxid (edited_name infasta) <> infasta.
Proof.
  unfold fasta_file_path, edited_name. intros H.
  destruct (py_endswith ".gz" infasta) eqn:Egz.
  - destruct (split_go_hd ".gz" ltac:(discriminate) (basename infasta) [])
      as (name & rest & _ & Hhd & Hocc).
    cbn [rev app] in Hhd. rewrite Hhd in H. rewrite <- H in Egz.
    rewrite !(app_assoc _ _ ("_" ++ name)) in Egz.
    apply ends_gz_occurs in Egz. congruence.
  - destruct (basename_suffix infasta) as (pre & Hpre & Hshape).
    remember (basename infasta) as bn eqn:Ebn. clear Ebn.
    rewrite Hpre in H. rewrite !app_assoc in H. apply app_inv_tail in H.
    destruct Hshape as [-> | [q ->]].
    + apply app_eq_nil in H as [_ H]. discriminate H.
    + apply app_inj_tail in H as [_ H]. discriminate H.
Qed.

Lemma editFasta_writes (fs fs' : fsys) (infasta outdir taxid taxname : str) (v : cell) :
  editFasta fs infasta outdir taxid taxname = Ok (fs', v) ->
  exists out,
    fs' = <[fasta_file_path outdir taxid (edited_name infasta) := Plain out]> fs.
Proof.
  unfold editFasta, edited_name.
  destruct (py_endswith ".gz" infasta).
  - destruct (gzip_open_read fs infasta) as [text|e]; [|discriminate]. cbn [bind fst snd].
    destruct (re_sub_header _ text) as [out|e]; [|discriminate]. cbn [bind].
    intros [= <- _]. eauto.
  - destruct (open_read fs infasta) as [text|e]; [|discriminate]. cbn [bind fst snd].
    destruct (re_sub_header _ text) as [out|e]; [|discriminate]. cbn [bind].
    intros [= <- _]. eauto.
Qed.

End Source.

(** X10.  [editFasta] never overwrites the file it reads: whatever the
    paths, the taxid and the name, the file it writes,
    [<outdir>/<taxid>_<name>], is a path other than [infasta], so that
    after a call that returns the source file is as it was, and so is
    every file but the written one. *)
Theorem editFasta_keeps_source (fs fs' : fsys) (infasta outdir taxid taxname : str)
    (v : cell) :
  editFasta fs infasta outdir taxid taxname = Ok (fs', v) ->
  fasta_file_path outdir taxid (edited_name infasta) <> infasta
  /\ fs' !! infasta = fs !! infasta
  /\ forall p, p <> fasta_file_path outdir taxid (edited_name infasta) ->
               fs' !! p = fs !! p.
Proof.
  intros H. apply editFasta_writes in H as [out ->].
  pose proof (destination_not_source infasta outdir taxid) as Hne.
  split; [exact Hne|]. split.
  - now apply lookup_insert_ne.
  - intros p Hp. apply lookup_insert_ne. congruence.
Qed.

Lemma editFasta_keeps_source_witness :
  editFasta (fs_one "9606_g1.fa" fasta_seq1) "9606_g1.fa" "." "9606" "Homo sapiens"
  = Ok (final_fs (editFasta (fs_one "9606_g1.fa" fasta_seq1) "9606_g1.fa" "."
                            "9606" "Homo sapiens"), CInt 0)
  /\ final_fs (editFasta (fs_one "9606_g1.fa" fasta_seq1) "9606_g1.fa" "."
                         "9606" "Homo sapiens") !! "9606_g1.fa"
     = fs_one "9606_g1.fa" fasta_seq1 !! "9606_g1.fa".
Proof.
  assert (H : editFasta (fs_one "9606_g1.fa" fasta_seq1) "9606_g1.fa" "."
                        "9606" "Homo sapiens"
              = Ok (final_fs (editFasta (fs_one "9606_g1.fa" fasta_seq1) "9606_g1.fa" "."
                                        "9606" "Homo sapiens"), CInt 0))
    by (vm_compute; reflexivity).
  split; [exact H|].
  exact (proj1 (proj2 (editFasta_keeps_source _ _ _ _ _ _ _ H))).
Defined.

Section Words.

Lemma take_while_app (p : ascii -> bool) (a t : str) :
  forallb p a = true -> take_while p (a ++ t) = a ++ take_while p t.
Proof.
  induction a as [|c a IH]; [reflexivity|].
  cbn [forallb app take_while]. intros H. apply andb_true_iff in H as [Hc Ha].
  now rewrite Hc, (IH Ha).
Qed.

(** The first word of a text that begins with a word. *)
Lemma first_word_app (id t : str) :
  id <> [] ->
  forallb non_space id = true ->
  first_word (id ++ t) = id ++ take_while non_space t.
Proof.
  intros Hne Hid. unfold first_word, py_lstrip.
  destruct id as [|c id]; [congruence|].
  pose proof Hid as Hc. cbn [forallb] in Hc. apply andb_true_iff in Hc as [Hc _].
  unfold non_space in Hc. apply negb_true_iff in Hc.
  cbn [app drop_while]. rewrite Hc.
  now apply (take_while_app non_space (c :: id) t).
Qed.

Lemma word_one_line (id : str) : forallb non_space id = true -> one_line id.
Proof.
  unfold one_line, mem_char. induction id as [|c id IH]; [reflexivity|].
  cbn [forallb existsb]. intros H. apply andb_true_iff in H as [Hc Hid].
  rewrite (IH Hid), orb_false_r.
  destruct (Ascii.eqb LF c) eqn:E; [|reflexivity].
  apply Ascii.eqb_eq in E as <-. discriminate Hc.
Qed.

Lemma no_header (l : str) : mem_char ">" l = false -> py_startswith ">" l = false.
Proof.
  destruct l as [|c l]; [reflexivity|].
  unfold mem_char. cbn [existsb py_startswith]. intros H.
  apply orb_false_iff in H as [-> _]. reflexivity.
Qed.

End Words.

Section Records.

(** What follows the [>] on the header line of a record. *)
Variable hdr : fasta_record -> str.

Let lines_of (rs : list fasta_record) : list str :=
  flat_map (fun r => (">" ++ hdr r) :: rec_seq r) rs.

Let fits (r : fasta_record) : Prop :=
  one_line (hdr r)
  /\ Forall (fun l => one_line l /\ mem_char ">" l = false) (rec_seq r).

Lemma lines_one_line (rs : list fasta_record) :
  Forall fits rs -> Forall (fun l => mem_char LF l = false) (lines_of rs).
Proof.
  induction 1 as [|r rs [Hh Hs] _ IH]; [constructor|].
  unfold lines_of. cbn [flat_map]. apply Forall_app. split; [|exact IH].
  constructor; [exact Hh|].
  eapply Forall_impl; [exact Hs|]. now intros l [Hl _].
Qed.

Lemma header_lines (rs : list fasta_record) :
  Forall fits rs ->
  List.filter (py_startswith ">") (lines_of rs) = map (fun r => ">" ++ hdr r) rs.
Proof.
  induction 1 as [|r rs [Hh Hs] _ IH]; [reflexivity|].
  unfold lines_of. cbn [flat_map app List.filter map].
  change (py_startswith ">" (">"%char :: hdr r)) with true. cbv iota.
  rewrite List.filter_app. f_equal.
  replace (List.filter (py_startswith ">") (rec_seq r)) with (@nil str); [exact IH|].
  symmetry. clear -Hs. induction Hs as [|l ls [_ Hl] _ IHs]; [reflexivity|].
  cbn [List.filter]. now rewrite (no_header _ Hl).
Qed.

(** The record ids of a text of records: the first word of each header,
    in file order. *)
Lemma ids_of_records (rs : list fasta_record) :
  Forall fits rs ->
  fasta_record_ids (unlines (lines_of rs)) = Ok (map (fun r => first_word (hdr r)) rs).
Proof.
  intros Hfit. pose proof (lines_one_line rs Hfit) as Hls.
  pose proof (header_lines rs Hfit) as Hhd.
  unfold fasta_record_ids.
  destruct (unlines (lines_of rs)) as [|c t] eqn:E.
  - destruct rs as [|r rs]; [reflexivity|discriminate E].
  - destruct rs as [|r rs]; [discriminate E|].
    assert (c = ">"%char) as -> by (now injection E as <- _).
    rewrite Ascii.eqb_refl. rewrite <- E. unfold unlines.
    rewrite (split_char_unlines LF _ Hls).
    rewrite List.filter_app, Hhd. cbn [List.filter py_startswith app].
    rewrite app_nil_r, map_map. reflexivity.
Qed.

(** The substitution on the lines of records: the headers get the
    replacement, the sequence lines stay. *)
Lemma rewrite_records (repl : str -> str) (rs : list fasta_record) :
  Forall (fun r => hdr r <> []
                   /\ Forall (fun l => one_line l /\ mem_char ">" l = false) (rec_seq r))
         rs ->
  map (rewrite_line repl) (lines_of rs)
  = flat_map (fun r => repl (">" ++ hdr r) :: rec_seq r) rs.
Proof.
  induction 1 as [|r rs [Hh Hs] _ IH]; [reflexivity|].
  unfold lines_of. cbn [flat_map]. rewrite map_app. cbn [map]. f_equal; [|exact IH].
  change (">" ++ hdr r) with (">"%char :: hdr r).
  rewrite (rewrite_line_header repl _ Hh). f_equal.
  clear -Hs. induction Hs as [|l ls [_ Hl] _ IHs]; [reflexivity|].
  cbn [map]. now rewrite (rewrite_line_plain repl _ Hl), IHs.
Qed.

End Records.

Section RecordIds.

Variables (taxid taxname : str).
Hypothesis Htaxid : one_line taxid.
Hypothesis Htaxname : one_line taxname.

Lemma kraken_suffix_one_line : one_line (kraken_suffix taxid taxname).
Proof.
  unfold one_line, kraken_suffix in *. now rewrite !mem_char_app, Htaxid, Htaxname.
Qed.

Lemma wf_record_fits (r : fasta_record) :
  wf_record r ->
  (rec_id r ++ rec_desc r <> []
   /\ one_line (rec_id r ++ rec_desc r)
   /\ one_line (rec_id r ++ rec_desc r ++ kraken_suffix taxid taxname))
  /\ Forall (fun l => one_line l /\ mem_char ">" l = false) (rec_seq r).
Proof.
  intros (Hne & Hid & _ & Hdesc & Hseq). split; [|exact Hseq].
  pose proof (word_one_line _ Hid) as Hid1.
  pose proof kraken_suffix_one_line as Hsuf.
  unfold one_line in *. rewrite !mem_char_app, Hid1, Hdesc, Hsuf.
  repeat split. intros H. apply app_eq_nil in H as [H _]. congruence.
Qed.

Lemma first_word_header (r : fasta_record) :
  wf_record r -> first_word (rec_id r ++ rec_desc r) = rec_id r.
Proof.
  intros (Hne & Hid & Hsp & _). rewrite (first_word_app _ _ Hne Hid).
  destruct (rec_desc r) as [|c d]; cbn [take_while].
  - apply app_nil_r.
  - unfold non_space. rewrite Hsp. apply app_nil_r.
Qed.

Lemma first_word_tagged (r : fasta_record) :
  wf_record r ->
  first_word (rec_id r ++ rec_desc r ++ kraken_suffix taxid taxname)
  = tagged_id taxid taxname r.
Proof.
  intros (Hne & Hid & Hsp & _). rewrite (first_word_app _ _ Hne Hid).
  unfold tagged_id. destruct (rec_desc r) as [|c d]; [reflexivity|].
  cbn [app take_while]. unfold non_space at 1. now rewrite Hsp.
Qed.

(** The text [editFasta] writes for a file of records. *)
Lemma rewritten_records (rs : list fasta_record) :
  Forall wf_record rs ->
  py_join [LF] (map (rewrite_line (fun m => m ++ kraken_suffix taxid taxname))
                    (split_char LF (fasta_text rs)))
  = unlines (flat_map (fun r => (">" ++ rec_id r ++ rec_desc r
                                     ++ kraken_suffix taxid taxname) :: rec_seq r) rs).
Proof.
  intros Hwf. unfold fasta_text, unlines.
  rewrite (split_char_unlines LF).
  2:{ apply (lines_one_line (fun r => rec_id r ++ rec_desc r)).
      eapply Forall_impl; [exact Hwf|].
      intros r Hr. apply wf_record_fits in Hr as [(_ & H & _) Hs]. now split. }
  rewrite map_app. cbn [map rewrite_line]. rewrite join_terminated.
  unfold record_lines.
  rewrite (rewrite_records (fun r => rec_id r ++ rec_desc r)).
  2:{ eapply Forall_impl; [exact Hwf|].
      intros r Hr. apply wf_record_fits in Hr as [(H & _ & _) Hs]. now split. }
  do 2 f_equal. apply flat_map_ext. intros r.
  cbn [app]. now rewrite <- !app_assoc.
Qed.

End RecordIds.

(** X11.  For a FASTA file made of records (a header line [>id] or
    [>id description], then sequence lines), [get_scaffold_ids] returns
    the ids of the records, one per record, in file order and without
    removing duplicates; an empty file gives no id. *)
Theorem get_scaffold_ids_records (fs : fsys) (fasta : str) (rs : list fasta_record) :
  fs !! fasta = Some (Plain (fasta_text rs)) ->
  Forall wf_record rs ->
  get_scaffold_ids fs fasta = Ok (map rec_id rs).
Proof.
  intros Hfs Hwf. unfold get_scaffold_ids, open_read. rewrite Hfs. cbn [bind].
  unfold fasta_text, record_lines.
  rewrite (ids_of_records (fun r => rec_id r ++ rec_desc r)).
  - f_equal. apply map_ext_in. intros r Hr.
    apply first_word_header. exact (proj1 (List.Forall_forall _ _) Hwf r Hr).
  - eapply Forall_impl; [exact Hwf|].
    intros r Hr.
    apply (wf_record_fits [] [] eq_refl eq_refl) in Hr as [(_ & H & _) Hs]. now split.
Qed.

Lemma get_scaffold_ids_records_witness :
  fs_one "db/Foo/g.fa" (fasta_text records_two) !! "db/Foo/g.fa"
  = Some (Plain (fasta_text records_two))
  /\ Forall wf_record records_two
  /\ get_scaffold_ids (fs_one "db/Foo/g.fa" (fasta_text records_two)) "db/Foo/g.fa"
     = Ok ["seq1"; "seq2"].
Proof.
  assert (H1 : fs_one "db/Foo/g.fa" (fasta_text records_two) !! "db/Foo/g.fa"
               = Some (Plain (fasta_text records_two)))
    by apply lookup_singleton_eq.
  assert (H2 : Forall wf_record records_two).
  { repeat constructor; discriminate. }
  split; [exact H1 | split; [exact H2 | ]].
  exact (get_scaffold_ids_records _ _ records_two H1 H2).
Defined.

(** X12.  [editFasta] followed by [get_scaffold_ids] on the file it
    wrote, for a file of records and a taxid and name without backslash
    or line feed: a record whose header has a description keeps its id,
    the kraken suffix having gone to the end of the description; a
    record whose header is the id alone gets as its id the id followed
    by the suffix up to the first white space of the taxon name. *)
Theorem editFasta_record_ids (fs : fsys) (infasta outdir taxid taxname : str)
    (rs : list fasta_record) :
  stored_fasta fs infasta (fasta_text rs) ->
  Forall wf_record rs ->
  mem_char BACKSLASH taxid = false ->
  mem_char BACKSLASH taxname = false ->
  one_line taxid ->
  one_line taxname ->
  exists fs',
    editFasta fs infasta outdir taxid taxname = Ok (fs', CInt 0)
    /\ get_scaffold_ids fs' (fasta_file_path outdir taxid (edited_name infasta))
       = Ok (map (tagged_id taxid taxname) rs).
Proof.
  intros Hst Hwf Hb1 Hb2 Hl1 Hl2. eexists. split.
  - rewrite (editFasta_ok fs infasta outdir taxid taxname _ _ Hst
               (parse_kraken_template taxid taxname Hb1 Hb2)).
    reflexivity.
  - unfold get_scaffold_ids, open_read. rewrite lookup_insert_eq. cbn [bind].
    rewrite (map_ext _ (rewrite_line (fun m => m ++ kraken_suffix taxid taxname)))
      by (intros l; apply rewrite_line_ext; intros m; apply expand_kraken).
    rewrite (rewritten_records taxid taxname Hl1 Hl2 rs Hwf).
    rewrite (ids_of_records
               (fun r => rec_id r ++ rec_desc r ++ kraken_suffix taxid taxname)).
    + f_equal. apply map_ext_in. intros r Hr.
      apply first_word_tagged. exact (proj1 (List.Forall_forall _ _) Hwf r Hr).
    + eapply Forall_impl; [exact Hwf|].
      intros r Hr.
      apply (wf_record_fits taxid taxname Hl1 Hl2) in Hr as [(_ & _ & H) Hs].
      now split.
Qed.

Lemma editFasta_record_ids_witness :
  stored_fasta (fs_one "db/Foo/g.fa" (fasta_text records_two)) "db/Foo/g.fa"
               (fasta_text records_two)
  /\ Forall wf_record records_two
  /\ mem_char BACKSLASH "9606" = false
  /\ mem_char BACKSLASH "Homo sapiens" = false
  /\ one_line "9606"
  /\ one_line "Homo sapiens"
  /\ exists fs',
       editFasta (fs_one "db/Foo/g.fa" (fasta_text records_two)) "db/Foo/g.fa" "work"
                 "9606" "Homo sapiens" = Ok (fs', CInt 0)
       /\ get_scaffold_ids fs' (fasta_file_path "work" "9606" (edited_name "db/Foo/g.fa"))
          = Ok ["seq1"; "seq2|kraken:taxid|9606|Homo"].
Proof.
  assert (H1 : stored_fasta (fs_one "db/Foo/g.fa" (fasta_text records_two))
                 "db/Foo/g.fa" (fasta_text records_two))
    by (unfold stored_fasta, fs_one; simpl; apply lookup_singleton_eq).
  assert (H2 : Forall wf_record records_two).
  { repeat constructor; discriminate. }
  assert (H3 : mem_char BACKSLASH "9606" = false) by reflexivity.
  assert (H4 : mem_char BACKSLASH "Homo sapiens" = false) by reflexivity.
  assert (H5 : one_line "9606") by reflexivity.
  assert (H6 : one_line "Homo sapiens") by reflexivity.
  split; [exact H1 | split; [exact H2 | split; [exact H3 | split; [exact H4 | ]]]].
  split; [exact H5 | split; [exact H6 | ]].
  exact (editFasta_record_ids _ "db/Foo/g.fa" "work" "9606" "Homo sapiens"
           records_two H1 H2 H3 H4 H5 H6).
Defined.
